(** * Serial Vault: keypair and signing-log handlers

    A shallow embedding of the HTTP handlers of package [service]
    (keypair handlers and the signing-log handler) over the [Datastore]
    interface of package [datastore], with the properties of the signing-key
    lifecycle that the handlers decide.

    Conventions of the embedding:
    - Go [int] is [Z]; Go [string] is [string]; a Go slice is a [list];
    - a Go result [(T, error)] is [result T]; a Go result [(string, error)]
      whose string is an error code read on the error path is a pair
      [string * error];
    - [mux.Vars], form values and HTTP headers are [gmap string string];
    - a handler is a computation in the state monad [M] over a [World]:
      the datastore behind [Environ.DB], the [http.ResponseWriter], the
      goroutines started by [go] statements and the trace of the calls
      that left the handler. *)

From Stdlib Require Import ZArith String Ascii DecimalString List Bool Lia.
From stdpp Require Import base strings list gmap.

Local Open Scope string_scope.
Local Open Scope Z_scope.

(** ** Results and errors *)

(** Go's [error]: [nil] or a value whose [Error()] is the message. *)
Definition error := option string.

(** Go's [(T, error)]. *)
Inductive result (A : Type) : Type :=
| Ok (a : A)
| Err (msg : string).
Arguments Ok {A} a.
Arguments Err {A} msg.

(** Outcome of [json.NewDecoder(r.Body).Decode(&v)] as the handlers
    branch on it: [io.EOF], another error, or the filled struct. *)
Inductive json_result (A : Type) : Type :=
| JsonEOF
| JsonErr (msg : string)
| JsonOk (v : A).
Arguments JsonEOF {A}.
Arguments JsonErr {A} msg.
Arguments JsonOk {A} v.

(** ** Data model *)

(** [datastore.User]; the handlers read [Username] only. *)
Record User := { Username : string }.

(** [datastore.Keypair]. *)
Module Keypair.
Record t := {
  ID : Z;
  AuthorityID : string;
  KeyID : string;
  Active : bool;
  SealedKey : string;
  Assertion : string;
}.
End Keypair.

(** [service.KeypairWithPrivateKey]. *)
Module KeypairWithPrivateKey.
Record t := {
  ID : Z;
  AuthorityID : string;
  PrivateKey : string;
  KeyName : string;
}.
Definition with_AuthorityID (a : string) (k : t) : t :=
  {| ID := ID k; AuthorityID := a; PrivateKey := PrivateKey k;
     KeyName := KeyName k |}.
End KeypairWithPrivateKey.

(** [service.AssertionRequest]: the body of an attach-assertion request,
    posted by the admin client as [{id: keyId, assertion: assertion}]. *)
Module AssertionRequest.
Record t := {
  ID : Z;
  Assertion : string;
}.
End AssertionRequest.

(** [datastore.KeypairStatus]. *)
Module KeypairStatus.
Record t := {
  AuthorityID : string;
  KeyName : string;
  Status : string;
}.
End KeypairStatus.

(** [SigningLog]: one row of the signing log. *)
Module SigningLog.
Record t := {
  ID : Z;
  Make : string;
  Model : string;
  SerialNumber : string;
  Fingerprint : string;
}.
End SigningLog.

(** A decoded assertion of [snapd/asserts], as far as the handlers look
    at it: [Type().Name] and the headers. *)
Module Assertion.
Record t := {
  TypeName : string;
  Headers : gmap string string;
}.
(** [HeaderString]: the header's value, the empty string when absent. *)
Definition HeaderString (a : t) (name : string) : string :=
  default "" (Headers a !! name).
End Assertion.

(** What [ImportSigningKey] returns as [asserts.PrivateKey]; the handler
    reads [PublicKey().ID()] only. *)
Record PrivateKey := { PublicKeyID : string }.

(** [asserts.AccountKeyType.Name]. *)
Definition AccountKeyTypeName : string := "account-key".

(** [net/http] status codes used by the handlers. *)
Definition StatusOK : Z := 200.
Definition StatusAccepted : Z := 202.
Definition StatusBadRequest : Z := 400.
Definition StatusInternalServerError : Z := 500.

(** ** Requests and responses *)

(** The part of [*http.Request] the handlers read. [Body = None] is the
    nil body; the body's content has the abstract type [B], read through
    the JSON decoders only. *)
Record Request (B : Type) := {
  Vars : gmap string string;
  Form : gmap string string;
  Headers : gmap string string;
  Body : option B;
}.
Arguments Vars {B} r.
Arguments Form {B} r.
Arguments Headers {B} r.
Arguments Body {B} r.

(** [mux.Vars(r)[k]]: a missing key of a Go map reads as the zero value. *)
Definition var {B} (r : Request B) (k : string) : string :=
  default "" (Vars r !! k).

(** [r.FormValue(k)]: the empty string when the parameter is absent. *)
Definition FormValue {B} (r : Request B) (k : string) : string :=
  default "" (Form r !! k).

(** The JSON documents the [format...Response] helpers encode to the
    writer. *)
Inductive Payload :=
| BooleanResponse (success : bool) (errorCode errorSubcode message : string)
| KeypairsResponse (success : bool) (errorCode errorSubcode message : string)
                   (keypairs : list Keypair.t)
| KeypairStatusResponse (success : bool) (errorCode errorSubcode message : string)
                        (status : list KeypairStatus.t)
| SigningLogResponse (success : bool) (errorCode errorSubcode message : string)
                     (logs : list SigningLog.t).

Definition payload_success (p : Payload) : bool :=
  match p with
  | BooleanResponse s _ _ _ | KeypairsResponse s _ _ _ _
  | KeypairStatusResponse s _ _ _ _ | SigningLogResponse s _ _ _ _ => s
  end.

(** [http.ResponseWriter]: the header map, the status code of the first
    explicit [WriteHeader] call ([None] when the handler made none) and
    the documents written, oldest first. *)
Record ResponseWriter := {
  RespHeader : gmap string string;
  RespStatus : option Z;
  Written : list Payload;
}.

Definition emptyWriter : ResponseWriter :=
  {| RespHeader := ∅; RespStatus := None; Written := [] |}.

(** ** The world a handler runs in *)

(** A call started by a [go] statement that has not run yet. *)
Inductive GoCall :=
| GoGenerateKeypair (authorityID passphrase keyName : string).

(** Calls that leave the handler, in the order they are made. *)
Inductive Call :=
| CallCheckJWT
| CallJSONDecode
| CallCheckUserInAccount (username authorityID : string)
| CallListAllowedKeypairs (u : User)
| CallImportSigningKey (authorityID armored : string)
| CallPutKeypair (k : Keypair.t)
| CallUpdateKeypairAssertion (k : Keypair.t) (u : User)
| CallGetKeypairStatus (authorityID keyName : string)
| CallListSigningLog (fromID : Z)
| CallBase64Decode (s : string)
| CallAssertsDecode (bytes : string)
| CallLogMessage (source code message : string).

Record World (S : Type) := {
  db : S;
  writer : ResponseWriter;
  goroutines : list GoCall;
  calls : list Call;
}.
Arguments db {S} w.
Arguments writer {S} w.
Arguments goroutines {S} w.
Arguments calls {S} w.

(** A fresh request against datastore state [s]. *)
Definition start {S} (s : S) : World S :=
  {| db := s; writer := emptyWriter; goroutines := []; calls := [] |}.

(** ** The handler monad *)

Definition M (S A : Type) : Type := World S -> A * World S.

Definition ret {S A} (a : A) : M S A := fun w => (a, w).

Definition bind {S A B} (m : M S A) (k : A -> M S B) : M S B :=
  fun w => let (a, w') := m w in k a w'.

Declare Scope handler_scope.
Delimit Scope handler_scope with handler.
Notation "x <- m ;; k" := (bind m (fun x => k))
  (at level 100, m at next level, right associativity) : handler_scope.
Notation "m ;; k" := (bind m (fun _ => k))
  (at level 100, right associativity) : handler_scope.

(** The world a handler leaves behind. *)
Definition run {S A} (m : M S A) (w : World S) : World S := snd (m w).

(** The last document written to the response, if any. *)
Definition response {S} (w : World S) : option Payload := last (Written (writer w)).

(** ** Collaborators *)

(** The [Datastore] interface of package [datastore], restricted to the
    methods the handlers below call, over a datastore state [S]. Queries
    read the state; [PutKeypair] and [UpdateKeypairAssertion] may change
    it. [ListSigningLog] is the method the signing-log handler calls on
    [Environ.DB]; the interface as the sources have it does not declare
    it. [ListAllowedSigningLog] is the listing the interface declares. *)
Class Datastore (S : Type) := {
  ListAllowedKeypairs : S -> User -> result (list Keypair.t);
  PutKeypair : S -> Keypair.t -> S * (string * error);
  UpdateKeypairAssertion : S -> Keypair.t -> User -> S * (string * error);
  CheckUserInAccount : S -> string -> string -> bool;
  GetKeypairStatus : S -> string -> string -> result KeypairStatus.t;
  ListSigningLog : S -> Z -> result (list SigningLog.t);
  ListAllowedSigningLog : S -> User -> result (list SigningLog.t);
}.

(** The calls of the handlers into code that is not part of the two
    handler files: the JWT check, [encoding/json] decoding of the two
    request structs, [strings.TrimSpace],
    [base64.StdEncoding.DecodeString], [asserts.Decode] and the keypair
    store's [ImportSigningKey]. Each is taken by its result; the JWT
    check may read the datastore, and whatever it writes to the response
    is not part of the model. *)
Class Library (S B : Type) := {
  checkIsAdminAndGetUserFromJWT : S -> Request B -> result User;
  decodeKeypairWithPrivateKey : B -> json_result KeypairWithPrivateKey.t;
  decodeAssertionRequest : B -> json_result AssertionRequest.t;
  TrimSpace : string -> string;
  base64_DecodeString : string -> result string;
  asserts_Decode : string -> result Assertion.t;
  ImportSigningKey : string -> string -> result (PrivateKey * string);
}.

(** ** Primitive effects *)

Section Effects.
Context {S : Type}.

Definition getDB : M S S := fun w => (db w, w).

Definition putDB (s : S) : M S unit := fun w =>
  (tt, {| db := s; writer := writer w; goroutines := goroutines w;
          calls := calls w |}).

Definition call (c : Call) : M S unit := fun w =>
  (tt, {| db := db w; writer := writer w; goroutines := goroutines w;
          calls := calls w ++ [c] |}).

Definition onWriter (f : ResponseWriter -> ResponseWriter) : M S unit := fun w =>
  (tt, {| db := db w; writer := f (writer w); goroutines := goroutines w;
          calls := calls w |}).

(** [w.Header().Set(k, v)]. *)
Definition HeaderSet (k v : string) : M S unit :=
  onWriter (fun rw =>
    {| RespHeader := <[k := v]> (RespHeader rw); RespStatus := RespStatus rw;
       Written := Written rw |}).

(** [w.WriteHeader(code)]: only the first call sets the status. *)
Definition WriteHeader (code : Z) : M S unit :=
  onWriter (fun rw =>
    {| RespHeader := RespHeader rw;
       RespStatus := match RespStatus rw with
                     | None => Some code
                     | Some c => Some c
                     end;
       Written := Written rw |}).

Definition write (p : Payload) : M S unit :=
  onWriter (fun rw =>
    {| RespHeader := RespHeader rw; RespStatus := RespStatus rw;
       Written := Written rw ++ [p] |}).

(** The [go] statement: the call is recorded as started, it has not run
    when the statement returns. *)
Definition go (g : GoCall) : M S unit := fun w =>
  (tt, {| db := db w; writer := writer w; goroutines := goroutines w ++ [g];
          calls := calls w |}).

(** The [format...Response] helpers encode their arguments as one JSON
    document to the writer. *)
Definition formatBooleanResponse (success : bool)
  (errorCode errorSubcode message : string) : M S unit :=
  write (BooleanResponse success errorCode errorSubcode message).

Definition formatKeypairsResponse (success : bool)
  (errorCode errorSubcode message : string) (keypairs : list Keypair.t) : M S unit :=
  write (KeypairsResponse success errorCode errorSubcode message keypairs).

Definition formatSigningLogResponse (success : bool)
  (errorCode errorSubcode message : string) (logs : list SigningLog.t) : M S unit :=
  write (SigningLogResponse success errorCode errorSubcode message logs).

Definition logMessage (source code message : string) : M S unit :=
  call (CallLogMessage source code message).

End Effects.

(** ** [strconv.Atoi] *)

(** The size of Go's [int] on the 64-bit platforms the service runs on. *)
Definition intSize : Z := 64.
Definition maxInt : Z := 2 ^ (intSize - 1) - 1.
Definition minInt : Z := - 2 ^ (intSize - 1).

Definition digit_of (c : ascii) : option Z :=
  let n := Z.of_N (N_of_ascii c) in
  if ((48 <=? n) && (n <=? 57))%Z then Some (n - 48) else None.

(** The decimal value of a string of digits, most significant first. *)
Fixpoint digits (s : string) (acc : Z) : option Z :=
  match s with
  | EmptyString => Some acc
  | String c s' =>
    match digit_of c with
    | Some d => digits s' (acc * 10 + d)
    | None => None
    end
  end.

(** [strconv.Atoi]: an optional sign and at least one decimal digit,
    nothing else; a value outside [int] is a range error. The handler
    tests the error only, so the messages are kept short. *)
Definition Atoi (s : string) : result Z :=
  match s with
  | EmptyString => Err "invalid syntax"
  | String c rest =>
    let '(neg, body) :=
      if Ascii.eqb c "-"%char then (true, rest)
      else if Ascii.eqb c "+"%char then (false, rest)
      else (false, s) in
    match body with
    | EmptyString => Err "invalid syntax"
    | _ =>
      match digits body 0 with
      | None => Err "invalid syntax"
      | Some n =>
        let v := if neg then - n else n in
        if ((minInt <=? v) && (v <=? maxInt))%Z then Ok v
        else Err "value out of range"
      end
    end
  end.

(** ** The handlers of package [service] *)

Section Handlers.
Context {S B : Type} {DS : Datastore S} {LIB : Library S B}.

Local Open Scope handler_scope.

(** Collaborator calls, each recorded in the trace. *)

Definition checkJWT (r : Request B) : M S (result User) :=
  call CallCheckJWT ;;
  s <- getDB ;;
  ret (checkIsAdminAndGetUserFromJWT s r).

Definition jsonDecode {A} (dec : B -> json_result A) (body : B) : M S (json_result A) :=
  call CallJSONDecode ;;
  ret (dec body).

Definition dbCheckUserInAccount (username authorityID : string) : M S bool :=
  call (CallCheckUserInAccount username authorityID) ;;
  s <- getDB ;;
  ret (CheckUserInAccount s username authorityID).

Definition dbListAllowedKeypairs (u : User) : M S (result (list Keypair.t)) :=
  call (CallListAllowedKeypairs u) ;;
  s <- getDB ;;
  ret (ListAllowedKeypairs s u).

Definition dbPutKeypair (k : Keypair.t) : M S (string * error) :=
  call (CallPutKeypair k) ;;
  s <- getDB ;;
  let (s', res) := PutKeypair s k in
  putDB s' ;;
  ret res.

Definition dbUpdateKeypairAssertion (k : Keypair.t) (u : User) : M S (string * error) :=
  call (CallUpdateKeypairAssertion k u) ;;
  s <- getDB ;;
  let (s', res) := UpdateKeypairAssertion s k u in
  putDB s' ;;
  ret res.

Definition dbGetKeypairStatus (authorityID keyName : string) : M S (result KeypairStatus.t) :=
  call (CallGetKeypairStatus authorityID keyName) ;;
  s <- getDB ;;
  ret (GetKeypairStatus s authorityID keyName).

Definition dbListSigningLog (fromID : Z) : M S (result (list SigningLog.t)) :=
  call (CallListSigningLog fromID) ;;
  s <- getDB ;;
  ret (ListSigningLog s fromID).

Definition kdbImportSigningKey (authorityID armored : string) : M S (result (PrivateKey * string)) :=
  call (CallImportSigningKey authorityID armored) ;;
  ret (ImportSigningKey authorityID armored).

Definition base64Decode (s : string) : M S (result string) :=
  call (CallBase64Decode s) ;;
  ret (base64_DecodeString s).

Definition assertsDecode (bytes : string) : M S (result Assertion.t) :=
  call (CallAssertsDecode bytes) ;;
  ret (asserts_Decode bytes).

(** The filter loop of [KeypairListHandler]:
    [for _, k := range userKeypairs { if k.AuthorityID == accountCode
    { keypairs = append(keypairs, k) } }]. *)
Definition keypairsForAccount (accountCode : string)
  (userKeypairs : list Keypair.t) : list Keypair.t :=
  fold_left
    (fun (keypairs : list Keypair.t) k =>
       if String.eqb (Keypair.AuthorityID k) accountCode
       then (keypairs ++ [k])%list else keypairs)
    userKeypairs [].

(** [KeypairListHandler]. *)
Definition KeypairListHandler (r : Request B) : M S unit :=
  HeaderSet "Content-Type" "application/json; charset=UTF-8" ;;
  au <- checkJWT r ;;
  match au with
  | Err _ => formatKeypairsResponse false "error-auth" "" "" []
  | Ok authUser =>
    let accountCode := var r "account_code" in
    l <- dbListAllowedKeypairs authUser ;;
    match l with
    | Err e =>
      WriteHeader StatusInternalServerError ;;
      formatKeypairsResponse false "error-fetch-keypairs" "" e []
    | Ok userKeypairs =>
      let keypairs := keypairsForAccount accountCode userKeypairs in
      WriteHeader StatusOK ;;
      formatKeypairsResponse true "" "" "" keypairs
    end
  end.

(** [verifyKeypair]: the decoded request with its authority-id trimmed
    when the second result of the Go function is [true], [None] when it
    is [false] (the callers drop the struct then). *)
Definition verifyKeypair (r : Request B) : M S (option KeypairWithPrivateKey.t) :=
  HeaderSet "Content-Type" "application/json; charset=UTF-8" ;;
  au <- checkJWT r ;;
  match au with
  | Err _ =>
    formatBooleanResponse false "error-auth" "" "" ;;
    ret None
  | Ok authUser =>
    match Body r with
    | None =>
      WriteHeader StatusBadRequest ;;
      formatBooleanResponse false "error-nil-data" "" "Uninitialized POST data" ;;
      ret None
    | Some body =>
      d <- jsonDecode decodeKeypairWithPrivateKey body ;;
      match d with
      | JsonEOF =>
        WriteHeader StatusBadRequest ;;
        formatBooleanResponse false "error-keypair-data" "" "No keypair data supplied" ;;
        ret None
      | JsonErr e =>
        WriteHeader StatusBadRequest ;;
        formatBooleanResponse false "error-keypair-json" "" e ;;
        ret None
      | JsonOk decoded =>
        let keypairWithKey :=
          KeypairWithPrivateKey.with_AuthorityID
            (TrimSpace (KeypairWithPrivateKey.AuthorityID decoded)) decoded in
        if (String.length (KeypairWithPrivateKey.AuthorityID keypairWithKey) =? 0)%nat
        then
          WriteHeader StatusBadRequest ;;
          formatBooleanResponse false "error-keypair-json" "" "The authority-id is mandatory" ;;
          ret None
        else
          allowed <- dbCheckUserInAccount (Username authUser)
                       (KeypairWithPrivateKey.AuthorityID keypairWithKey) ;;
          if negb allowed
          then
            WriteHeader StatusBadRequest ;;
            formatBooleanResponse false "error-auth" ""
              "Your user does not have permissions for the Signing Authority" ;;
            ret None
          else ret (Some keypairWithKey)
      end
    end
  end.

(** [KeypairCreateHandler]. *)
Definition KeypairCreateHandler (r : Request B) : M S unit :=
  v <- verifyKeypair r ;;
  match v with
  | None => ret tt
  | Some keypairWithKey =>
    imp <- kdbImportSigningKey (KeypairWithPrivateKey.AuthorityID keypairWithKey)
             (KeypairWithPrivateKey.PrivateKey keypairWithKey) ;;
    match imp with
    | Err e =>
      WriteHeader StatusBadRequest ;;
      formatBooleanResponse false "error-keypair-store" "" e
    | Ok (privateKey, sealedPrivateKey) =>
      let keypair :=
        {| Keypair.ID := 0;
           Keypair.AuthorityID := KeypairWithPrivateKey.AuthorityID keypairWithKey;
           Keypair.KeyID := PublicKeyID privateKey;
           Keypair.Active := false;
           Keypair.SealedKey := sealedPrivateKey;
           Keypair.Assertion := "" |} in
      res <- dbPutKeypair keypair ;;
      match res with
      | (errorCode, Some e) =>
        WriteHeader StatusBadRequest ;;
        formatBooleanResponse false errorCode "" e
      | (_, None) =>
        WriteHeader StatusOK ;;
        formatBooleanResponse true "" "" ""
      end
    end
  end.

(** [KeypairAssertionHandler]. *)
Definition KeypairAssertionHandler (r : Request B) : M S unit :=
  HeaderSet "Content-Type" "application/json; charset=UTF-8" ;;
  au <- checkJWT r ;;
  match au with
  | Err _ => formatBooleanResponse false "error-auth" "" ""
  | Ok authUser =>
    match Body r with
    | None =>
      WriteHeader StatusBadRequest ;;
      formatBooleanResponse false "error-nil-data" "" "Uninitialized POST data"
    | Some body =>
      d <- jsonDecode decodeAssertionRequest body ;;
      match d with
      | JsonEOF =>
        WriteHeader StatusBadRequest ;;
        formatBooleanResponse false "error-assertion-data" "" "No assertion data supplied"
      | JsonErr e =>
        WriteHeader StatusBadRequest ;;
        formatBooleanResponse false "error-assertion-json" "" e
      | JsonOk assertionRequest =>
        if AssertionRequest.ID assertionRequest =? 0
        then
          logMessage "KEYPAIR" "invalid-keypair" "ID of keypair not provided" ;;
          WriteHeader StatusBadRequest ;;
          formatBooleanResponse false "invalid-keypair" "" "ID of keypair not provided"
        else
          dec <- base64Decode (AssertionRequest.Assertion assertionRequest) ;;
          match dec with
          | Err e =>
            logMessage "KEYPAIR" "invalid-assertion" e ;;
            WriteHeader StatusBadRequest ;;
            formatBooleanResponse false "decode-assertion" "" e
          | Ok decodedAssertion =>
            a <- assertsDecode decodedAssertion ;;
            match a with
            | Err e =>
              logMessage "KEYPAIR" "invalid-assertion" e ;;
              WriteHeader StatusBadRequest ;;
              formatBooleanResponse false "decode-assertion" "" e
            | Ok assertion =>
              if negb (String.eqb (Assertion.TypeName assertion) AccountKeyTypeName)
              then
                WriteHeader StatusBadRequest ;;
                formatBooleanResponse false "invalid-assertion" ""
                  ("An assertion of type '" +:+ AccountKeyTypeName +:+ "' is required")
              else
                let keypair :=
                  {| Keypair.ID := AssertionRequest.ID assertionRequest;
                     Keypair.AuthorityID := Assertion.HeaderString assertion "account-id";
                     Keypair.KeyID := Assertion.HeaderString assertion "public-key-sha3-384";
                     Keypair.Active := false;
                     Keypair.SealedKey := "";
                     Keypair.Assertion := decodedAssertion |} in
                res <- dbUpdateKeypairAssertion keypair authUser ;;
                match res with
                | (errorCode, Some e) =>
                  logMessage "KEYPAIR" "invalid-assertion" e ;;
                  WriteHeader StatusBadRequest ;;
                  formatBooleanResponse false errorCode "" e
                | (_, None) => formatBooleanResponse true "" "" ""
                end
            end
          end
      end
    end
  end.

(** [KeypairGenerateHandler]. The generation itself is
    [go datastore.GenerateKeypair(...)]: started, not awaited. *)
Definition KeypairGenerateHandler (r : Request B) : M S unit :=
  v <- verifyKeypair r ;;
  match v with
  | None => ret tt
  | Some keypair =>
    go (GoGenerateKeypair (KeypairWithPrivateKey.AuthorityID keypair) ""
          (KeypairWithPrivateKey.KeyName keypair)) ;;
    let statusURL :=
      "/v1/keypairs/status/" +:+ KeypairWithPrivateKey.AuthorityID keypair
        +:+ "/" +:+ KeypairWithPrivateKey.KeyName keypair in
    WriteHeader StatusAccepted ;;
    HeaderSet "Location" statusURL ;;
    formatBooleanResponse true "" "" statusURL
  end.

(** [KeypairStatusHandler]. *)
Definition KeypairStatusHandler (r : Request B) : M S unit :=
  au <- checkJWT r ;;
  match au with
  | Err _ => formatBooleanResponse false "error-auth" "" ""
  | Ok authUser =>
    allowed <- dbCheckUserInAccount (Username authUser) (var r "authorityID") ;;
    if negb allowed
    then
      WriteHeader StatusBadRequest ;;
      formatBooleanResponse false "error-auth" ""
        "Your user does not have permissions for the Signing Authority"
    else
      st <- dbGetKeypairStatus (var r "authorityID") (var r "keyName") ;;
      match st with
      | Err _ =>
        WriteHeader StatusBadRequest ;;
        formatBooleanResponse false "error-keypair-json" ""
          "Cannot find the status of the keypair"
      | Ok ks => formatBooleanResponse true "" "" (KeypairStatus.Status ks)
      end
  end.

(** [SigningLogHandler]; [MaxFromID] is the package constant it falls
    back to. *)
Definition SigningLogHandler (MaxFromID : Z) (r : Request B) : M S unit :=
  HeaderSet "Content-Type" "application/json; charset=UTF-8" ;;
  let fromDateParam := FormValue r "fromID" in
  let fromID :=
    if (String.length fromDateParam =? 0)%nat then MaxFromID
    else match Atoi fromDateParam with
         | Ok n => n
         | Err _ => MaxFromID
         end in
  l <- dbListSigningLog fromID ;;
  match l with
  | Err e =>
    WriteHeader StatusInternalServerError ;;
    formatSigningLogResponse false "error-fetch-signinglog" "" e []
  | Ok logs =>
    WriteHeader StatusOK ;;
    formatSigningLogResponse true "" "" "" logs
  end.

End Handlers.

(** One request served on a fresh [http.ResponseWriter], with a trace of
    its own; the datastore and the goroutines already started carry
    over. *)
Definition serve {S B} (h : Request B -> M S unit) (r : Request B)
  (w : World S) : World S :=
  run (h r)
      {| db := db w; writer := emptyWriter; goroutines := goroutines w;
         calls := [] |}.

(** ** An in-memory datastore *)

(** [Datastore] is an interface: its methods are declarations without a
    body. [MemDB] implements them over finite maps, following the
    specification's description of each operation. *)
Module MemDB.

(** The tables: keypairs by primary key, generation status by
    (authority-id, key-name), the signing log, and the user/account
    links ([useraccountlink] joined with [userinfo] and [account]) as
    pairs (username, authority-id). *)
Record t := {
  keypairs : gmap Z Keypair.t;
  keypairStatus : gmap (string * string) KeypairStatus.t;
  signingLog : list SigningLog.t;
  accountUsers : list (string * string);
}.

(** Modelled from the spec: [CheckUserInAccount] (declared in the
    interface, no body) is the consumed capability
    [IsPermitted(user, authorityID)]; here the user is linked to the
    account. *)
Definition CheckUserInAccount (s : t) (username authorityID : string) : bool :=
  bool_decide ((username, authorityID) ∈ accountUsers s).

(** Modelled from the spec: [ListAllowedKeypairs] (no body) returns the
    keypairs scoped to authorities the requester may see. *)
Definition ListAllowedKeypairs (s : t) (u : User) : result (list Keypair.t) :=
  Ok (List.filter
        (fun k => CheckUserInAccount s (Username u) (Keypair.AuthorityID k))
        (map snd (map_to_list (keypairs s)))).

Definition nextID (m : gmap Z Keypair.t) : Z :=
  Z.succ (map_fold (fun i _ acc => Z.max i acc) 0 m).

(** Modelled from the spec: [PutKeypair] (no body) inserts a new row,
    rejecting it when (authorityID, keyID) already exists. *)
Definition PutKeypair (s : t) (k : Keypair.t) : t * (string * error) :=
  if existsb
       (fun row => String.eqb (Keypair.AuthorityID row) (Keypair.AuthorityID k)
                   && String.eqb (Keypair.KeyID row) (Keypair.KeyID k))
       (map snd (map_to_list (keypairs s)))
  then (s, ("DuplicateKeyError", Some "the keypair already exists"))
  else
    let id := nextID (keypairs s) in
    let row :=
      {| Keypair.ID := id; Keypair.AuthorityID := Keypair.AuthorityID k;
         Keypair.KeyID := Keypair.KeyID k; Keypair.Active := Keypair.Active k;
         Keypair.SealedKey := Keypair.SealedKey k;
         Keypair.Assertion := Keypair.Assertion k |} in
    ({| keypairs := <[id := row]> (keypairs s);
        keypairStatus := keypairStatus s; signingLog := signingLog s;
        accountUsers := accountUsers s |}, ("", None)).

(** Modelled from the spec: [UpdateKeypairAssertion] (no body) is
    [AttachAssertion(keypairID, validatedAssertion, requester)]: it sets
    the account-key assertion text and overwrites keyID and authorityID
    from the assertion's headers, enforcing that the assertion's declared
    authority is one the requester is permitted to administer; errors:
    [NotAuthorizedError], [NotFoundError]. *)
Definition UpdateKeypairAssertion (s : t) (k : Keypair.t) (u : User)
  : t * (string * error) :=
  if negb (CheckUserInAccount s (Username u) (Keypair.AuthorityID k))
  then (s, ("NotAuthorizedError", Some "not permitted"))
  else
    match keypairs s !! Keypair.ID k with
    | None => (s, ("NotFoundError", Some "keypair not found"))
    | Some row =>
      let row' :=
        {| Keypair.ID := Keypair.ID row;
           Keypair.AuthorityID := Keypair.AuthorityID k;
           Keypair.KeyID := Keypair.KeyID k;
           Keypair.Active := Keypair.Active row;
           Keypair.SealedKey := Keypair.SealedKey row;
           Keypair.Assertion := Keypair.Assertion k |} in
      ({| keypairs := <[Keypair.ID k := row']> (keypairs s);
          keypairStatus := keypairStatus s; signingLog := signingLog s;
          accountUsers := accountUsers s |}, ("", None))
    end.

(** Modelled from the spec: [GetKeypairStatus] (no body) is the
    read-only [GetStatus(authorityID, keyName)] of the generation
    tracker. *)
Definition GetKeypairStatus (s : t) (authorityID keyName : string)
  : result KeypairStatus.t :=
  match keypairStatus s !! (authorityID, keyName) with
  | Some ks => Ok ks
  | None => Err "sql: no rows in result set"
  end.

(** [ListSigningLog] is called by the signing-log handler and has neither
    a declaration under the sources nor a sentence in the specification;
    all that is known of it is its type, a paging bound in and entries
    out. The handler's theorems hold for every implementation. So that
    requests can be run the table gives it one reading of the bound: the
    rows whose id is below it. *)
Definition ListSigningLog (s : t) (fromID : Z) : result (list SigningLog.t) :=
  Ok (List.filter (fun e => SigningLog.ID e <? fromID) (signingLog s)).

(** Modelled from the spec: [ListAllowedSigningLog] (no body) is
    [List(requester, filters)]: the entries scoped by the requester's
    permitted authorities. The specification's entry has no authority
    field; the make, the brand the device was signed for, is read as its
    authority. No handler under the sources calls the method. *)
Definition ListAllowedSigningLog (s : t) (u : User) : result (list SigningLog.t) :=
  Ok (List.filter
        (fun e => CheckUserInAccount s (Username u) (SigningLog.Make e))
        (signingLog s)).

End MemDB.

#[export] Instance MemDB_Datastore : Datastore MemDB.t := {|
  ListAllowedKeypairs := MemDB.ListAllowedKeypairs;
  PutKeypair := MemDB.PutKeypair;
  UpdateKeypairAssertion := MemDB.UpdateKeypairAssertion;
  CheckUserInAccount := MemDB.CheckUserInAccount;
  GetKeypairStatus := MemDB.GetKeypairStatus;
  ListSigningLog := MemDB.ListSigningLog;
  ListAllowedSigningLog := MemDB.ListAllowedSigningLog;
|}.

(** ** A concrete library for running the handlers *)

(** The library calls are parameters of the handlers. [Fixture] makes
    them executable, so that a handler can be evaluated on a concrete
    request. [strings.TrimSpace], [base64.StdEncoding.DecodeString] and
    [asserts.Decode] follow the libraries; the JWT check, the JSON
    decoders and the key import are small stand-ins, in the manner of
    the mocks the repository's handler tests put behind [Environ]. *)
Module Fixture.

(** A request body as the JSON decoder sees it: an empty stream, a text
    that is not JSON, or an object already mapped onto the fields of the
    request structs (a field absent from the object is at its zero
    value). *)
Inductive Doc :=
| DocEmpty
| DocInvalid (msg : string)
| DocKeypair (k : KeypairWithPrivateKey.t)
| DocAssertion (a : AssertionRequest.t).

Definition decodeKeypairWithPrivateKey (d : Doc) : json_result KeypairWithPrivateKey.t :=
  match d with
  | DocEmpty => JsonEOF
  | DocInvalid msg => JsonErr msg
  | DocKeypair k => JsonOk k
  | DocAssertion a =>
    JsonOk {| KeypairWithPrivateKey.ID := AssertionRequest.ID a;
              KeypairWithPrivateKey.AuthorityID := "";
              KeypairWithPrivateKey.PrivateKey := "";
              KeypairWithPrivateKey.KeyName := "" |}
  end.

Definition decodeAssertionRequest (d : Doc) : json_result AssertionRequest.t :=
  match d with
  | DocEmpty => JsonEOF
  | DocInvalid msg => JsonErr msg
  | DocKeypair k =>
    JsonOk {| AssertionRequest.ID := KeypairWithPrivateKey.ID k;
              AssertionRequest.Assertion := "" |}
  | DocAssertion a => JsonOk a
  end.

(** The user is named by the [Authorization] header. *)
Definition checkIsAdminAndGetUserFromJWT {S} (_ : S) (r : Request Doc) : result User :=
  match Headers r !! "Authorization" with
  | Some name => Ok {| Username := name |}
  | None => Err "Error in retrieving the authentication token"
  end.

(** *** [strings.TrimSpace] *)

Definition code (c : ascii) : N := N_of_ascii c.

(** White space in one byte: tab, line feed, vertical tab, form feed,
    carriage return, space. *)
Definition isSpace (c : ascii) : bool :=
  ((9 <=? code c) && (code c <=? 13) || (code c =? 32))%N.

(** The white-space runes that take two bytes in UTF-8, U+0085 and
    U+00A0, and those that take three: U+1680, U+2000 to U+200A, U+2028,
    U+2029, U+202F, U+205F and U+3000. With the six above they are the
    runes [unicode.IsSpace] accepts. *)
Definition isSpace2 (a b : N) : bool :=
  ((a =? 194) && ((b =? 133) || (b =? 160)))%N.

Definition isSpace3 (a b c : N) : bool :=
  ((a =? 225) && (b =? 154) && (c =? 128)
   || (a =? 226) && (b =? 128)
      && ((128 <=? c) && (c <=? 138) || (c =? 168) || (c =? 169) || (c =? 175))
   || (a =? 226) && (b =? 129) && (c =? 159)
   || (a =? 227) && (b =? 128) && (c =? 128))%N.

(** The width in bytes of the white-space rune the bytes start with, 0
    when they start with none. *)
Definition leadingSpace (s : list ascii) : nat :=
  match s with
  | a :: rest =>
    if isSpace a then 1%nat
    else
      match rest with
      | b :: rest' =>
        if isSpace2 (code a) (code b) then 2%nat
        else
          match rest' with
          | c :: _ => if isSpace3 (code a) (code b) (code c) then 3%nat else 0%nat
          | [] => 0%nat
          end
      | [] => 0%nat
      end
  | [] => 0%nat
  end.

(** The same for the rune the bytes end with; [r] holds them last byte
    first. *)
Definition trailingSpace (r : list ascii) : nat :=
  match r with
  | c :: rest =>
    if isSpace c then 1%nat
    else
      match rest with
      | b :: rest' =>
        if isSpace2 (code b) (code c) then 2%nat
        else
          match rest' with
          | a :: _ => if isSpace3 (code a) (code b) (code c) then 3%nat else 0%nat
          | [] => 0%nat
          end
      | [] => 0%nat
      end
  | [] => 0%nat
  end.

(** Drops white-space runes from the front, as measured by [width]; each
    round drops one rune, so the length of the text is fuel enough. *)
Fixpoint trimFunc (width : list ascii -> nat) (fuel : nat) (s : list ascii)
  : list ascii :=
  match fuel with
  | O => s
  | Datatypes.S fuel' =>
    match width s with
    | O => s
    | w => trimFunc width fuel' (drop w s)
    end
  end.

Definition trimLeft (s : list ascii) : list ascii :=
  trimFunc leadingSpace (length s) s.

Definition trimRight (s : list ascii) : list ascii :=
  rev (trimFunc trailingSpace (length s) (rev s)).

Definition TrimSpace (s : string) : string :=
  string_of_list_ascii (trimRight (trimLeft (list_ascii_of_string s))).

(** *** [encoding/base64] *)

(** An encoding: the value of each character of its alphabet, and its
    padding character if it pads. *)
Record Encoding := {
  decodeMap : ascii -> option N;
  padChar : option ascii;
}.

Definition alphabet (c62 c63 : N) (c : ascii) : option N :=
  let n := code c in
  if ((65 <=? n) && (n <=? 90))%N then Some (n - 65)%N
  else if ((97 <=? n) && (n <=? 122))%N then Some (n - 71)%N
  else if ((48 <=? n) && (n <=? 57))%N then Some (n + 4)%N
  else if (n =? c62)%N then Some 62%N
  else if (n =? c63)%N then Some 63%N
  else None.

(** [base64.StdEncoding]: + and /, padded with =. *)
Definition StdEncoding : Encoding :=
  {| decodeMap := alphabet 43 47; padChar := Some "="%char |}.

(** [base64.RawURLEncoding]: - and _, no padding. *)
Definition RawURLEncoding : Encoding :=
  {| decodeMap := alphabet 45 95; padChar := None |}.

Definition isPad (enc : Encoding) (c : ascii) : bool :=
  match padChar enc with
  | Some p => Ascii.eqb c p
  | None => false
  end.

Definition isNewline (c : ascii) : bool :=
  Ascii.eqb c "010"%char || Ascii.eqb c "013"%char.

Fixpoint skipNewlines (src : list ascii) (si : nat) : list ascii * nat :=
  match src with
  | c :: rest => if isNewline c then skipNewlines rest (Datatypes.S si) else (src, si)
  | [] => ([], si)
  end.

Definition byte_of (n : N) : ascii := ascii_of_N (n mod 256).

(** The bytes of a quantum of four, three or two characters. *)
Definition quantum (dbuf : list N) : list ascii :=
  match dbuf with
  | [a; b; c; d] =>
    [byte_of (a * 4 + b / 16); byte_of (b * 16 + c / 4); byte_of (c * 64 + d)]
  | [a; b; c] => [byte_of (a * 4 + b / 16); byte_of (b * 16 + c / 4)]
  | [a; b] => [byte_of (a * 4 + b / 16)]
  | _ => []
  end%N.

(** [Encoding.Decode], one quantum after the other as [decodeQuantum]
    reads them: [src] is what is left of an input of [len] bytes, [si]
    the index of its first byte, [dbuf] the characters of the current
    quantum and [dst] the bytes decoded so far. Line feeds and carriage
    returns are skipped. The answer is the decoded bytes and, for a
    corrupt input, the index that [CorruptInputError] carries. *)
Fixpoint decode (enc : Encoding) (len : nat) (src : list ascii) (si : nat)
  (dbuf : list N) (dst : list ascii) : list ascii * option nat :=
  let padded (rest : list ascii) (si' : nat) :=
    let (garbage, si'') := skipNewlines rest si' in
    (dst ++ quantum dbuf,
     match garbage with
     | [] => None
     | _ => Some si''
     end)%list in
  match src with
  | [] =>
    match dbuf with
    | [] => (dst, None)
    | [_] => (dst, Some (si - 1)%nat)
    | _ =>
      match padChar enc with
      | Some _ => (dst, Some (si - length dbuf)%nat)
      | None => ((dst ++ quantum dbuf)%list, None)
      end
    end
  | c :: rest =>
    match decodeMap enc c with
    | Some out =>
      match dbuf with
      | [_; _; _] =>
        decode enc len rest (Datatypes.S si) [] (dst ++ quantum (dbuf ++ [out]))%list
      | _ => decode enc len rest (Datatypes.S si) (dbuf ++ [out])%list dst
      end
    | None =>
      if isNewline c then decode enc len rest (Datatypes.S si) dbuf dst
      else if negb (isPad enc c) then (dst, Some si)
      else
        match dbuf with
        | [] | [_] => (dst, Some si)
        | [_; _] =>
          let (rest', si') := skipNewlines rest (Datatypes.S si) in
          match rest' with
          | [] => (dst, Some len)
          | d :: rest'' =>
            if negb (isPad enc d) then (dst, Some (si' - 1)%nat)
            else padded rest'' (Datatypes.S si')
          end
        | _ => padded rest (Datatypes.S si)
        end
    end
  end.

Definition itoa (n : nat) : string := NilEmpty.string_of_uint (Nat.to_uint n).

(** [Encoding.DecodeString], with the message of [CorruptInputError]. *)
Definition DecodeString (enc : Encoding) (s : string) : result string :=
  let src := list_ascii_of_string s in
  match decode enc (length src) src 0 [] [] with
  | (bytes, None) => Ok (string_of_list_ascii bytes)
  | (_, Some n) => Err ("illegal base64 data at input byte " +:+ itoa n)
  end.

Definition base64_DecodeString (s : string) : result string :=
  DecodeString StdEncoding s.

(** *** [asserts.Decode] *)

(** The decoder of [snapd/asserts] for the two assertion types the
    service handles, [model] and [account-key], over headers with a
    one-line value: the [Assertion] the handlers read keeps headers as
    strings. Where a check of the library is not repeated in full the
    decoder refuses: another assertion type, a header with a nested
    value, a [classic], [snaps], [grade], [base], [required-snaps] or
    [system-user-authority] header of a model, a track after a snap
    name, an [until] date, a date that is not a whole second of UTC. One
    check is not made: the body of an account key is read as far as its
    version byte, and the key inside is taken to be the one that
    [public-key-sha3-384] names. *)

Definition nl : ascii := "010"%char.
Definition nlnl : string := String nl (String nl "").

(** Go's [%q] of a text without quotes, backslashes or control
    characters. *)
Definition quote (s : string) : string :=
  String "034"%char (s +:+ String "034"%char "").

(** [bytes.Index] and [bytes.LastIndex]. *)
Fixpoint Index (sub s : string) : option nat :=
  if String.prefix sub s then Some O
  else
    match s with
    | EmptyString => None
    | String _ s' => Datatypes.S <$> Index sub s'
    end.

Fixpoint LastIndex (sub s : string) : option nat :=
  match s with
  | EmptyString => if String.prefix sub s then Some O else None
  | String _ s' =>
    match LastIndex sub s' with
    | Some i => Some (Datatypes.S i)
    | None => if String.prefix sub s then Some O else None
    end
  end.

Definition before (i : nat) (s : string) : string := String.substring 0 i s.
Definition after (i : nat) (s : string) : string :=
  String.substring i (String.length s - i) s.

(** [strings.Split(s, "\n")]. *)
Fixpoint Split (s : string) : list string :=
  match s with
  | EmptyString => [EmptyString]
  | String c s' =>
    if Ascii.eqb c nl then EmptyString :: Split s'
    else
      match Split s' with
      | line :: lines => String c line :: lines
      | [] => [String c EmptyString]
      end
  end.

Definition between (lo hi : N) (c : ascii) : bool :=
  ((lo <=? code c) && (code c <=? hi))%N.

(** [utf8.Valid]. *)
Fixpoint utf8_Valid (s : list ascii) : bool :=
  match s with
  | [] => true
  | a :: r1 =>
    if (code a <? 128)%N then utf8_Valid r1
    else
      match r1 with
      | b :: r2 =>
        if between 194 223 a && between 128 191 b then utf8_Valid r2
        else
          match r2 with
          | c :: r3 =>
            if (Ascii.eqb a "224"%char && between 160 191 b
                || between 225 236 a && between 128 191 b
                || Ascii.eqb a "237"%char && between 128 159 b
                || between 238 239 a && between 128 191 b)
               && between 128 191 c
            then utf8_Valid r3
            else
              match r3 with
              | d :: r4 =>
                if (Ascii.eqb a "240"%char && between 144 191 b
                    || between 241 243 a && between 128 191 b
                    || Ascii.eqb a "244"%char && between 128 143 b)
                   && between 128 191 c && between 128 191 d
                then utf8_Valid r4
                else false
              | [] => false
              end
          | [] => false
          end
      | [] => false
      end
  end.

Definition isLower (c : ascii) : bool := between 97 122 c.
Definition isDigit (c : ascii) : bool := between 48 57 c.
Definition isAlnum (c : ascii) : bool := isLower c || isDigit c.

(** The tail [(?:-?[a-z0-9])*$] of the name patterns. *)
Fixpoint dashed (s : string) : bool :=
  match s with
  | EmptyString => true
  | String c s' =>
    if isAlnum c then dashed s'
    else if Ascii.eqb c "-"%char then
      match s' with
      | String d s'' => isAlnum d && dashed s''
      | EmptyString => false
      end
    else false
  end.

(** [headerNameSanity]: [^[a-z](?:-?[a-z0-9])*$]. *)
Definition headerNameSanity (name : string) : bool :=
  match name with
  | String c s => isLower c && dashed s
  | EmptyString => false
  end.

(** [validModel], [^[a-zA-Z0-9](?:-?[a-zA-Z0-9])*$], without the upper
    case that [checkModel] goes on to refuse. *)
Definition validModel (name : string) : bool :=
  match name with
  | String c s => isAlnum c && dashed s
  | EmptyString => false
  end.

Fixpoint hasLetter (s : string) : bool :=
  match s with
  | EmptyString => false
  | String c s' => isLower c || hasLetter s'
  end.

(** [validAccountKeyName], [^(?:[a-z0-9]+-?)*[a-z](?:-?[a-z0-9])*$]:
    letters, digits and single dashes inside, one letter at least. *)
Definition validAccountKeyName (name : string) : bool :=
  validModel name && hasLetter name.

(** [naming.ValidateSnap]: the same names, of 2 to 40 bytes. *)
Definition ValidateSnap (name : string) : bool :=
  (2 <=? String.length name)%nat && (String.length name <=? 40)%nat
  && validAccountKeyName name.

(** A date that [time.Parse(time.RFC3339, _)] accepts, among those of
    the form 2006-01-02T15:04:05Z. *)
Definition number (ds : list ascii) : option N :=
  foldl (fun acc d =>
           match acc with
           | Some n => if isDigit d then Some (n * 10 + (code d - 48))%N else None
           | None => None
           end) (Some 0%N) ds.

Definition inRange (ds : list ascii) (lo hi : N) : bool :=
  match number ds with
  | Some n => ((lo <=? n) && (n <=? hi))%N
  | None => false
  end.

Definition daysIn (year month : N) : N :=
  if (month =? 2)%N then
    if ((year mod 4 =? 0) && (negb (year mod 100 =? 0) || (year mod 400 =? 0)))%N
    then 29%N else 28%N
  else if ((month =? 4) || (month =? 6) || (month =? 9) || (month =? 11))%N then 30%N
  else 31%N.

Definition isRFC3339 (s : string) : bool :=
  match list_ascii_of_string s with
  | [y1; y2; y3; y4; d1; m1; m2; d2; a1; a2; t; h1; h2; c1; i1; i2; c2; s1; s2; z] =>
    match number [y1; y2; y3; y4], number [m1; m2] with
    | Some year, Some month =>
      ((1 <=? month) && (month <=? 12))%N
      && inRange [a1; a2] 1 (daysIn year month)
      && inRange [h1; h2] 0 23 && inRange [i1; i2] 0 59 && inRange [s1; s2] 0 59
      && Ascii.eqb d1 "-"%char && Ascii.eqb d2 "-"%char && Ascii.eqb t "T"%char
      && Ascii.eqb c1 ":"%char && Ascii.eqb c2 ":"%char && Ascii.eqb z "Z"%char
    | _, _ => false
    end
  | _ => false
  end.

(** One entry of the headers: [name: value]. *)
Fixpoint splitEntry (entry : string) : option (string * string) :=
  match entry with
  | EmptyString => None
  | String c s =>
    if Ascii.eqb c ":"%char then Some (EmptyString, s)
    else
      match splitEntry s with
      | Some (name, value) => Some (String c name, value)
      | None => None
      end
  end.

Fixpoint parseEntries (lines : list string) (headers : gmap string string)
  : result (gmap string string) :=
  match lines with
  | [] => Ok headers
  | entry :: lines' =>
    match splitEntry entry with
    | None => Err ("header entry missing ':' separator: " +:+ quote entry)
    | Some (name, value) =>
      if negb (headerNameSanity name) then Err ("invalid header name: " +:+ quote name)
      else
        match value with
        | EmptyString => Err ("header with a nested value: " +:+ quote entry)
        | String c v =>
          if negb (Ascii.eqb c " "%char) then
            Err ("header entry should have a space or newline (for multiline) before value: "
                 +:+ quote entry)
          else
            match headers !! name with
            | Some _ => Err ("repeated header: " +:+ quote name)
            | None => parseEntries lines' (<[name := v]> headers)
            end
        end
    end
  end.

Definition parseHeaders (head : string) : result (gmap string string) :=
  if negb (utf8_Valid (list_ascii_of_string head)) then Err "header is not utf8"
  else parseEntries (Split head) ∅.

Definition checkNotEmptyString (headers : gmap string string) (name : string)
  : result string :=
  match headers !! name with
  | None => Err (quote name +:+ " header is mandatory")
  | Some EmptyString => Err (quote name +:+ " header should not be empty")
  | Some v => Ok v
  end.

Definition checkIntWithDefault (headers : gmap string string) (name : string)
  (defl : Z) : result Z :=
  match headers !! name with
  | None => Ok defl
  | Some s =>
    match Atoi s with
    | Ok v => Ok v
    | Err _ => Err (quote name +:+ " header is not an integer: " +:+ s)
    end
  end.

(** [checkDigest] for SHA3-384: 48 bytes in [base64.RawURLEncoding]. *)
Definition checkDigest (headers : gmap string string) (name : string) : error :=
  match checkNotEmptyString headers name with
  | Err e => Some e
  | Ok digest =>
    match DecodeString RawURLEncoding digest with
    | Err e => Some (quote name +:+ " header cannot be decoded: " +:+ e)
    | Ok b =>
      if (String.length b =? 48)%nat then None
      else Some (quote name +:+ " header does not have the expected bit length: "
                 +:+ itoa (String.length b * 8))
    end
  end.

Definition checkPrimaryKey (headers : gmap string string) (name : string) : error :=
  match checkNotEmptyString headers name with
  | Err e => Some e
  | Ok v =>
    match Index "/" v with
    | Some _ => Some (quote name +:+ " primary key header cannot contain '/'")
    | None => None
    end
  end.

Definition checkRFC3339Date (headers : gmap string string) (name : string) : error :=
  match checkNotEmptyString headers name with
  | Err e => Some e
  | Ok v =>
    if isRFC3339 v then None
    else Some (quote name +:+ " header is not a RFC3339 date: " +:+ v)
  end.

(** The first error of a list of checks, in their order. *)
Fixpoint firstError (checks : list error) : error :=
  match checks with
  | [] => None
  | Some e :: _ => Some e
  | None :: checks' => firstError checks'
  end.

Definition absent (headers : gmap string string) (name : string) : error :=
  match headers !! name with
  | Some _ => Some ("header outside this decoder: " +:+ quote name)
  | None => None
  end.

Definition checkSnap (headers : gmap string string) (name : string) : error :=
  match checkNotEmptyString headers name with
  | Err e => Some e
  | Ok v =>
    if ValidateSnap v then None
    else Some ("invalid snap name in " +:+ quote name +:+ " header: " +:+ v)
  end.

Definition errorOf {A} (r : result A) : error :=
  match r with
  | Ok _ => None
  | Err e => Some e
  end.

Definition prefixed (p : string) (e : error) : error :=
  match e with
  | Some msg => Some (p +:+ msg)
  | None => None
  end.

(** [assembleModel], for a model with [architecture], [gadget] and
    [kernel]. *)
Definition assembleModel (headers : gmap string string) (body : string) : error :=
  firstError
    [ if String.eqb (default "" (headers !! "authority-id"))
                    (default "" (headers !! "brand-id")) then None
      else Some "authority-id and brand-id must match, model assertions are expected to be signed by the brand";
      match checkNotEmptyString headers "model" with
      | Err e => Some e
      | Ok v =>
        if validModel v then None
        else Some (quote "model" +:+ " header contains invalid characters: " +:+ quote v)
      end;
      absent headers "classic"; absent headers "snaps"; absent headers "grade";
      absent headers "base"; absent headers "required-snaps";
      absent headers "system-user-authority";
      errorOf (checkNotEmptyString headers "architecture");
      errorOf (checkNotEmptyString headers "gadget");
      errorOf (checkNotEmptyString headers "kernel");
      checkSnap headers "kernel";
      checkSnap headers "gadget";
      checkRFC3339Date headers "timestamp" ].

(** [checkPublicKey], as far as [decodeV1] reads the body before it
    parses the key: base64 of a version byte 1 and a packet. *)
Definition checkPublicKey (body : string) : error :=
  match body with
  | EmptyString => Some "cannot decode public key: no data"
  | _ =>
    match DecodeString StdEncoding body with
    | Err e => Some ("cannot decode public key: " +:+ e)
    | Ok EmptyString => Some "cannot decode public key: base64 without data"
    | Ok (String v _) =>
      if (code v =? 1)%N then None
      else Some ("unsupported public key format version: "
                 +:+ itoa (N.to_nat (code v)))
    end
  end.

(** [assembleAccountKey]. *)
Definition assembleAccountKey (headers : gmap string string) (body : string)
  : error :=
  firstError
    [ errorOf (checkNotEmptyString headers "account-id");
      match headers !! "name" with
      | Some v =>
        if validAccountKeyName v then None
        else Some (quote "name" +:+ " header contains invalid characters: " +:+ quote v)
      | None => None
      end;
      checkRFC3339Date headers "since";
      absent headers "until";
      checkPublicKey body ].

(** An assertion type of the registry: its name, its primary key and the
    assembler that checks the headers of its own. *)
Record AssertionType := {
  Name : string;
  PrimaryKey : list string;
  assembler : gmap string string -> string -> error;
}.

Definition ModelType : AssertionType :=
  {| Name := "model"; PrimaryKey := ["series"; "brand-id"; "model"];
     assembler := assembleModel |}.

Definition AccountKeyType : AssertionType :=
  {| Name := "account-key"; PrimaryKey := ["public-key-sha3-384"];
     assembler := assembleAccountKey |}.

Definition typeRegistry (name : string) : option AssertionType :=
  if String.eqb name (Name ModelType) then Some ModelType
  else if String.eqb name (Name AccountKeyType) then Some AccountKeyType
  else None.

Definition checkNotNegative (headers : gmap string string) (name : string) : error :=
  match checkIntWithDefault headers name 0 with
  | Err e => Some e
  | Ok v =>
    if v <? 0 then Some (quote name +:+ " should be positive: " +:+ default "" (headers !! name))
    else None
  end.

(** [assemble]: the checks every assertion goes through, then those of
    its type. *)
Definition assemble (headers : gmap string string) (body signature : string)
  : result Assertion.t :=
  match checkIntWithDefault headers "body-length" 0 with
  | Err e => Err ("assertion: " +:+ e)
  | Ok length =>
    if negb (length =? Z.of_nat (String.length body)) then
      Err ("assertion body length and declared body-length don't match: "
           +:+ itoa (String.length body) +:+ " != " +:+ default "0" (headers !! "body-length"))
    else if negb (utf8_Valid (list_ascii_of_string body)) then Err "body is not utf8"
    else
      match prefixed "assertion: " (checkDigest headers "sign-key-sha3-384"),
            checkNotEmptyString headers "type" with
      | Some e, _ => Err e
      | None, Err e => Err ("assertion: " +:+ e)
      | None, Ok typ =>
        match typeRegistry typ with
        | None => Err ("unknown assertion type: " +:+ quote typ)
        | Some assertType =>
          let named := "assertion " +:+ Name assertType +:+ ": " in
          match firstError
                  ([ prefixed "assertion: " (errorOf (checkNotEmptyString headers "authority-id"));
                     prefixed "assertion: " (checkNotNegative headers "format") ]
                   ++ map (fun k => prefixed named (checkPrimaryKey headers k))
                          (PrimaryKey assertType)
                   ++ [ prefixed "assertion: " (checkNotNegative headers "revision");
                        match signature with
                        | EmptyString => Some "empty assertion signature"
                        | _ => None
                        end;
                        prefixed named (assembler assertType headers body) ])%list with
          | Some e => Err e
          | None => Ok {| Assertion.TypeName := Name assertType; Assertion.Headers := headers |}
          end
        end
      end
  end.

(** [asserts.Decode]: the signature follows the last empty line, the
    body, if there is one, the first. *)
Definition asserts_Decode (serializedAssertion : string) : result Assertion.t :=
  match LastIndex nlnl serializedAssertion with
  | None => Err "assertion content/signature separator not found"
  | Some contentSignatureSplit =>
    let content := before contentSignatureSplit serializedAssertion in
    let signature := after (contentSignatureSplit + 2) serializedAssertion in
    let (head, body) :=
      match Index nlnl content with
      | None => (content, EmptyString)
      | Some headersBodySplit =>
        (before headersBodySplit content, after (headersBodySplit + 2) content)
      end in
    match parseHeaders head with
    | Err e => Err ("parsing assertion headers: " +:+ e)
    | Ok headers => assemble headers body signature
    end
  end.

(** A stand-in for the key store's import: the signing key arrives
    base64-encoded; its public id stands for the digest of the key. *)
Definition ImportSigningKey (authorityID armored : string) : result (PrivateKey * string) :=
  match base64_DecodeString armored with
  | Ok (String c key) =>
    Ok ({| PublicKeyID := "id:" +:+ String c key |}, "sealed:" +:+ String c key)
  | Ok EmptyString => Err "no private key found"
  | Err e => Err e
  end.

End Fixture.

#[export] Instance Fixture_Library {S} : Library S Fixture.Doc := {|
  checkIsAdminAndGetUserFromJWT := Fixture.checkIsAdminAndGetUserFromJWT;
  decodeKeypairWithPrivateKey := Fixture.decodeKeypairWithPrivateKey;
  decodeAssertionRequest := Fixture.decodeAssertionRequest;
  TrimSpace := Fixture.TrimSpace;
  base64_DecodeString := Fixture.base64_DecodeString;
  asserts_Decode := Fixture.asserts_Decode;
  ImportSigningKey := Fixture.ImportSigningKey;
|}.

(** ** Device nonces *)

(** [ValidateDeviceNonce] is declared in the [Datastore] interface,
    without a body; the module follows the specification of the Device
    Nonce Issuer. *)
Module DeviceNonces.

(** A nonce row: the token, its creation time and whether a validation
    has consumed it. Times are seconds on the store's clock. *)
Record DeviceNonce := {
  Nonce : string;
  TimeStamp : Z;
  Used : bool;
}.

Inductive NonceError :=
| NonceNotFoundError
| NonceExpiredError
| NonceAlreadyUsedError.

(** The expiry deadline of a nonce with time-to-live [ttl]. *)
Definition deadline (ttl : Z) (n : DeviceNonce) : Z := TimeStamp n + ttl.

Definition consume (n : DeviceNonce) : DeviceNonce :=
  {| Nonce := Nonce n; TimeStamp := TimeStamp n; Used := true |}.

(** Modelled from the spec: [ValidateDeviceNonce] is
    [Validate(nonceValue)]: it fails with [NonceNotFoundError] if the
    value is unknown, [NonceExpiredError] if past its time-to-live,
    [NonceAlreadyUsedError] if previously validated; on success the nonce
    is consumed. [now] is the clock reading of the call. *)
Definition ValidateDeviceNonce (ttl now : Z) (store : gmap string DeviceNonce)
  (nonce : string) : gmap string DeviceNonce * option NonceError :=
  match store !! nonce with
  | None => (store, Some NonceNotFoundError)
  | Some n =>
    if deadline ttl n <? now then (store, Some NonceExpiredError)
    else if Used n then (store, Some NonceAlreadyUsedError)
    else (<[nonce := consume n]> store, None)
  end.

End DeviceNonces.

(** ** Reading messages *)

(** Whether [sub] occurs in [s]. *)
Fixpoint contains (sub s : string) : bool :=
  if String.prefix sub s then true
  else match s with
       | EmptyString => false
       | String _ s' => contains sub s'
       end.

(** ** Example requests and datastores *)

Module Examples.

Definition kpAcme : Keypair.t :=
  {| Keypair.ID := 7; Keypair.AuthorityID := "acme"; Keypair.KeyID := "key-acme";
     Keypair.Active := true; Keypair.SealedKey := "sealed-acme";
     Keypair.Assertion := "" |}.

Definition kpGlobex : Keypair.t :=
  {| Keypair.ID := 8; Keypair.AuthorityID := "globex"; Keypair.KeyID := "key-globex";
     Keypair.Active := true; Keypair.SealedKey := "sealed-globex";
     Keypair.Assertion := "" |}.

Definition logAcme : SigningLog.t :=
  {| SigningLog.ID := 1; SigningLog.Make := "acme"; SigningLog.Model := "router";
     SigningLog.SerialNumber := "A1"; SigningLog.Fingerprint := "f1" |}.

Definition logGlobex : SigningLog.t :=
  {| SigningLog.ID := 2; SigningLog.Make := "globex"; SigningLog.Model := "camera";
     SigningLog.SerialNumber := "G1"; SigningLog.Fingerprint := "f2" |}.

(** Two accounts with a keypair and a log entry each; alice administers
    acme and globex, bob globex only, mallory nothing. *)
Definition store : MemDB.t :=
  {| MemDB.keypairs := <[7 := kpAcme]> (<[8 := kpGlobex]> ∅);
     MemDB.keypairStatus := ∅;
     MemDB.signingLog := [logAcme; logGlobex];
     MemDB.accountUsers := [("alice", "acme"); ("alice", "globex"); ("bob", "globex")] |}.

Definition generating : KeypairStatus.t :=
  {| KeypairStatus.AuthorityID := "acme"; KeypairStatus.KeyName := "prod-key";
     KeypairStatus.Status := "Generating" |}.

(** [store] once the tracker holds the job (acme, prod-key) as
    Generating. *)
Definition storeGenerating : MemDB.t :=
  {| MemDB.keypairs := MemDB.keypairs store;
     MemDB.keypairStatus := {[ ("acme", "prod-key") := generating ]};
     MemDB.signingLog := MemDB.signingLog store;
     MemDB.accountUsers := MemDB.accountUsers store |}.

Definition request (user : string) (vars form : gmap string string)
  (body : option Fixture.Doc) : Request Fixture.Doc :=
  {| Vars := vars; Form := form; Headers := {[ "Authorization" := user ]};
     Body := body |}.

(** GET /v1/acme/keypairs as alice. *)
Definition listAcme : Request Fixture.Doc :=
  request "alice" {[ "account_code" := "acme" ]} ∅ None.

(** POST /v1/keypairs with a private key that is not base64. *)
Definition createMalformedDoc : KeypairWithPrivateKey.t :=
  {| KeypairWithPrivateKey.ID := 0; KeypairWithPrivateKey.AuthorityID := "acme";
     KeypairWithPrivateKey.PrivateKey := "not base64!";
     KeypairWithPrivateKey.KeyName := "" |}.
Definition createMalformed : Request Fixture.Doc :=
  request "alice" ∅ ∅ (Some (Fixture.DocKeypair createMalformedDoc)).

(** POST /v1/keypairs/generate for (acme, prod-key) as alice. *)
Definition generateDoc : KeypairWithPrivateKey.t :=
  {| KeypairWithPrivateKey.ID := 0; KeypairWithPrivateKey.AuthorityID := " acme ";
     KeypairWithPrivateKey.PrivateKey := "";
     KeypairWithPrivateKey.KeyName := "prod-key" |}.
Definition generate : Request Fixture.Doc :=
  request "alice" ∅ ∅ (Some (Fixture.DocKeypair generateDoc)).

(** GET /v1/keypairs/status/acme/prod-key as alice. *)
Definition pollStatus : Request Fixture.Doc :=
  request "alice" {[ "authorityID" := "acme"; "keyName" := "prod-key" ]} ∅ None.

(** The text of an assertion: its lines, a line feed between them. *)
Definition lines (ls : list string) : string := String.concat (String Fixture.nl "") ls.

(** A model assertion of the brand acme, as its account would sign it:
    the headers, an empty line, the signature. *)
Definition modelAssertionText : string :=
  lines
    [ "type: model";
      "authority-id: acme";
      "series: 16";
      "brand-id: acme";
      "model: baz-3000";
      "architecture: amd64";
      "gadget: brand-gadget";
      "kernel: baz-linux";
      "timestamp: 2016-08-31T00:00:00Z";
      "body-length: 0";
      "sign-key-sha3-384: Jv8_JiHiIzJVcO9M55pPdqSDWUvuhfDIBJUS-3VW7F_idjix7Ffn5qMxB21ZQuij";
      "";
      "AXNpZw==" ].

(** Its base64, as a request carries it. *)
Definition modelAssertion : string :=
  String.concat ""
    [ "dHlwZTogbW9kZWwKYXV0aG9yaXR5LWlkOiBhY21lCnNlcmllczogMTYKYnJhbmQtaWQ6IGFj";
      "bWUKbW9kZWw6IGJhei0zMDAwCmFyY2hpdGVjdHVyZTogYW1kNjQKZ2FkZ2V0OiBicmFuZC1n";
      "YWRnZXQKa2VybmVsOiBiYXotbGludXgKdGltZXN0YW1wOiAyMDE2LTA4LTMxVDAwOjAwOjAw";
      "Wgpib2R5LWxlbmd0aDogMApzaWduLWtleS1zaGEzLTM4NDogSnY4X0ppSGlJekpWY085TTU1";
      "cFBkcVNEV1V2dWhmRElCSlVTLTNWVzdGX2lkaml4N0ZmbjVxTXhCMjFaUXVpagoKQVhOcFp3";
      "PT0=" ].

Definition modelAssertionDecoded : Assertion.t :=
  {| Assertion.TypeName := "model";
     Assertion.Headers :=
       list_to_map
         [ ("type", "model");
           ("authority-id", "acme");
           ("series", "16");
           ("brand-id", "acme");
           ("model", "baz-3000");
           ("architecture", "amd64");
           ("gadget", "brand-gadget");
           ("kernel", "baz-linux");
           ("timestamp", "2016-08-31T00:00:00Z");
           ("body-length", "0");
           ("sign-key-sha3-384", "Jv8_JiHiIzJVcO9M55pPdqSDWUvuhfDIBJUS-3VW7F_idjix7Ffn5qMxB21ZQuij") ] |}.

(** The key id of the account key below, the SHA3-384 digest of its
    public key. *)
Definition accountKeyID : string :=
  "MZj8OTw9-oxn3ZMwAlMkEoJW1E4q5xApjoGDTquWvyvyAFngKzYivV5Q0EuhxRES".

(** An account-key assertion for the account acme: the headers, an empty
    line, the public key as the body, an empty line, the signature. *)
Definition accountKeyAssertionText : string :=
  lines
    [ "type: account-key";
      "authority-id: canonical";
      "account-id: acme";
      "name: default";
      "public-key-sha3-384: " +:+ accountKeyID;
      "since: 2016-08-31T00:00:00Z";
      "body-length: 368";
      "sign-key-sha3-384: Jv8_JiHiIzJVcO9M55pPdqSDWUvuhfDIBJUS-3VW7F_idjix7Ffn5qMxB21ZQuij";
      "";
      "AcbATQRWhcGAAQgAgrUxto1HIaKu7rx/STu8vXhVO+K7TyTg5zxYfmNJapcVU9JRpc8lLbBgQXTN";
      "PFJndOSC4zaoLl8Pm9vNA9AXbHTc2/8/bkJh+c2XjEB0n+Fx6NUdawMwaMHADvYC/Rj10YzUb3ay";
      "Fb3ML/Hf96LmzK5yVsGaV8AZuZ6cqAEeNNtBfm9mawpCBd2qORPY5Rj4Z0eYqW3Q7HGM7rypoaQf";
      "bD89lrYSazExyCiz3Ysf1mt9rFCNr4tRcITEhXau7iM88RsqtyZVXA3s7KgxxiZUeoA3gB+oyL++";
      "zKa/f97ubNSCihzBWKXA9gAPg9x8KCwJL5kjTQOj4n2x35ZdAjzeJwARAQAB";
      "";
      "AXNpZw==" ].

(** Its base64, as a request carries it. *)
Definition accountKeyAssertion : string :=
  String.concat ""
    [ "dHlwZTogYWNjb3VudC1rZXkKYXV0aG9yaXR5LWlkOiBjYW5vbmljYWwKYWNjb3VudC1pZDog";
      "YWNtZQpuYW1lOiBkZWZhdWx0CnB1YmxpYy1rZXktc2hhMy0zODQ6IE1aajhPVHc5LW94bjNa";
      "TXdBbE1rRW9KVzFFNHE1eEFwam9HRFRxdVd2eXZ5QUZuZ0t6WWl2VjVRMEV1aHhSRVMKc2lu";
      "Y2U6IDIwMTYtMDgtMzFUMDA6MDA6MDBaCmJvZHktbGVuZ3RoOiAzNjgKc2lnbi1rZXktc2hh";
      "My0zODQ6IEp2OF9KaUhpSXpKVmNPOU01NXBQZHFTRFdVdnVoZkRJQkpVUy0zVlc3Rl9pZGpp";
      "eDdGZm41cU14QjIxWlF1aWoKCkFjYkFUUVJXaGNHQUFRZ0FnclV4dG8xSElhS3U3cngvU1R1";
      "OHZYaFZPK0s3VHlUZzV6eFlmbU5KYXBjVlU5SlJwYzhsTGJCZ1FYVE4KUEZKbmRPU0M0emFv";
      "TGw4UG05dk5BOUFYYkhUYzIvOC9ia0poK2MyWGpFQjBuK0Z4Nk5VZGF3TXdhTUhBRHZZQy9S";
      "ajEwWXpVYjNheQpGYjNNTC9IZjk2TG16SzV5VnNHYVY4QVp1WjZjcUFFZU5OdEJmbTltYXdw";
      "Q0JkMnFPUlBZNVJqNFowZVlxVzNRN0hHTTdyeXBvYVFmCmJEODlscllTYXpFeHlDaXozWXNm";
      "MW10OXJGQ05yNHRSY0lURWhYYXU3aU04OFJzcXR5WlZYQTNzN0tneHhpWlVlb0EzZ0Irb3lM";
      "KysKekthL2Y5N3ViTlNDaWh6QldLWEE5Z0FQZzl4OEtDd0pMNWtqVFFPajRuMngzNVpkQWp6";
      "ZUp3QVJBUUFCCgpBWE5wWnc9PQ==" ].

Definition attachDoc (id : Z) (assertion : string) : AssertionRequest.t :=
  {| AssertionRequest.ID := id; AssertionRequest.Assertion := assertion |}.

(** POST /v1/keypairs/assertion as [user] for keypair [id]. *)
Definition attach (user : string) (id : Z) (assertion : string) : Request Fixture.Doc :=
  request user ∅ ∅ (Some (Fixture.DocAssertion (attachDoc id assertion))).

(** GET /v1/signinglog with the given [fromID] parameter. *)
Definition signingLog (user : string) (fromID : option string) : Request Fixture.Doc :=
  request user ∅
    match fromID with
    | Some v => {[ "fromID" := v ]}
    | None => ∅
    end None.

(** A value for the package constant [MaxFromID], which the handler
    names and does not define. *)
Definition MaxFromID : Z := 2147483647.

(** The world after the first generate request for (acme, prod-key) has
    returned. *)
Definition afterGenerate : World MemDB.t :=
  serve KeypairGenerateHandler generate (start store).

(** The same world once the tracker holds the job as Generating: its
    goroutine is started and has not finished. *)
Definition whileGenerating : World MemDB.t :=
  {| db := storeGenerating; writer := writer afterGenerate;
     goroutines := goroutines afterGenerate; calls := calls afterGenerate |}.

(** The second generate request for (acme, prod-key) arrives. *)
Definition afterSecondGenerate : World MemDB.t :=
  serve KeypairGenerateHandler generate whileGenerating.

(** A nonce issued at time 100. *)
Definition nonce : DeviceNonces.DeviceNonce :=
  {| DeviceNonces.Nonce := "n-1"; DeviceNonces.TimeStamp := 100;
     DeviceNonces.Used := false |}.
Definition nonces : gmap string DeviceNonces.DeviceNonce := {[ "n-1" := nonce ]}.

End Examples.

(** ** The remaining keypair handlers *)

Definition StatusNotFound : Z := 404.

(** The two further methods of the [Datastore] interface that the
    enable, disable and status-progress handlers call. *)
Class KeypairAdmin (S : Type) := {
  UpdateAllowedKeypairActive : S -> Z -> bool -> User -> S * error;
  ListAllowedKeypairStatus : S -> User -> result (list KeypairStatus.t);
}.

Section MoreHandlers.
Context {S B : Type} {DS : Datastore S} {KA : KeypairAdmin S} {LIB : Library S B}.

Local Open Scope handler_scope.

Definition formatKeypairStatusResponse (success : bool)
  (errorCode errorSubcode message : string) (status : list KeypairStatus.t) : M S unit :=
  write (KeypairStatusResponse success errorCode errorSubcode message status).

(** The two methods are collaborators like the others; the trace type
    has no entry for them, so their use shows in the datastore and in
    the response. *)
Definition dbUpdateAllowedKeypairActive (keypairID : Z) (active : bool) (u : User)
  : M S error :=
  s <- getDB ;;
  let (s', err) := UpdateAllowedKeypairActive s keypairID active u in
  putDB s' ;;
  ret err.

Definition dbListAllowedKeypairStatus (u : User) : M S (result (list KeypairStatus.t)) :=
  s <- getDB ;;
  ret (ListAllowedKeypairStatus s u).

(** [KeypairDisableHandler]. [fmt.Sprintf("%v", vars["id"])] is the
    variable itself. *)
Definition KeypairDisableHandler (r : Request B) : M S unit :=
  HeaderSet "Content-Type" "application/json; charset=UTF-8" ;;
  au <- checkJWT r ;;
  match au with
  | Err _ => formatBooleanResponse false "error-auth" "" ""
  | Ok authUser =>
    match Atoi (var r "id") with
    | Err _ =>
      WriteHeader StatusNotFound ;;
      let errorMessage := var r "id" in
      formatBooleanResponse false "error-invalid-key" "" errorMessage
    | Ok keypairID =>
      err <- dbUpdateAllowedKeypairActive keypairID false authUser ;;
      match err with
      | Some e =>
        WriteHeader StatusBadRequest ;;
        formatBooleanResponse false "error-keypair-update" "" e
      | None => formatBooleanResponse true "" "" ""
      end
    end
  end.

(** [KeypairEnableHandler]. *)
Definition KeypairEnableHandler (r : Request B) : M S unit :=
  HeaderSet "Content-Type" "application/json; charset=UTF-8" ;;
  au <- checkJWT r ;;
  match au with
  | Err _ => formatBooleanResponse false "error-auth" "" ""
  | Ok authUser =>
    match Atoi (var r "id") with
    | Err _ =>
      WriteHeader StatusNotFound ;;
      let errorMessage := var r "id" in
      formatBooleanResponse false "error-invalid-key" "" errorMessage
    | Ok keypairID =>
      err <- dbUpdateAllowedKeypairActive keypairID true authUser ;;
      match err with
      | Some e =>
        WriteHeader StatusBadRequest ;;
        formatBooleanResponse false "error-keypair-update" "" e
      | None => formatBooleanResponse true "" "" ""
      end
    end
  end.

(** [KeypairStatusProgressHandler]. *)
Definition KeypairStatusProgressHandler (r : Request B) : M S unit :=
  au <- checkJWT r ;;
  match au with
  | Err _ => formatBooleanResponse false "error-auth" "" ""
  | Ok authUser =>
    l <- dbListAllowedKeypairStatus authUser ;;
    match l with
    | Err _ =>
      WriteHeader StatusBadRequest ;;
      formatBooleanResponse false "error-keypair-json" ""
        "Cannot find the status of the keypairs"
    | Ok ks => formatKeypairStatusResponse true "" "" "" ks
    end
  end.

End MoreHandlers.

(** The two methods over the in-memory datastore. *)
Module MemDBAdmin.

(** Modelled from the spec: [UpdateAllowedKeypairActive] (no body) is
    [SetActive(id, active, requester)]: it toggles availability without
    deleting; errors: [NotFoundError], [NotAuthorizedError]. *)
Definition UpdateAllowedKeypairActive (s : MemDB.t) (keypairID : Z) (active : bool)
  (u : User) : MemDB.t * error :=
  match MemDB.keypairs s !! keypairID with
  | None => (s, Some "NotFoundError")
  | Some row =>
    if negb (MemDB.CheckUserInAccount s (Username u) (Keypair.AuthorityID row))
    then (s, Some "NotAuthorizedError")
    else
      let row' :=
        {| Keypair.ID := Keypair.ID row;
           Keypair.AuthorityID := Keypair.AuthorityID row;
           Keypair.KeyID := Keypair.KeyID row;
           Keypair.Active := active;
           Keypair.SealedKey := Keypair.SealedKey row;
           Keypair.Assertion := Keypair.Assertion row |} in
      ({| MemDB.keypairs := <[keypairID := row']> (MemDB.keypairs s);
          MemDB.keypairStatus := MemDB.keypairStatus s;
          MemDB.signingLog := MemDB.signingLog s;
          MemDB.accountUsers := MemDB.accountUsers s |}, None)
  end.

(** Modelled from the spec: [ListAllowedKeypairStatus] (no body) is the
    status poll for all keys visible to this user. *)
Definition ListAllowedKeypairStatus (s : MemDB.t) (u : User)
  : result (list KeypairStatus.t) :=
  Ok (List.filter
        (fun ks => MemDB.CheckUserInAccount s (Username u) (KeypairStatus.AuthorityID ks))
        (map snd (map_to_list (MemDB.keypairStatus s)))).

End MemDBAdmin.

#[export] Instance MemDB_KeypairAdmin : KeypairAdmin MemDB.t := {|
  UpdateAllowedKeypairActive := MemDBAdmin.UpdateAllowedKeypairActive;
  ListAllowedKeypairStatus := MemDBAdmin.ListAllowedKeypairStatus;
|}.

(** ** Transactions *)

(** [(db *DB) transaction] of [database.go], over [database/sql] as it
    uses it. *)
Module Transaction.

(** How a Go call ends: it returns a value, it panics with a value [p]
    that is not nil, it panics with nil, or it ends its goroutine with
    [runtime.Goexit]. The module is at [go 1.13], where [panic(nil)] is
    a panic like another and [recover] gives its value, nil. A call that
    ends the process or does not end is not a case here. *)
Inductive outcome (A P : Type) : Type :=
| Returns (a : A)
| Panics (p : P)
| PanicsNil
| Goexits.
Arguments Returns {A P} a.
Arguments Panics {A P} p.
Arguments PanicsNil {A P}.
Arguments Goexits {A P}.

(** [db.Begin], [tx.Commit] and [tx.Rollback] over a connection state
    [D] and an open transaction [T]. *)
Class SQL (D T : Type) := {
  Begin : D -> D * result T;
  Commit : T -> D -> D * error;
  Rollback : T -> D -> D * error;
}.

(** The calls [transaction] makes, in order. *)
Inductive TxCall :=
| CallBegin
| CallTxFunc
| CallCommit
| CallRollback.

(** [transaction]. The result of the Go function is unnamed, so
    [return err] fixes the result before the deferred function runs:
    the deferred [err = tx.Commit()] assigns the local variable only.
    A panic of [txFunc] with a value that is not nil is recovered by the
    deferred function, which rolls back and panics again with the same
    value. The deferred function tells a panic by [recover() != nil]:
    when [txFunc] panics with nil, or ends the goroutine with
    [runtime.Goexit], [recover] returns nil and [err] is still the nil
    that [db.Begin] left, so the deferred function commits. The panic
    with nil is recovered by that call, and [transaction] returns the
    zero value of its result, nil; after [runtime.Goexit] the goroutine
    ends once the deferred function has run. The error of
    [tx.Rollback()] is not read. *)
Definition transaction {D T P : Type} `{SQL D T}
  (txFunc : T -> D -> D * outcome error P) (d : D)
  : D * list TxCall * outcome error P :=
  match Begin d with
  | (d1, Err e) => (d1, [CallBegin], Returns (Some e))
  | (d1, Ok tx) =>
    match txFunc tx d1 with
    | (d2, Panics p) =>
      let (d3, _) := Rollback tx d2 in
      (d3, [CallBegin; CallTxFunc; CallRollback], Panics p)
    | (d2, PanicsNil) =>
      let (d3, _) := Commit tx d2 in
      (d3, [CallBegin; CallTxFunc; CallCommit], Returns None)
    | (d2, Goexits) =>
      let (d3, _) := Commit tx d2 in
      (d3, [CallBegin; CallTxFunc; CallCommit], Goexits)
    | (d2, Returns (Some e)) =>
      let (d3, _) := Rollback tx d2 in
      (d3, [CallBegin; CallTxFunc; CallRollback], Returns (Some e))
    | (d2, Returns None) =>
      let (d3, _) := Commit tx d2 in
      (d3, [CallBegin; CallTxFunc; CallCommit], Returns None)
    end
  end.

(** A small database for running [transaction]: the committed rows, the
    rows as the open transaction sees them, and whether the next commit
    fails. *)
Record Table := {
  committed : list Z;
  working : list Z;
  commitFails : bool;
}.

#[export] Instance Table_SQL : SQL Table unit := {|
  Begin d := (d, Ok tt);
  Commit _ d :=
    if commitFails d
    then ({| committed := committed d; working := committed d;
             commitFails := false |}, Some "commit failed")
    else ({| committed := working d; working := working d;
             commitFails := false |}, None);
  Rollback _ d :=
    ({| committed := committed d; working := committed d;
        commitFails := commitFails d |}, None);
|}.

(** A transaction body that inserts one row. *)
Definition insertRow (n : Z) (_ : unit) (d : Table) : Table * outcome error string :=
  ({| committed := committed d; working := (working d ++ [n])%list;
      commitFails := commitFails d |}, Returns None).

(** A transaction body that inserts one row and then fails. *)
Definition insertThenFail (n : Z) (_ : unit) (d : Table) : Table * outcome error string :=
  ({| committed := committed d; working := (working d ++ [n])%list;
      commitFails := commitFails d |}, Returns (Some "constraint violated")).

(** A transaction body that inserts one row and then panics. *)
Definition insertThenPanic (n : Z) (_ : unit) (d : Table) : Table * outcome error string :=
  ({| committed := committed d; working := (working d ++ [n])%list;
      commitFails := commitFails d |}, Panics "index out of range").

(** A transaction body that inserts one row and then calls
    [panic(nil)]. *)
Definition insertThenPanicNil (n : Z) (_ : unit) (d : Table)
  : Table * outcome error string :=
  ({| committed := committed d; working := (working d ++ [n])%list;
      commitFails := commitFails d |}, PanicsNil).

(** A transaction body that inserts one row and then calls
    [runtime.Goexit]. *)
Definition insertThenGoexit (n : Z) (_ : unit) (d : Table)
  : Table * outcome error string :=
  ({| committed := committed d; working := (working d ++ [n])%list;
      commitFails := commitFails d |}, Goexits).

End Transaction.

(** ** The account manager *)

(** [accountmanager.go] of package [datastore], over [database/sql] as
    it uses it. *)
Module Accounts.

(** [Account]. *)
Record Account := {
  ID : Z;
  AuthorityID : string;
  Assertion : string;
  ResellerAPI : bool;
  APIKey : string;
}.

Definition with_APIKey (apiKey : string) (a : Account) : Account :=
  {| ID := ID a; AuthorityID := AuthorityID a; Assertion := Assertion a;
     ResellerAPI := ResellerAPI a; APIKey := apiKey |}.

Definition createAccountTableSQL : string :=
  "
	CREATE TABLE IF NOT EXISTS account (
		id            serial primary key not null,
		authority_id  varchar(200) not null unique,
		assertion     text default '',
		resellerapi   bool default false,
		api_key       varchar(200) not null
	)
".

Definition createAccountSQL : string :=
  "INSERT INTO account (authority_id, assertion, resellerapi, api_key) VALUES ($1,$2,$3,$4)".

Definition listAccountsSQL : string :=
  "select id, authority_id, assertion, resellerapi, api_key from account order by authority_id".

Definition updateAccountSQL : string :=
  "UPDATE account SET authority_id=$2, assertion=$3, resellerapi=$4, api_key=$5 WHERE id=$1".

Definition updateUserAccountSQL : string :=
  "
	UPDATE account a
	SET authority_id=$3, assertion=$4, resellerapi=$5, api_key=$6
	INNER JOIN useraccountlink l on a.id = l.account_id
	INNER JOIN userinfo u on l.user_id = u.id
	WHERE id=$1 AND u.username=$2
".

Definition upsertAccountSQL : string :=
  "
	WITH upsert AS (
		update account set authority_id=$1, assertion=$2
		where authority_id=$1
		RETURNING *
	)
	insert into account (authority_id,assertion)
	select $1, $2
	where not exists (select * from upsert)
".

Definition listUserAccountsSQL : string :=
  "
	select a.id, authority_id, assertion, resellerapi, api_key 
	from account a
	inner join useraccountlink l on a.id = l.account_id
	inner join userinfo u on l.user_id = u.id
	where u.username=$1
".

Definition listNotUserAccountsSQL : string :=
  "
	select id, authority_id, assertion, resellerapi, api_key 
	from account
	where id not in (
		select a.id 
		from account a
		inner join useraccountlink l on a.id = l.account_id
		inner join userinfo u on l.user_id = u.id
		where u.username=$1
	)
".

Definition alterAccountResellerAPI : string :=
  "ALTER TABLE account ADD COLUMN resellerapi bool DEFAULT false".

Definition alterAccountAPIKey : string :=
  "ALTER TABLE account ADD COLUMN api_key varchar(200) DEFAULT ''".

Definition alterAccountAPIKeyNotNullable : string :=
  "
	ALTER TABLE account
	ALTER COLUMN api_key SET NOT null,
	ALTER COLUMN api_key DROP DEFAULT
".

(** [anyUserFilter] of [database.go]. *)
Definition anyUserFilter : string := "".

(** [BuildAccountFromAuthorityID]. *)
Definition BuildAccountFromAuthorityID (authorityID : string) : Account :=
  {| ID := 0; AuthorityID := authorityID; Assertion := ""; ResellerAPI := false;
     APIKey := "" |}.

(** [BuildAccountsFromAuthorityIDs]: the nil slice and the empty slice
    are both the empty list. *)
Definition BuildAccountsFromAuthorityIDs (authorityIDs : list string) : list Account :=
  fold_left
    (fun (accounts : list Account) authorityID =>
       (accounts ++ [BuildAccountFromAuthorityID authorityID])%list)
    authorityIDs [].

(** An argument of a statement. *)
Inductive Value :=
| VInt (n : Z)
| VStr (s : string)
| VBool (b : bool).

(** [db.Exec], [db.Query] and [rows.Scan] into the five fields of an
    account, over a connection state [D] and result rows [Row]. *)
Class SQLDB (D Row : Type) := {
  Exec : D -> string -> list Value -> D * error;
  Query : D -> string -> list Value -> result (list Row);
  Scan : Row -> result Account;
}.

(** The two API-key helpers of the package, which are defined in another
    file: each draws on a source of randomness [G]. *)
Class APIKeys (G : Type) := {
  generateAPIKey : G -> G * result string;
  buildValidOrDefaultAPIKey : G -> string -> G * result string;
}.

(** A statement sent to the database. *)
Inductive Stmt :=
| Executed (sql : string) (args : list Value)
| Queried (sql : string) (args : list Value).

(** What the functions act on: the connection, the randomness, the
    statements sent so far and the lines logged. *)
Record Env (D G : Type) := {
  conn : D;
  keys : G;
  statements : list Stmt;
  logged : list string;
}.
Arguments conn {D G} e.
Arguments keys {D G} e.
Arguments statements {D G} e.
Arguments logged {D G} e.

Definition St (D G A : Type) : Type := Env D G -> A * Env D G.

Definition sret {D G A} (a : A) : St D G A := fun e => (a, e).

Definition sbind {D G A A'} (m : St D G A) (k : A -> St D G A') : St D G A' :=
  fun e => let (a, e') := m e in k a e'.

Declare Scope account_scope.
Delimit Scope account_scope with account.
Notation "x <- m ;; k" := (sbind m (fun x => k))
  (at level 100, m at next level, right associativity) : account_scope.
Notation "m ;; k" := (sbind m (fun _ => k))
  (at level 100, right associativity) : account_scope.

(** [rowsToAccounts]: the loop over [rows.Next()], with the accounts
    appended so far. [rows] are the rows [Next] delivers; [rows.Err()] is
    not read, so an iteration that breaks off ends the loop like the
    last row. *)
Fixpoint rowsToAccounts_from {Row} (scan : Row -> result Account)
  (rows : list Row) (accounts : list Account) : result (list Account) :=
  match rows with
  | [] => Ok accounts
  | row :: rest =>
    match scan row with
    | Err e => Err e
    | Ok account => rowsToAccounts_from scan rest (accounts ++ [account])%list
    end
  end.

Section Manager.
Context {D Row G : Type} {DB : SQLDB D Row} {AK : APIKeys G}.

Local Open Scope account_scope.

Definition rowsToAccounts (rows : list Row) : result (list Account) :=
  rowsToAccounts_from Scan rows [].

Definition dbExec (sql : string) (args : list Value) : St D G error := fun e =>
  let (d, err) := Exec (conn e) sql args in
  (err, {| conn := d; keys := keys e;
           statements := (statements e ++ [Executed sql args])%list;
           logged := logged e |}).

Definition dbQuery (sql : string) (args : list Value) : St D G (result (list Row)) :=
  fun e =>
  (Query (conn e) sql args,
   {| conn := conn e; keys := keys e;
      statements := (statements e ++ [Queried sql args])%list;
      logged := logged e |}).

(** [log.Printf] with the line already formatted. *)
Definition logPrintf (line : string) : St D G unit := fun e =>
  (tt, {| conn := conn e; keys := keys e; statements := statements e;
          logged := (logged e ++ [line])%list |}).

Definition newAPIKey : St D G (result string) := fun e =>
  let (g, k) := generateAPIKey (keys e) in
  (k, {| conn := conn e; keys := g; statements := statements e;
         logged := logged e |}).

Definition validAPIKey (apiKey : string) : St D G (result string) := fun e =>
  let (g, k) := buildValidOrDefaultAPIKey (keys e) apiKey in
  (k, {| conn := conn e; keys := g; statements := statements e;
         logged := logged e |}).

Definition newline : string := String "010" "".

(** [CreateAccountTable]. *)
Definition CreateAccountTable : St D G error :=
  dbExec createAccountTableSQL [].

(** [listAccountsFilteredByUser]. *)
Definition listAccountsFilteredByUser (username : string)
  : St D G (result (list Account)) :=
  q <- (if (String.length username =? 0)%nat
        then dbQuery listAccountsSQL []
        else dbQuery listUserAccountsSQL [VStr username]) ;;
  match q with
  | Err e =>
    logPrintf ("Error retrieving database accounts: " +:+ e +:+ newline) ;;
    sret (Err e)
  | Ok rows => sret (rowsToAccounts rows)
  end.

(** [listAllAccounts]. *)
Definition listAllAccounts : St D G (result (list Account)) :=
  listAccountsFilteredByUser anyUserFilter.

Definition accountArgs (account : Account) : list Value :=
  [VStr (AuthorityID account); VStr (Assertion account);
   VBool (ResellerAPI account); VStr (APIKey account)].

(** [CreateAccount]. *)
Definition CreateAccount (account : Account) : St D G error :=
  k <- validAPIKey (APIKey account) ;;
  match k with
  | Err _ => sret (Some "Error in generating a valid API key")
  | Ok apiKey =>
    let account := with_APIKey apiKey account in
    err <- dbExec createAccountSQL (accountArgs account) ;;
    match err with
    | Some e =>
      logPrintf ("Error creating the database account: " +:+ e +:+ newline) ;;
      sret (Some e)
    | None => sret None
    end
  end.

(** [updateAccount]. *)
Definition updateAccount (account : Account) : St D G error :=
  k <- validAPIKey (APIKey account) ;;
  match k with
  | Err _ => sret (Some "Error in generating a valid API key")
  | Ok apiKey =>
    let account := with_APIKey apiKey account in
    err <- dbExec updateAccountSQL (VInt (ID account) :: accountArgs account) ;;
    match err with
    | Some e =>
      logPrintf ("Error updating the database account: " +:+ e +:+ newline) ;;
      sret (Some e)
    | None => sret None
    end
  end.

(** [updateUserAccount]. *)
Definition updateUserAccount (account : Account) (username : string) : St D G error :=
  k <- validAPIKey (APIKey account) ;;
  match k with
  | Err _ => sret (Some "Error in generating a valid API key")
  | Ok apiKey =>
    let account := with_APIKey apiKey account in
    err <- dbExec updateUserAccountSQL
             (VInt (ID account) :: VStr username :: accountArgs account) ;;
    match err with
    | Some e =>
      logPrintf ("Error updating the database account: " +:+ e +:+ newline) ;;
      sret (Some e)
    | None => sret None
    end
  end.

(** [putAccount]: the error code it returns is always empty. *)
Definition putAccount (account : Account) : St D G (string * error) :=
  err <- dbExec upsertAccountSQL [VStr (AuthorityID account); VStr (Assertion account)] ;;
  match err with
  | Some e =>
    logPrintf ("Error updating the database account: " +:+ e +:+ newline) ;;
    sret ("", Some e)
  | None => sret ("", None)
  end.

(** [ListUserAccounts]. *)
Definition ListUserAccounts (username : string) : St D G (result (list Account)) :=
  q <- dbQuery listUserAccountsSQL [VStr username] ;;
  match q with
  | Err e =>
    logPrintf ("Error retrieving database accounts of certain user: " +:+ e +:+ newline) ;;
    sret (Err e)
  | Ok rows => sret (rowsToAccounts rows)
  end.

(** [ListNotUserAccounts]. *)
Definition ListNotUserAccounts (username : string) : St D G (result (list Account)) :=
  q <- dbQuery listNotUserAccountsSQL [VStr username] ;;
  match q with
  | Err e =>
    logPrintf ("Error retrieving database accounts not belonging to certain user: "
               +:+ e +:+ newline) ;;
    sret (Err e)
  | Ok rows => sret (rowsToAccounts rows)
  end.

(** The loop of [addAccountAPIKeyField] over the accounts; [Some e] when
    the function returns [e] from inside the loop. The result of
    [db.updateAccount(acc)] is not read. *)
Fixpoint defaultAPIKeys (accounts : list Account) : St D G error :=
  match accounts with
  | [] => sret None
  | acc :: rest =>
    if (0 <? String.length (APIKey acc))%nat then defaultAPIKeys rest
    else
      k <- newAPIKey ;;
      match k with
      | Err _ =>
        logPrintf "Could not generate random string for the API key" ;;
        sret (Some "Error generating random string for the API key")
      | Ok apiKey =>
        updateAccount (with_APIKey apiKey acc) ;;
        defaultAPIKeys rest
      end
  end.

(** [addAccountAPIKeyField]. *)
Definition addAccountAPIKeyField : St D G error :=
  err <- dbExec alterAccountAPIKey [] ;;
  match err with
  | Some _ => sret None
  | None =>
    l <- listAllAccounts ;;
    match l with
    | Err e => sret (Some e)
    | Ok accounts =>
      stop <- defaultAPIKeys accounts ;;
      match stop with
      | Some e => sret (Some e)
      | None => dbExec alterAccountAPIKeyNotNullable []
      end
    end
  end.

(** [AlterAccountTable]: the result of the first statement is not
    read. *)
Definition AlterAccountTable : St D G error :=
  dbExec alterAccountResellerAPI [] ;;
  addAccountAPIKeyField.

End Manager.

(** An account without an API key, as the loop of
    [addAccountAPIKeyField] tests it. *)
Definition keyless (a : Account) : bool :=
  negb (0 <? String.length (APIKey a))%nat.

(** The [updateAccountSQL] statement that gives [a] the key [apiKey] and
    leaves its other columns as they are. *)
Definition keyUpdate (a : Account) (apiKey : string) : Stmt :=
  Executed updateAccountSQL
    [VInt (ID a); VStr (AuthorityID a); VStr (Assertion a);
     VBool (ResellerAPI a); VStr apiKey].

(** A small database for running the account manager: the account rows,
    and whether the [api_key] column exists already. Only the statements
    the examples send are interpreted. *)
Record Rows := {
  accounts : list Account;
  hasAPIKey : bool;
}.

Definition setKey (id : Z) (apiKey : string) (a : Account) : Account :=
  if ID a =? id then with_APIKey apiKey a else a.

#[export] Instance Rows_SQLDB : SQLDB Rows Account := {|
  Exec d sql args :=
    if String.eqb sql alterAccountAPIKey then
      if hasAPIKey d then (d, Some "column api_key of relation account already exists")
      else ({| accounts := accounts d; hasAPIKey := true |}, None)
    else if String.eqb sql updateAccountSQL then
      match args with
      | [VInt id; _; _; _; VStr apiKey] =>
        ({| accounts := map (setKey id apiKey) (accounts d);
            hasAPIKey := hasAPIKey d |}, None)
      | _ => (d, Some "wrong arguments")
      end
    else (d, None);
  Query d sql args := Ok (accounts d);
  Scan row := Ok row;
|}.

(** Keys are drawn from a counter; a counter of 13 or more is out of
    randomness. *)
#[export] Instance Counter_APIKeys : APIKeys Z := {|
  generateAPIKey g :=
    if 13 <=? g then (g, Err "no randomness")
    else (g + 1, Ok (String (ascii_of_N (Z.to_N (97 + g))) "-generated"));
  buildValidOrDefaultAPIKey g apiKey :=
    if (String.length apiKey <? 10)%nat then (g, Err "too short") else (g, Ok apiKey);
|}.

End Accounts.

(** ** Further example requests *)

Module MoreExamples.

(** A request that carries no credentials. *)
Definition anonymous : Request Fixture.Doc :=
  {| Vars := {[ "id" := "7"; "authorityID" := "acme"; "keyName" := "prod-key";
               "account_code" := "acme" ]};
     Form := ∅; Headers := ∅;
     Body := Some (Fixture.DocKeypair Examples.generateDoc) |}.

(** POST /v1/keypairs/{id}/disable and .../enable as alice. *)
Definition setActive (id : string) : Request Fixture.Doc :=
  Examples.request "alice" {[ "id" := id ]} ∅ None.

(** POST /v1/keypairs with the base64 of "private-key-material". *)
Definition createDoc : KeypairWithPrivateKey.t :=
  {| KeypairWithPrivateKey.ID := 0; KeypairWithPrivateKey.AuthorityID := " acme";
     KeypairWithPrivateKey.PrivateKey := "cHJpdmF0ZS1rZXktbWF0ZXJpYWw=";
     KeypairWithPrivateKey.KeyName := "" |}.
Definition create (user : string) : Request Fixture.Doc :=
  Examples.request user ∅ ∅ (Some (Fixture.DocKeypair createDoc)).

(** The keypair the create handler builds from [createDoc]. *)
Definition created : Keypair.t :=
  {| Keypair.ID := 0; Keypair.AuthorityID := "acme";
     Keypair.KeyID := "id:private-key-material"; Keypair.Active := false;
     Keypair.SealedKey := "sealed:private-key-material"; Keypair.Assertion := "" |}.

(** A request whose authority-id is white space. *)
Definition blankDoc : KeypairWithPrivateKey.t :=
  {| KeypairWithPrivateKey.ID := 0; KeypairWithPrivateKey.AuthorityID := "   ";
     KeypairWithPrivateKey.PrivateKey := "cHJpdmF0ZS1rZXktbWF0ZXJpYWw=";
     KeypairWithPrivateKey.KeyName := "prod-key" |}.
Definition blank : Request Fixture.Doc :=
  Examples.request "alice" ∅ ∅ (Some (Fixture.DocKeypair blankDoc)).

(** GET /v1/keypairs/status/acme/prod-key as [user]. *)
Definition poll (user : string) : Request Fixture.Doc :=
  Examples.request user {[ "authorityID" := "acme"; "keyName" := "prod-key" ]} ∅ None.

(** A table with one committed row whose next commit fails. *)
Definition failingTable : Transaction.Table :=
  {| Transaction.committed := [1]; Transaction.working := [1];
     Transaction.commitFails := true |}.

(** Three accounts, the first with an API key. *)
Definition keyed : Accounts.Account :=
  {| Accounts.ID := 1; Accounts.AuthorityID := "acme"; Accounts.Assertion := "";
     Accounts.ResellerAPI := false; Accounts.APIKey := "existing-key-1" |}.
Definition unkeyed (id : Z) (authorityID : string) : Accounts.Account :=
  {| Accounts.ID := id; Accounts.AuthorityID := authorityID; Accounts.Assertion := "";
     Accounts.ResellerAPI := false; Accounts.APIKey := "" |}.
Definition accountRows : Accounts.Rows :=
  {| Accounts.accounts := [keyed; unkeyed 2 "globex"; unkeyed 3 "initech"];
     Accounts.hasAPIKey := false |}.

(** The account manager on [accountRows] with the key counter at [g]. *)
Definition manager (rows : Accounts.Rows) (g : Z) : Accounts.Env Accounts.Rows Z :=
  {| Accounts.conn := rows; Accounts.keys := g; Accounts.statements := [];
     Accounts.logged := [] |}.

End MoreExamples.

(** * Properties *)

(** ** Listing keypairs *)

Lemma keypairsForAccount_acc (accountCode : string) (l acc : list Keypair.t) :
  fold_left
    (fun (keypairs : list Keypair.t) k =>
       if String.eqb (Keypair.AuthorityID k) accountCode
       then (keypairs ++ [k])%list else keypairs) l acc
  = (acc ++ List.filter (fun k => String.eqb (Keypair.AuthorityID k) accountCode) l)%list.
Proof.
  revert acc. induction l as [|k l IH]; intros acc; simpl.
  - by rewrite app_nil_r.
  - rewrite IH. destruct (String.eqb _ _); [|done].
    by rewrite <- app_assoc.
Qed.

(** The loop keeps, in order, the keypairs of the selected account. *)
Lemma keypairsForAccount_filter (accountCode : string) (l : list Keypair.t) :
  keypairsForAccount accountCode l
  = List.filter (fun k => String.eqb (Keypair.AuthorityID k) accountCode) l.
Proof. unfold keypairsForAccount. by rewrite keypairsForAccount_acc. Qed.

Lemma keypairsForAccount_elem (accountCode : string) (l : list Keypair.t) (k : Keypair.t) :
  k ∈ keypairsForAccount accountCode l <->
  k ∈ l /\ Keypair.AuthorityID k = accountCode.
Proof.
  rewrite keypairsForAccount_filter, !list_elem_of_In, filter_In.
  by rewrite String.eqb_eq.
Qed.

Section HandlerProperties.
Context {S B : Type} {DS : Datastore S} {LIB : Library S B}.

(** Unfolds a served handler down to the matches on its collaborators'
    answers. *)
Ltac unfold_handler :=
  unfold serve, run, response,
    KeypairListHandler, KeypairCreateHandler, KeypairAssertionHandler,
    KeypairGenerateHandler, KeypairStatusHandler, SigningLogHandler,
    verifyKeypair,
    checkJWT, jsonDecode, dbCheckUserInAccount, dbListAllowedKeypairs,
    dbPutKeypair, dbUpdateKeypairAssertion, dbGetKeypairStatus,
    dbListSigningLog, kdbImportSigningKey, base64Decode, assertsDecode,
    formatBooleanResponse, formatKeypairsResponse, formatSigningLogResponse,
    logMessage, HeaderSet, WriteHeader, write, onWriter, go, call, getDB,
    putDB, bind, ret in *;
  cbn [fst snd db writer goroutines calls RespHeader RespStatus Written] in *.

(** Closes the leaves of a case analysis: equations between responses
    and memberships in a trace. *)
Ltac not_in_trace :=
  let H := fresh "Hin" in
  intros H; rewrite ?elem_of_cons, ?elem_of_nil in H;
  intuition discriminate.

Ltac finish :=
  repeat split; eauto; intros; first [congruence | not_in_trace].

(** C8. Every keypair in the list returned for an account code is one of
    the keypairs [ListAllowedKeypairs] allows the requesting user to see,
    and its authority-id is the requested account code. *)
Theorem KeypairListHandler_scoped (r : Request B) (w : World S)
    (success : bool) (code subcode message : string)
    (keypairs : list Keypair.t) (k : Keypair.t) :
  response (serve KeypairListHandler r w)
    = Some (KeypairsResponse success code subcode message keypairs) ->
  k ∈ keypairs ->
  exists authUser userKeypairs,
    checkIsAdminAndGetUserFromJWT (db w) r = Ok authUser /\
    ListAllowedKeypairs (db w) authUser = Ok userKeypairs /\
    k ∈ userKeypairs /\
    Keypair.AuthorityID k = var r "account_code".
Proof.
  unfold_handler.
  destruct (checkIsAdminAndGetUserFromJWT (db w) r) as [authUser|e] eqn:Hauth;
    cbn; intros Hresp Hk.
  - destruct (ListAllowedKeypairs (db w) authUser) as [userKeypairs|e] eqn:Hlist;
      cbn in Hresp; injection Hresp as <- <- <- <- <-.
    + apply keypairsForAccount_elem in Hk as [Hin Hacc].
      by exists authUser, userKeypairs.
    + by apply elem_of_nil in Hk.
  - injection Hresp as <- <- <- <- <-. by apply elem_of_nil in Hk.
Qed.

(** ** Importing a signing key *)

Lemma length_eqb_0 (s : string) :
  (String.length s =? 0)%nat = true <-> s = "".
Proof. destruct s; cbn; split; intros; congruence. Qed.

Lemma length_eqb_0_false (s : string) :
  s <> "" -> (String.length s =? 0)%nat = false.
Proof. destruct s; cbn; congruence. Qed.

(** C6. When [ImportSigningKey] rejects the armored key of a
    create-keypair request, the request is answered with an error
    response, the datastore is left as it was and [PutKeypair] is not
    called; for a verified request the answer is 400
    [error-keypair-store] with the import error as message. *)
Theorem KeypairCreateHandler_import_failure (r : Request B) (w : World S)
    (body : B) (kp : KeypairWithPrivateKey.t) (e : string) :
  Body r = Some body ->
  decodeKeypairWithPrivateKey body = JsonOk kp ->
  ImportSigningKey (TrimSpace (KeypairWithPrivateKey.AuthorityID kp))
                   (KeypairWithPrivateKey.PrivateKey kp) = Err e ->
  let w' := serve KeypairCreateHandler r w in
  (forall k, CallPutKeypair k ∉ calls w') /\
  db w' = db w /\
  (exists code msg, response w' = Some (BooleanResponse false code "" msg)) /\
  (forall authUser,
      checkIsAdminAndGetUserFromJWT (db w) r = Ok authUser ->
      TrimSpace (KeypairWithPrivateKey.AuthorityID kp) <> "" ->
      CheckUserInAccount (db w) (Username authUser)
        (TrimSpace (KeypairWithPrivateKey.AuthorityID kp)) = true ->
      response w' = Some (BooleanResponse false "error-keypair-store" "" e) /\
      RespStatus (writer w') = Some StatusBadRequest).
Proof.
  intros Hbody Hdec Himp. unfold_handler. rewrite Hbody.
  destruct (checkIsAdminAndGetUserFromJWT (db w) r) as [authUser|ea] eqn:Hauth; cbn.
  2: { finish. }
  rewrite Hdec. cbn.
  destruct (String.length _ =? 0)%nat eqn:Hlen; cbn.
  { apply length_eqb_0 in Hlen. finish. }
  destruct (CheckUserInAccount (db w) _ _) eqn:Hperm; cbn.
  2: { finish. }
  rewrite Himp. cbn. finish.
Qed.

(** ** Attaching an account-key assertion *)

(** C10. An attach-assertion request whose decoded body has keypair id 0
    (the id was omitted, so the field kept its zero value, or was given
    as 0) is answered with an error without the assertion being
    base64-decoded or parsed and without [UpdateKeypairAssertion] being
    called; for an authenticated requester the answer is 400
    [invalid-keypair]. *)
Theorem KeypairAssertionHandler_zero_id (r : Request B) (w : World S)
    (body : B) (req : AssertionRequest.t) :
  Body r = Some body ->
  decodeAssertionRequest body = JsonOk req ->
  AssertionRequest.ID req = 0 ->
  let w' := serve KeypairAssertionHandler r w in
  (forall s, CallBase64Decode s ∉ calls w') /\
  (forall bytes, CallAssertsDecode bytes ∉ calls w') /\
  (forall k u, CallUpdateKeypairAssertion k u ∉ calls w') /\
  db w' = db w /\
  (exists code msg, response w' = Some (BooleanResponse false code "" msg)) /\
  (forall authUser,
      checkIsAdminAndGetUserFromJWT (db w) r = Ok authUser ->
      response w'
        = Some (BooleanResponse false "invalid-keypair" "" "ID of keypair not provided") /\
      RespStatus (writer w') = Some StatusBadRequest).
Proof.
  intros Hbody Hdec Hid. unfold_handler. rewrite Hbody.
  destruct (checkIsAdminAndGetUserFromJWT (db w) r) as [authUser|ea] eqn:Hauth; cbn.
  2: { finish. }
  rewrite Hdec, Hid. cbn. finish.
Qed.

(** C3, as the handler has it. A correctly decoded assertion whose type
    is not account-key is answered 400 [invalid-assertion]; the message
    names the required type only, whatever the type of the submitted
    assertion; [UpdateKeypairAssertion] is not called and the datastore
    is left as it was. *)
Theorem KeypairAssertionHandler_wrong_type (r : Request B) (w : World S)
    (authUser : User) (body : B) (req : AssertionRequest.t)
    (bytes : string) (a : Assertion.t) :
  checkIsAdminAndGetUserFromJWT (db w) r = Ok authUser ->
  Body r = Some body ->
  decodeAssertionRequest body = JsonOk req ->
  AssertionRequest.ID req <> 0 ->
  base64_DecodeString (AssertionRequest.Assertion req) = Ok bytes ->
  asserts_Decode bytes = Ok a ->
  Assertion.TypeName a <> AccountKeyTypeName ->
  let w' := serve KeypairAssertionHandler r w in
  response w'
    = Some (BooleanResponse false "invalid-assertion" ""
              "An assertion of type 'account-key' is required") /\
  RespStatus (writer w') = Some StatusBadRequest /\
  (forall k u, CallUpdateKeypairAssertion k u ∉ calls w') /\
  db w' = db w.
Proof.
  intros Hauth Hbody Hdec Hid Hb64 Hassert Hty. unfold_handler.
  rewrite Hauth, Hbody. cbn. rewrite Hdec. cbn.
  apply Z.eqb_neq in Hid. rewrite Hid. cbn. rewrite Hb64. cbn.
  rewrite Hassert. cbn.
  apply String.eqb_neq in Hty. rewrite Hty. cbn. finish.
Qed.

(** What the handler hands to [UpdateKeypairAssertion]: the id of the
    request, the authority-id and key-id read from the assertion's
    headers, and the decoded assertion text. *)
Lemma KeypairAssertionHandler_update_call (r : Request B) (w : World S)
    (k : Keypair.t) (u : User) :
  CallUpdateKeypairAssertion k u ∈ calls (serve KeypairAssertionHandler r w) ->
  exists body req bytes a,
    checkIsAdminAndGetUserFromJWT (db w) r = Ok u /\
    Body r = Some body /\
    decodeAssertionRequest body = JsonOk req /\
    base64_DecodeString (AssertionRequest.Assertion req) = Ok bytes /\
    asserts_Decode bytes = Ok a /\
    Assertion.TypeName a = AccountKeyTypeName /\
    Keypair.ID k = AssertionRequest.ID req /\
    Keypair.ID k <> 0 /\
    Keypair.AuthorityID k = Assertion.HeaderString a "account-id" /\
    Keypair.KeyID k = Assertion.HeaderString a "public-key-sha3-384" /\
    Keypair.Assertion k = bytes.
Proof.
  unfold_handler.
  destruct (checkIsAdminAndGetUserFromJWT (db w) r) as [authUser|ea] eqn:Hauth; cbn.
  2: { intros H; exfalso; revert H; not_in_trace. }
  destruct (Body r) as [body|] eqn:Hbody; cbn.
  2: { intros H; exfalso; revert H; not_in_trace. }
  destruct (decodeAssertionRequest body) as [|ej|req] eqn:Hdec; cbn.
  1,2: intros H; exfalso; revert H; not_in_trace.
  destruct (AssertionRequest.ID req =? 0) eqn:Hid; cbn.
  { intros H; exfalso; revert H; not_in_trace. }
  destruct (base64_DecodeString _) as [bytes|eb] eqn:Hb64; cbn.
  2: { intros H; exfalso; revert H; not_in_trace. }
  destruct (asserts_Decode bytes) as [a|ed] eqn:Hassert; cbn.
  2: { intros H; exfalso; revert H; not_in_trace. }
  destruct (String.eqb (Assertion.TypeName a) AccountKeyTypeName) eqn:Hty; cbn.
  2: { intros H; exfalso; revert H; not_in_trace. }
  apply String.eqb_eq in Hty. apply Z.eqb_neq in Hid.
  destruct (UpdateKeypairAssertion _ _ _) as [s' [code [eu|]]]; cbn;
    intros Hin; rewrite ?elem_of_cons, ?elem_of_nil in Hin;
    repeat (destruct Hin as [Hc|Hin]; [try discriminate|]);
    try contradiction;
    injection Hc as -> ->; exists body, req, bytes, a; repeat split; auto.
Qed.

(** ** Starting a key generation *)

(** C1, as the handler has it. Every generate-keypair request that passes
    verification starts one [GenerateKeypair] goroutine for its
    (authority-id, key-name) and is answered 202 Accepted with the status
    URL, whatever the datastore holds and whatever goroutines are already
    started: the handler never reads the generation status, so it makes
    no in-progress check. *)
Theorem KeypairGenerateHandler_always_starts_worker (r : Request B)
    (w : World S) (authUser : User) (body : B) (kp : KeypairWithPrivateKey.t) :
  checkIsAdminAndGetUserFromJWT (db w) r = Ok authUser ->
  Body r = Some body ->
  decodeKeypairWithPrivateKey body = JsonOk kp ->
  TrimSpace (KeypairWithPrivateKey.AuthorityID kp) <> "" ->
  CheckUserInAccount (db w) (Username authUser)
    (TrimSpace (KeypairWithPrivateKey.AuthorityID kp)) = true ->
  let authorityID := TrimSpace (KeypairWithPrivateKey.AuthorityID kp) in
  let keyName := KeypairWithPrivateKey.KeyName kp in
  let w' := serve KeypairGenerateHandler r w in
  goroutines w' = (goroutines w ++ [GoGenerateKeypair authorityID "" keyName])%list /\
  response w'
    = Some (BooleanResponse true "" ""
              ("/v1/keypairs/status/" +:+ authorityID +:+ "/" +:+ keyName)) /\
  RespStatus (writer w') = Some StatusAccepted /\
  (forall a k, CallGetKeypairStatus a k ∉ calls w').
Proof.
  intros Hauth Hbody Hdec Hne Hperm. unfold_handler.
  rewrite Hauth, Hbody. cbn. rewrite Hdec. cbn.
  rewrite (length_eqb_0_false _ Hne). cbn. rewrite Hperm. cbn. finish.
Qed.

(** The generate handler never writes to the datastore, whether it
    accepts the request or not. *)
Lemma KeypairGenerateHandler_db (r : Request B) (w : World S) :
  db (serve KeypairGenerateHandler r w) = db w.
Proof.
  unfold_handler.
  destruct (checkIsAdminAndGetUserFromJWT (db w) r); cbn; [|done].
  destruct (Body r); cbn; [|done].
  destruct (decodeKeypairWithPrivateKey _); cbn; [done|done|].
  destruct (String.length _ =? 0)%nat; cbn; [done|].
  destruct (CheckUserInAccount (db w) _ _); done.
Qed.

(** C2, as the handler has it. An accepted generate-keypair request
    returns with its goroutine started and the datastore exactly as it
    was: the handler writes no generation status. A status poll served
    next, before the goroutine has run, is answered from the status table
    as it was before the request, so for a job with no earlier entry it
    is answered 400 "Cannot find the status of the keypair". *)
Theorem KeypairGenerateHandler_leaves_tracker (r : Request B)
    (w : World S) (authUser : User) (body : B) (kp : KeypairWithPrivateKey.t) :
  checkIsAdminAndGetUserFromJWT (db w) r = Ok authUser ->
  Body r = Some body ->
  decodeKeypairWithPrivateKey body = JsonOk kp ->
  TrimSpace (KeypairWithPrivateKey.AuthorityID kp) <> "" ->
  CheckUserInAccount (db w) (Username authUser)
    (TrimSpace (KeypairWithPrivateKey.AuthorityID kp)) = true ->
  let authorityID := TrimSpace (KeypairWithPrivateKey.AuthorityID kp) in
  let keyName := KeypairWithPrivateKey.KeyName kp in
  let w' := serve KeypairGenerateHandler r w in
  db w' = db w /\
  GoGenerateKeypair authorityID "" keyName ∈ goroutines w' /\
  (forall (poll : Request B) (pollUser : User) (e : string),
      var poll "authorityID" = authorityID ->
      var poll "keyName" = keyName ->
      checkIsAdminAndGetUserFromJWT (db w') poll = Ok pollUser ->
      CheckUserInAccount (db w') (Username pollUser) authorityID = true ->
      GetKeypairStatus (db w) authorityID keyName = Err e ->
      response (serve KeypairStatusHandler poll w')
        = Some (BooleanResponse false "error-keypair-json" ""
                  "Cannot find the status of the keypair") /\
      RespStatus (writer (serve KeypairStatusHandler poll w'))
        = Some StatusBadRequest).
Proof.
  intros Hauth Hbody Hdec Hne Hperm. unfold_handler.
  rewrite Hauth, Hbody. cbn. rewrite Hdec. cbn.
  rewrite (length_eqb_0_false _ Hne). cbn. rewrite Hperm. cbn.
  split; [done|]. split.
  { apply elem_of_app. right. by apply list_elem_of_singleton. }
  intros poll pollUser e Ha Hk Hpa Hpp Hst.
  rewrite Hpa. cbn. rewrite Ha, Hk, Hpp. cbn. rewrite Hst. done.
Qed.

(** ** Listing the signing log *)

(** C9. When the [fromID] parameter is absent or is not a parseable
    integer, the handler lists from [MaxFromID]: its only call is
    [ListSigningLog MaxFromID], its answer is the outcome of that call,
    and it is the answer given to a request that names [MaxFromID]
    itself. *)
Theorem SigningLogHandler_default_fromID (MaxFromID : Z) (r : Request B)
    (w : World S) :
  Form r !! "fromID" = None \/ (exists e, Atoi (FormValue r "fromID") = Err e) ->
  let w' := serve (SigningLogHandler MaxFromID) r w in
  calls w' = [CallListSigningLog MaxFromID] /\
  response w'
    = Some (match ListSigningLog (db w) MaxFromID with
            | Ok logs => SigningLogResponse true "" "" "" logs
            | Err e => SigningLogResponse false "error-fetch-signinglog" "" e []
            end) /\
  RespStatus (writer w')
    = Some (match ListSigningLog (db w) MaxFromID with
            | Ok _ => StatusOK
            | Err _ => StatusInternalServerError
            end) /\
  (forall r' : Request B,
      Atoi (FormValue r' "fromID") = Ok MaxFromID ->
      serve (SigningLogHandler MaxFromID) r' w = w').
Proof.
  intros Hparam.
  assert (Hfrom :
    (if (String.length (FormValue r "fromID") =? 0)%nat then MaxFromID
     else match Atoi (FormValue r "fromID") with
          | Ok n => n
          | Err _ => MaxFromID
          end) = MaxFromID).
  { destruct (String.length _ =? 0)%nat; [done|].
    destruct Hparam as [Habs|[e He]].
    - unfold FormValue. by rewrite Habs.
    - by rewrite He. }
  unfold_handler. rewrite Hfrom.
  split; [|split; [|split]].
  - destruct (ListSigningLog (db w) MaxFromID); done.
  - destruct (ListSigningLog (db w) MaxFromID); done.
  - destruct (ListSigningLog (db w) MaxFromID); done.
  - intros r' Hr'. rewrite Hr'.
    destruct (String.length (FormValue r' "fromID") =? 0)%nat eqn:Hlen; [|done].
    apply length_eqb_0 in Hlen. rewrite Hlen in Hr'. discriminate.
Qed.


End HandlerProperties.

(** ** Attaching over the in-memory datastore *)

Section AttachOnMemDB.
Context {B : Type} {LIB : Library MemDB.t B}.

(** C4. When an attach-assertion request succeeds, the assertion was a
    correctly decoded account-key assertion, the requester is permitted
    for the authority its [account-id] header declares, and the keypair
    stored under the request's id has that header as authority-id, the
    [public-key-sha3-384] header as key-id and the decoded text as
    assertion. *)
Theorem KeypairAssertionHandler_attach (r : Request B) (w : World MemDB.t) :
  payload_success <$> response (serve KeypairAssertionHandler r w) = Some true ->
  exists authUser body req bytes a stored,
    checkIsAdminAndGetUserFromJWT (db w) r = Ok authUser /\
    Body r = Some body /\
    decodeAssertionRequest body = JsonOk req /\
    base64_DecodeString (AssertionRequest.Assertion req) = Ok bytes /\
    asserts_Decode bytes = Ok a /\
    Assertion.TypeName a = AccountKeyTypeName /\
    MemDB.CheckUserInAccount (db w) (Username authUser)
      (Assertion.HeaderString a "account-id") = true /\
    MemDB.keypairs (db (serve KeypairAssertionHandler r w))
      !! AssertionRequest.ID req = Some stored /\
    Keypair.AuthorityID stored = Assertion.HeaderString a "account-id" /\
    Keypair.KeyID stored = Assertion.HeaderString a "public-key-sha3-384" /\
    Keypair.Assertion stored = bytes.
Proof.
  unfold serve, run, response, KeypairAssertionHandler, checkJWT, jsonDecode,
    dbUpdateKeypairAssertion, base64Decode, assertsDecode,
    formatBooleanResponse, logMessage, HeaderSet, WriteHeader, write,
    onWriter, call, getDB, putDB, bind, ret.
  cbn [fst snd db writer goroutines calls RespHeader RespStatus Written].
  destruct (checkIsAdminAndGetUserFromJWT (db w) r) as [authUser|ea] eqn:Hauth;
    cbn; [|discriminate].
  destruct (Body r) as [body|] eqn:Hbody; cbn; [|discriminate].
  destruct (decodeAssertionRequest body) as [|ej|req] eqn:Hdec; cbn;
    [discriminate|discriminate|].
  destruct (AssertionRequest.ID req =? 0) eqn:Hid; cbn; [discriminate|].
  destruct (base64_DecodeString _) as [bytes|eb] eqn:Hb64; cbn; [|discriminate].
  destruct (asserts_Decode bytes) as [a|ed] eqn:Hassert; cbn; [|discriminate].
  destruct (String.eqb (Assertion.TypeName a) AccountKeyTypeName) eqn:Hty; cbn;
    [|discriminate].
  apply String.eqb_eq in Hty.
  unfold MemDB.UpdateKeypairAssertion. cbn [Keypair.ID Keypair.AuthorityID].
  destruct (MemDB.CheckUserInAccount (db w) _ _) eqn:Hperm; cbn; [|discriminate].
  destruct (MemDB.keypairs (db w) !! AssertionRequest.ID req) as [row|] eqn:Hrow;
    cbn; [|discriminate].
  intros _. eexists authUser, body, req, bytes, a, _.
  repeat split; try done; [apply lookup_insert_eq | done..].
Qed.

End AttachOnMemDB.

(** ** Validating a device nonce *)

Section Nonces.
Import DeviceNonces.
Implicit Types (store : gmap string DeviceNonce) (n : DeviceNonce).

Lemma ValidateDeviceNonce_unknown ttl now store nonce :
  store !! nonce = None ->
  ValidateDeviceNonce ttl now store nonce = (store, Some NonceNotFoundError).
Proof. intros H. unfold ValidateDeviceNonce. by rewrite H. Qed.

Lemma ValidateDeviceNonce_expired ttl now store nonce n :
  store !! nonce = Some n -> deadline ttl n < now ->
  ValidateDeviceNonce ttl now store nonce = (store, Some NonceExpiredError).
Proof.
  intros H Hlt. unfold ValidateDeviceNonce. rewrite H.
  apply Z.ltb_lt in Hlt. by rewrite Hlt.
Qed.

Lemma ValidateDeviceNonce_used ttl now store nonce n :
  store !! nonce = Some n -> now <= deadline ttl n -> Used n = true ->
  ValidateDeviceNonce ttl now store nonce = (store, Some NonceAlreadyUsedError).
Proof.
  intros H Hle Hu. unfold ValidateDeviceNonce. rewrite H.
  apply Z.ltb_ge in Hle. by rewrite Hle, Hu.
Qed.

Lemma ValidateDeviceNonce_fresh ttl now store nonce n :
  store !! nonce = Some n -> now <= deadline ttl n -> Used n = false ->
  ValidateDeviceNonce ttl now store nonce = (<[nonce := consume n]> store, None).
Proof.
  intros H Hle Hu. unfold ValidateDeviceNonce. rewrite H.
  apply Z.ltb_ge in Hle. by rewrite Hle, Hu.
Qed.

(** C7. For a nonce validated for the first time within its
    time-to-live: the validation succeeds; a second validation of the
    same value within the time-to-live fails with
    [NonceAlreadyUsedError]; a validation after the expiry deadline,
    before or after the first one, fails with [NonceExpiredError]; the
    validation of a value the store does not know fails with
    [NonceNotFoundError]. *)
Theorem ValidateDeviceNonce_single_use ttl store nonce n (t1 : Z) :
  store !! nonce = Some n ->
  Used n = false ->
  t1 <= deadline ttl n ->
  exists store1,
    ValidateDeviceNonce ttl t1 store nonce = (store1, None) /\
    (forall t2, t2 <= deadline ttl n ->
       ValidateDeviceNonce ttl t2 store1 nonce = (store1, Some NonceAlreadyUsedError)) /\
    (forall t, deadline ttl n < t ->
       ValidateDeviceNonce ttl t store nonce = (store, Some NonceExpiredError) /\
       ValidateDeviceNonce ttl t store1 nonce = (store1, Some NonceExpiredError)) /\
    (forall other t, store !! other = None ->
       ValidateDeviceNonce ttl t store other = (store, Some NonceNotFoundError) /\
       ValidateDeviceNonce ttl t store1 other = (store1, Some NonceNotFoundError)).
Proof.
  intros Hn Hu Ht1. exists (<[nonce := consume n]> store).
  assert (Hn1 : <[nonce := consume n]> store !! nonce = Some (consume n))
    by apply lookup_insert_eq.
  split; [by apply ValidateDeviceNonce_fresh|]. split; [|split].
  - intros t2 Ht2. by apply (ValidateDeviceNonce_used _ _ _ _ (consume n)).
  - intros t Ht. split.
    + by apply (ValidateDeviceNonce_expired _ _ _ _ n).
    + by apply (ValidateDeviceNonce_expired _ _ _ _ (consume n)).
  - intros other t Ho. split.
    + by apply ValidateDeviceNonce_unknown.
    + apply ValidateDeviceNonce_unknown.
      rewrite lookup_insert_ne; [done|]. intros ->. congruence.
Qed.

End Nonces.

(** * The properties on concrete requests *)

Section Concrete.
Import Examples.

(** Alice lists the keypairs of acme and gets acme's keypair. *)
Lemma KeypairListHandler_scoped_witness :
  response (serve KeypairListHandler listAcme (start store))
    = Some (KeypairsResponse true "" "" "" [kpAcme]) /\
  kpAcme ∈ [kpAcme] /\
  exists authUser userKeypairs,
    checkIsAdminAndGetUserFromJWT (db (start store)) listAcme = Ok authUser /\
    ListAllowedKeypairs (db (start store)) authUser = Ok userKeypairs /\
    kpAcme ∈ userKeypairs /\
    Keypair.AuthorityID kpAcme = var listAcme "account_code".
Proof.
  assert (H1 : response (serve KeypairListHandler listAcme (start store))
               = Some (KeypairsResponse true "" "" "" [kpAcme]))
    by (vm_compute; reflexivity).
  assert (H2 : kpAcme ∈ [kpAcme]) by apply list_elem_of_here.
  split; [exact H1|]. split; [exact H2|].
  exact (KeypairListHandler_scoped listAcme (start store) _ _ _ _ _ _ H1 H2).
Defined.

(** A create request whose private key is not base64 is answered 400
    [error-keypair-store]; [PutKeypair] is not called. *)
Lemma KeypairCreateHandler_import_failure_witness :
  Body createMalformed = Some (Fixture.DocKeypair createMalformedDoc) /\
  Fixture.decodeKeypairWithPrivateKey (Fixture.DocKeypair createMalformedDoc)
    = JsonOk createMalformedDoc /\
  Fixture.ImportSigningKey
    (Fixture.TrimSpace (KeypairWithPrivateKey.AuthorityID createMalformedDoc))
    (KeypairWithPrivateKey.PrivateKey createMalformedDoc) = Err "illegal base64 data at input byte 3" /\
  (forall k, CallPutKeypair k ∉ calls (serve KeypairCreateHandler createMalformed (start store))) /\
  db (serve KeypairCreateHandler createMalformed (start store)) = store /\
  response (serve KeypairCreateHandler createMalformed (start store))
    = Some (BooleanResponse false "error-keypair-store" "" "illegal base64 data at input byte 3") /\
  RespStatus (writer (serve KeypairCreateHandler createMalformed (start store)))
    = Some StatusBadRequest.
Proof.
  assert (H1 : Body createMalformed = Some (Fixture.DocKeypair createMalformedDoc))
    by reflexivity.
  assert (H2 : Fixture.decodeKeypairWithPrivateKey (Fixture.DocKeypair createMalformedDoc)
               = JsonOk createMalformedDoc) by reflexivity.
  assert (H3 : Fixture.ImportSigningKey
                 (Fixture.TrimSpace (KeypairWithPrivateKey.AuthorityID createMalformedDoc))
                 (KeypairWithPrivateKey.PrivateKey createMalformedDoc)
               = Err "illegal base64 data at input byte 3") by (vm_compute; reflexivity).
  destruct (KeypairCreateHandler_import_failure
              (DS := MemDB_Datastore) (LIB := Fixture_Library)
              createMalformed (start store)
              (Fixture.DocKeypair createMalformedDoc) createMalformedDoc
              "illegal base64 data at input byte 3" H1 H2 H3) as (Hput & Hdb & _ & Hresp).
  split; [exact H1|]. split; [exact H2|]. split; [exact H3|].
  split; [exact Hput|]. split; [exact Hdb|].
  apply (Hresp {| Username := "alice" |}).
  - vm_compute; reflexivity.
  - vm_compute; discriminate.
  - vm_compute; reflexivity.
Defined.

(** An attach request for keypair id 0 is answered 400
    [invalid-keypair] and nothing is decoded. *)
Lemma KeypairAssertionHandler_zero_id_witness :
  Body (attach "alice" 0 accountKeyAssertion)
    = Some (Fixture.DocAssertion (attachDoc 0 accountKeyAssertion)) /\
  Fixture.decodeAssertionRequest (Fixture.DocAssertion (attachDoc 0 accountKeyAssertion))
    = JsonOk (attachDoc 0 accountKeyAssertion) /\
  AssertionRequest.ID (attachDoc 0 accountKeyAssertion) = 0 /\
  (forall s, CallBase64Decode s
     ∉ calls (serve KeypairAssertionHandler (attach "alice" 0 accountKeyAssertion) (start store))) /\
  (forall k u, CallUpdateKeypairAssertion k u
     ∉ calls (serve KeypairAssertionHandler (attach "alice" 0 accountKeyAssertion) (start store))) /\
  response (serve KeypairAssertionHandler (attach "alice" 0 accountKeyAssertion) (start store))
    = Some (BooleanResponse false "invalid-keypair" "" "ID of keypair not provided").
Proof.
  assert (H1 : Body (attach "alice" 0 accountKeyAssertion)
               = Some (Fixture.DocAssertion (attachDoc 0 accountKeyAssertion)))
    by reflexivity.
  assert (H2 : Fixture.decodeAssertionRequest
                 (Fixture.DocAssertion (attachDoc 0 accountKeyAssertion))
               = JsonOk (attachDoc 0 accountKeyAssertion)) by reflexivity.
  assert (H3 : AssertionRequest.ID (attachDoc 0 accountKeyAssertion) = 0)
    by reflexivity.
  destruct (KeypairAssertionHandler_zero_id
              (DS := MemDB_Datastore) (LIB := Fixture_Library)
              (attach "alice" 0 accountKeyAssertion) (start store)
              (Fixture.DocAssertion (attachDoc 0 accountKeyAssertion))
              (attachDoc 0 accountKeyAssertion) H1 H2 H3)
    as (Hb64 & _ & Hupd & _ & _ & Hresp).
  split; [exact H1|]. split; [exact H2|]. split; [exact H3|].
  split; [exact Hb64|]. split; [exact Hupd|].
  apply (Hresp {| Username := "alice" |}). vm_compute; reflexivity.
Defined.

(** A model assertion submitted for keypair 7 is answered 400
    [invalid-assertion]. *)
Lemma KeypairAssertionHandler_wrong_type_witness :
  Fixture.checkIsAdminAndGetUserFromJWT store (attach "alice" 7 modelAssertion)
    = Ok {| Username := "alice" |} /\
  Fixture.base64_DecodeString modelAssertion = Ok modelAssertionText /\
  Fixture.asserts_Decode modelAssertionText = Ok modelAssertionDecoded /\
  Assertion.TypeName modelAssertionDecoded <> AccountKeyTypeName /\
  response (serve KeypairAssertionHandler (attach "alice" 7 modelAssertion) (start store))
    = Some (BooleanResponse false "invalid-assertion" ""
              "An assertion of type 'account-key' is required") /\
  db (serve KeypairAssertionHandler (attach "alice" 7 modelAssertion) (start store)) = store.
Proof.
  assert (H1 : Fixture.checkIsAdminAndGetUserFromJWT store (attach "alice" 7 modelAssertion)
               = Ok {| Username := "alice" |}) by (vm_compute; reflexivity).
  assert (H2 : Body (attach "alice" 7 modelAssertion)
               = Some (Fixture.DocAssertion (attachDoc 7 modelAssertion)))
    by reflexivity.
  assert (H3 : Fixture.decodeAssertionRequest
                 (Fixture.DocAssertion (attachDoc 7 modelAssertion))
               = JsonOk (attachDoc 7 modelAssertion)) by reflexivity.
  assert (H4 : AssertionRequest.ID (attachDoc 7 modelAssertion) <> 0)
    by (cbn; lia).
  assert (H5 : Fixture.base64_DecodeString modelAssertion = Ok modelAssertionText)
    by (vm_compute; reflexivity).
  assert (H6 : Fixture.asserts_Decode modelAssertionText = Ok modelAssertionDecoded)
    by (vm_compute; reflexivity).
  assert (H7 : Assertion.TypeName modelAssertionDecoded <> AccountKeyTypeName)
    by (cbn; discriminate).
  destruct (KeypairAssertionHandler_wrong_type
              (DS := MemDB_Datastore) (LIB := Fixture_Library)
              (attach "alice" 7 modelAssertion) (start store)
              {| Username := "alice" |}
              (Fixture.DocAssertion (attachDoc 7 modelAssertion))
              (attachDoc 7 modelAssertion) modelAssertionText modelAssertionDecoded
              H1 H2 H3 H4 H5 H6 H7)
    as (Hresp & _ & _ & Hdb).
  split; [exact H1|]. split; [exact H5|]. split; [exact H6|]. split; [exact H7|].
  split; [exact Hresp | exact Hdb].
Defined.

(** The specification asks for a message carrying the type of the submitted
    assertion as well. The request carries a complete model assertion,
    headers and signature, which [asserts.Decode] takes for a model; the
    message of the answer names account-key and does not mention
    model. *)
Lemma KeypairAssertionHandler_wrong_type_counterexample :
  Fixture.base64_DecodeString modelAssertion = Ok modelAssertionText /\
  Fixture.asserts_Decode modelAssertionText = Ok modelAssertionDecoded /\
  Assertion.TypeName modelAssertionDecoded = "model" /\
  exists message,
    response (serve KeypairAssertionHandler (attach "alice" 7 modelAssertion) (start store))
      = Some (BooleanResponse false "invalid-assertion" "" message) /\
    contains "account-key" message = true /\
    contains "model" message = false.
Proof.
  do 3 (split; [vm_compute; reflexivity|]).
  exists "An assertion of type 'account-key' is required".
  repeat split; vm_compute; reflexivity.
Qed.

(** Headers alone are no assertion: without the empty line and the
    signature the text does not decode, and the request is answered
    [decode-assertion], whatever type the headers name. *)
Example attach_headers_only :
  Fixture.base64_DecodeString "dHlwZTogbW9kZWwKYWNjb3VudC1pZDogYWNtZQo="
    = Ok (lines ["type: model"; "account-id: acme"; ""]) /\
  Fixture.asserts_Decode (lines ["type: model"; "account-id: acme"; ""])
    = Err "assertion content/signature separator not found" /\
  response (serve KeypairAssertionHandler
              (attach "alice" 7 "dHlwZTogbW9kZWwKYWNjb3VudC1pZDogYWNtZQo=") (start store))
    = Some (BooleanResponse false "decode-assertion" ""
              "assertion content/signature separator not found").
Proof. repeat split; vm_compute; reflexivity. Qed.

(** Alice attaches an account-key assertion of acme to keypair 7. *)
Lemma KeypairAssertionHandler_attach_witness :
  payload_success <$>
    response (serve KeypairAssertionHandler (attach "alice" 7 accountKeyAssertion) (start store))
    = Some true /\
  exists authUser body req bytes a stored,
    Fixture.checkIsAdminAndGetUserFromJWT store (attach "alice" 7 accountKeyAssertion)
      = Ok authUser /\
    Body (attach "alice" 7 accountKeyAssertion) = Some body /\
    Fixture.decodeAssertionRequest body = JsonOk req /\
    Fixture.base64_DecodeString (AssertionRequest.Assertion req) = Ok bytes /\
    Fixture.asserts_Decode bytes = Ok a /\
    Assertion.TypeName a = AccountKeyTypeName /\
    MemDB.CheckUserInAccount store (Username authUser)
      (Assertion.HeaderString a "account-id") = true /\
    MemDB.keypairs
      (db (serve KeypairAssertionHandler (attach "alice" 7 accountKeyAssertion) (start store)))
      !! AssertionRequest.ID req = Some stored /\
    Keypair.AuthorityID stored = Assertion.HeaderString a "account-id" /\
    Keypair.KeyID stored = Assertion.HeaderString a "public-key-sha3-384" /\
    Keypair.Assertion stored = bytes.
Proof.
  assert (H1 : payload_success <$>
                 response (serve KeypairAssertionHandler
                             (attach "alice" 7 accountKeyAssertion) (start store))
               = Some true) by (vm_compute; reflexivity).
  split; [exact H1|].
  exact (KeypairAssertionHandler_attach (LIB := Fixture_Library)
           (attach "alice" 7 accountKeyAssertion) (start store) H1).
Defined.

(** The keypair stored by that request. *)
Example attach_stored :
  MemDB.keypairs
    (db (serve KeypairAssertionHandler (attach "alice" 7 accountKeyAssertion) (start store)))
    !! 7
  = Some {| Keypair.ID := 7; Keypair.AuthorityID := "acme"; Keypair.KeyID := accountKeyID;
            Keypair.Active := true; Keypair.SealedKey := "sealed-acme";
            Keypair.Assertion := accountKeyAssertionText |}.
Proof. vm_compute; reflexivity. Qed.

(** Bob, who is linked to globex only, is refused the same request. *)
Example attach_not_permitted :
  response (serve KeypairAssertionHandler (attach "bob" 7 accountKeyAssertion) (start store))
    = Some (BooleanResponse false "NotAuthorizedError" "" "not permitted") /\
  db (serve KeypairAssertionHandler (attach "bob" 7 accountKeyAssertion) (start store)) = store.
Proof. split; vm_compute; reflexivity. Qed.

(** The generate request for (acme, prod-key) is accepted while the
    tracker holds that job as Generating. *)
Lemma KeypairGenerateHandler_always_starts_worker_witness :
  Fixture.checkIsAdminAndGetUserFromJWT (db whileGenerating) generate
    = Ok {| Username := "alice" |} /\
  Body generate = Some (Fixture.DocKeypair generateDoc) /\
  Fixture.decodeKeypairWithPrivateKey (Fixture.DocKeypair generateDoc) = JsonOk generateDoc /\
  Fixture.TrimSpace (KeypairWithPrivateKey.AuthorityID generateDoc) <> "" /\
  MemDB.CheckUserInAccount (db whileGenerating) "alice"
    (Fixture.TrimSpace (KeypairWithPrivateKey.AuthorityID generateDoc)) = true /\
  goroutines (serve KeypairGenerateHandler generate whileGenerating)
    = (goroutines whileGenerating
         ++ [GoGenerateKeypair
               (Fixture.TrimSpace (KeypairWithPrivateKey.AuthorityID generateDoc)) ""
               (KeypairWithPrivateKey.KeyName generateDoc)])%list /\
  response (serve KeypairGenerateHandler generate whileGenerating)
    = Some (BooleanResponse true "" ""
              ("/v1/keypairs/status/"
                 +:+ Fixture.TrimSpace (KeypairWithPrivateKey.AuthorityID generateDoc)
                 +:+ "/" +:+ KeypairWithPrivateKey.KeyName generateDoc)) /\
  RespStatus (writer (serve KeypairGenerateHandler generate whileGenerating))
    = Some StatusAccepted /\
  (forall a k, CallGetKeypairStatus a k
     ∉ calls (serve KeypairGenerateHandler generate whileGenerating)).
Proof.
  assert (H1 : Fixture.checkIsAdminAndGetUserFromJWT (db whileGenerating) generate
               = Ok {| Username := "alice" |}) by (vm_compute; reflexivity).
  assert (H2 : Body generate = Some (Fixture.DocKeypair generateDoc)) by reflexivity.
  assert (H3 : Fixture.decodeKeypairWithPrivateKey (Fixture.DocKeypair generateDoc)
               = JsonOk generateDoc) by reflexivity.
  assert (H4 : Fixture.TrimSpace (KeypairWithPrivateKey.AuthorityID generateDoc) <> "")
    by (vm_compute; discriminate).
  assert (H5 : MemDB.CheckUserInAccount (db whileGenerating) "alice"
                 (Fixture.TrimSpace (KeypairWithPrivateKey.AuthorityID generateDoc))
               = true) by (vm_compute; reflexivity).
  split; [exact H1|]. split; [exact H2|]. split; [exact H3|].
  split; [exact H4|]. split; [exact H5|].
  exact (KeypairGenerateHandler_always_starts_worker
           (DS := MemDB_Datastore) (LIB := Fixture_Library)
           generate whileGenerating {| Username := "alice" |}
           (Fixture.DocKeypair generateDoc) generateDoc H1 H2 H3 H4 H5).
Defined.

(** The specification asks that a second generate request for a job still
    Generating be rejected and start no second worker. Here the first
    request for (acme, prod-key) was accepted, the tracker holds the job
    as Generating and its goroutine is started; the second request for
    the same pair is answered 202 Accepted and a second goroutine is
    started. *)
Lemma KeypairGenerateHandler_second_request_counterexample :
  response afterGenerate
    = Some (BooleanResponse true "" "" "/v1/keypairs/status/acme/prod-key") /\
  GetKeypairStatus (db whileGenerating) "acme" "prod-key" = Ok generating /\
  goroutines whileGenerating = [GoGenerateKeypair "acme" "" "prod-key"] /\
  response afterSecondGenerate
    = Some (BooleanResponse true "" "" "/v1/keypairs/status/acme/prod-key") /\
  RespStatus (writer afterSecondGenerate) = Some StatusAccepted /\
  goroutines afterSecondGenerate
    = [GoGenerateKeypair "acme" "" "prod-key"; GoGenerateKeypair "acme" "" "prod-key"].
Proof. repeat split; vm_compute; reflexivity. Qed.

(** The generate request for (acme, prod-key) on a store with no status
    entry, and the poll that follows it. *)
Lemma KeypairGenerateHandler_leaves_tracker_witness :
  Fixture.checkIsAdminAndGetUserFromJWT (db (start store)) generate
    = Ok {| Username := "alice" |} /\
  Body generate = Some (Fixture.DocKeypair generateDoc) /\
  Fixture.decodeKeypairWithPrivateKey (Fixture.DocKeypair generateDoc) = JsonOk generateDoc /\
  Fixture.TrimSpace (KeypairWithPrivateKey.AuthorityID generateDoc) <> "" /\
  MemDB.CheckUserInAccount (db (start store)) "alice"
    (Fixture.TrimSpace (KeypairWithPrivateKey.AuthorityID generateDoc)) = true /\
  db afterGenerate = store /\
  GoGenerateKeypair (Fixture.TrimSpace (KeypairWithPrivateKey.AuthorityID generateDoc)) ""
    (KeypairWithPrivateKey.KeyName generateDoc) ∈ goroutines afterGenerate /\
  response (serve KeypairStatusHandler pollStatus afterGenerate)
    = Some (BooleanResponse false "error-keypair-json" ""
              "Cannot find the status of the keypair") /\
  RespStatus (writer (serve KeypairStatusHandler pollStatus afterGenerate))
    = Some StatusBadRequest.
Proof.
  assert (H1 : Fixture.checkIsAdminAndGetUserFromJWT (db (start store)) generate
               = Ok {| Username := "alice" |}) by (vm_compute; reflexivity).
  assert (H2 : Body generate = Some (Fixture.DocKeypair generateDoc)) by reflexivity.
  assert (H3 : Fixture.decodeKeypairWithPrivateKey (Fixture.DocKeypair generateDoc)
               = JsonOk generateDoc) by reflexivity.
  assert (H4 : Fixture.TrimSpace (KeypairWithPrivateKey.AuthorityID generateDoc) <> "")
    by (vm_compute; discriminate).
  assert (H5 : MemDB.CheckUserInAccount (db (start store)) "alice"
                 (Fixture.TrimSpace (KeypairWithPrivateKey.AuthorityID generateDoc))
               = true) by (vm_compute; reflexivity).
  destruct (KeypairGenerateHandler_leaves_tracker
              (DS := MemDB_Datastore) (LIB := Fixture_Library)
              generate (start store) {| Username := "alice" |}
              (Fixture.DocKeypair generateDoc) generateDoc H1 H2 H3 H4 H5)
    as (Hdb & Hgo & Hpoll).
  split; [exact H1|]. split; [exact H2|]. split; [exact H3|].
  split; [exact H4|]. split; [exact H5|].
  split; [exact Hdb|]. split; [exact Hgo|].
  apply (Hpoll pollStatus {| Username := "alice" |} "sql: no rows in result set").
  all: vm_compute; reflexivity.
Defined.

(** The specification asks that a status poll issued after an accepted generate
    request never report the job as not found. Here the request for
    (acme, prod-key) has returned accepted, its goroutine is started, the
    tracker has no entry, and the poll is answered 400 "Cannot find the
    status of the keypair". *)
Lemma KeypairStatusHandler_after_generate_counterexample :
  response afterGenerate
    = Some (BooleanResponse true "" "" "/v1/keypairs/status/acme/prod-key") /\
  RespStatus (writer afterGenerate) = Some StatusAccepted /\
  goroutines afterGenerate = [GoGenerateKeypair "acme" "" "prod-key"] /\
  MemDB.keypairStatus (db afterGenerate) = ∅ /\
  response (serve KeypairStatusHandler pollStatus afterGenerate)
    = Some (BooleanResponse false "error-keypair-json" ""
              "Cannot find the status of the keypair") /\
  RespStatus (writer (serve KeypairStatusHandler pollStatus afterGenerate))
    = Some StatusBadRequest.
Proof. repeat split; vm_compute; reflexivity. Qed.

(** A request with [fromID=abc] is listed from [MaxFromID]. *)
Lemma SigningLogHandler_default_fromID_witness :
  (Form (signingLog "alice" (Some "abc")) !! "fromID" = None \/
   exists e, Atoi (FormValue (signingLog "alice" (Some "abc")) "fromID") = Err e) /\
  calls (serve (SigningLogHandler MaxFromID) (signingLog "alice" (Some "abc")) (start store))
    = [CallListSigningLog MaxFromID] /\
  response (serve (SigningLogHandler MaxFromID) (signingLog "alice" (Some "abc")) (start store))
    = Some (SigningLogResponse true "" "" "" [logAcme; logGlobex]) /\
  serve (SigningLogHandler MaxFromID) (signingLog "alice" (Some "2147483647")) (start store)
    = serve (SigningLogHandler MaxFromID) (signingLog "alice" (Some "abc")) (start store).
Proof.
  assert (H1 : Form (signingLog "alice" (Some "abc")) !! "fromID" = None \/
               exists e, Atoi (FormValue (signingLog "alice" (Some "abc")) "fromID") = Err e).
  { right. exists "invalid syntax". vm_compute; reflexivity. }
  destruct (SigningLogHandler_default_fromID (DS := MemDB_Datastore)
              MaxFromID (signingLog "alice" (Some "abc")) (start store) H1)
    as (Hcalls & Hresp & _ & Hsame).
  split; [exact H1|]. split; [exact Hcalls|]. split; [exact Hresp|].
  apply Hsame. vm_compute; reflexivity.
Defined.



(** The nonce issued at time 100 with a time-to-live of 600: validated at
    150, again at 200, and after 700. *)
Lemma ValidateDeviceNonce_single_use_witness :
  nonces !! "n-1" = Some nonce /\
  DeviceNonces.Used nonce = false /\
  150 <= DeviceNonces.deadline 600 nonce /\
  exists store1,
    DeviceNonces.ValidateDeviceNonce 600 150 nonces "n-1" = (store1, None) /\
    DeviceNonces.ValidateDeviceNonce 600 200 store1 "n-1"
      = (store1, Some DeviceNonces.NonceAlreadyUsedError) /\
    DeviceNonces.ValidateDeviceNonce 600 701 store1 "n-1"
      = (store1, Some DeviceNonces.NonceExpiredError) /\
    DeviceNonces.ValidateDeviceNonce 600 150 store1 "n-2"
      = (store1, Some DeviceNonces.NonceNotFoundError).
Proof.
  assert (H1 : nonces !! "n-1" = Some nonce) by (vm_compute; reflexivity).
  assert (H2 : DeviceNonces.Used nonce = false) by reflexivity.
  assert (H3 : 150 <= DeviceNonces.deadline 600 nonce) by (vm_compute; discriminate).
  split; [exact H1|]. split; [exact H2|]. split; [exact H3|].
  destruct (ValidateDeviceNonce_single_use 600 nonces "n-1" nonce 150 H1 H2 H3)
    as (store1 & Hfirst & Hused & Hexp & Hunknown).
  exists store1. split; [exact Hfirst|]. split.
  - apply Hused. vm_compute; discriminate.
  - split.
    + apply Hexp. vm_compute; reflexivity.
    + apply Hunknown. vm_compute; reflexivity.
Defined.

End Concrete.

(** * Further properties of the handlers *)

Section AllHandlers.
Context {S B : Type} {DS : Datastore S} {KA : KeypairAdmin S} {LIB : Library S B}.

Ltac unfold_all :=
  unfold serve, run, response,
    KeypairListHandler, KeypairCreateHandler, KeypairAssertionHandler,
    KeypairGenerateHandler, KeypairStatusHandler, SigningLogHandler,
    KeypairDisableHandler, KeypairEnableHandler, KeypairStatusProgressHandler,
    verifyKeypair,
    checkJWT, jsonDecode, dbCheckUserInAccount, dbListAllowedKeypairs,
    dbPutKeypair, dbUpdateKeypairAssertion, dbGetKeypairStatus,
    dbListSigningLog, kdbImportSigningKey, base64Decode, assertsDecode,
    dbUpdateAllowedKeypairActive, dbListAllowedKeypairStatus,
    formatBooleanResponse, formatKeypairsResponse, formatSigningLogResponse,
    formatKeypairStatusResponse,
    logMessage, HeaderSet, WriteHeader, write, onWriter, go, call, getDB,
    putDB, bind, ret in *;
  cbn [fst snd db writer goroutines calls RespHeader RespStatus Written] in *.

(** One case split on the innermost answer a handler branches on. *)
Ltac split_answer :=
  match goal with
  | |- context [match ?x with _ => _ end] =>
    lazymatch x with
    | context [match _ with _ => _ end] => fail
    | _ => destruct x eqn:?
    end
  end;
  cbn [fst snd db writer goroutines calls RespHeader RespStatus Written
       emptyWriter app length] in *.

Ltac all_paths := unfold_all; repeat split_answer.

(** Every handler writes exactly one response document, on every path. *)
Theorem handlers_answer_once (MaxFromID : Z) (r : Request B) (w : World S) :
  let answers h := length (Written (writer (serve h r w))) in
  answers KeypairListHandler = 1%nat /\
  answers KeypairCreateHandler = 1%nat /\
  answers KeypairDisableHandler = 1%nat /\
  answers KeypairEnableHandler = 1%nat /\
  answers KeypairAssertionHandler = 1%nat /\
  answers KeypairGenerateHandler = 1%nat /\
  answers KeypairStatusHandler = 1%nat /\
  answers KeypairStatusProgressHandler = 1%nat /\
  answers (SigningLogHandler MaxFromID) = 1%nat.
Proof.
  cbv zeta. repeat split; all_paths; reflexivity.
Qed.

(** The listing and polling handlers and the generate handler never
    write to the datastore, and only the generate handler starts a
    goroutine. *)
Theorem read_handlers_leave_datastore (MaxFromID : Z) (r : Request B) (w : World S) :
  let untouched h :=
    db (serve h r w) = db w /\ goroutines (serve h r w) = goroutines w in
  untouched KeypairListHandler /\
  untouched KeypairStatusHandler /\
  untouched KeypairStatusProgressHandler /\
  untouched (SigningLogHandler MaxFromID) /\
  db (serve KeypairGenerateHandler r w) = db w.
Proof.
  cbv zeta. repeat split; all_paths; reflexivity.
Qed.

(** A request that fails the JWT check is answered [error-auth] by every
    keypair handler, before anything else is called: the datastore is
    left as it was and no goroutine is started. *)
Theorem unauthenticated_requests_stop (r : Request B) (w : World S) (e : string) :
  checkIsAdminAndGetUserFromJWT (db w) r = Err e ->
  let stopped h p :=
    response (serve h r w) = Some p /\
    calls (serve h r w) = [CallCheckJWT] /\
    db (serve h r w) = db w /\
    goroutines (serve h r w) = goroutines w in
  stopped KeypairListHandler (KeypairsResponse false "error-auth" "" "" []) /\
  stopped KeypairCreateHandler (BooleanResponse false "error-auth" "" "") /\
  stopped KeypairDisableHandler (BooleanResponse false "error-auth" "" "") /\
  stopped KeypairEnableHandler (BooleanResponse false "error-auth" "" "") /\
  stopped KeypairAssertionHandler (BooleanResponse false "error-auth" "" "") /\
  stopped KeypairGenerateHandler (BooleanResponse false "error-auth" "" "") /\
  stopped KeypairStatusHandler (BooleanResponse false "error-auth" "" "") /\
  stopped KeypairStatusProgressHandler (BooleanResponse false "error-auth" "" "").
Proof.
  intros Hauth. cbv zeta. unfold_all. rewrite Hauth. cbn. repeat split.
Qed.

(** Once the JWT check has passed, the HTTP status a handler sets agrees
    with the [success] flag of the document it writes: a failure document
    always comes with an explicit status of 400 or more, a success
    document with an explicit status below 400 or with none. *)
Theorem status_agrees_with_success (MaxFromID : Z) (r : Request B) (w : World S)
    (authUser : User) :
  checkIsAdminAndGetUserFromJWT (db w) r = Ok authUser ->
  let agrees h :=
    exists p,
      response (serve h r w) = Some p /\
      match RespStatus (writer (serve h r w)) with
      | Some code => payload_success p = (code <? 400)
      | None => payload_success p = true
      end in
  agrees KeypairListHandler /\
  agrees KeypairCreateHandler /\
  agrees KeypairDisableHandler /\
  agrees KeypairEnableHandler /\
  agrees KeypairAssertionHandler /\
  agrees KeypairGenerateHandler /\
  agrees KeypairStatusHandler /\
  agrees KeypairStatusProgressHandler /\
  agrees (SigningLogHandler MaxFromID).
Proof.
  intros Hauth. cbv zeta.
  repeat split; unfold_all; rewrite ?Hauth; repeat split_answer;
    eexists; (split; [reflexivity|reflexivity]).
Qed.


(** ** Enabling and disabling a keypair *)

(** An id that is not a parseable integer (an absent one included) is
    answered 404 [error-invalid-key] with the id as message by both
    handlers, and the datastore is left as it was. *)
Theorem keypair_active_invalid_id (r : Request B) (w : World S)
    (authUser : User) (e : string) :
  checkIsAdminAndGetUserFromJWT (db w) r = Ok authUser ->
  Atoi (var r "id") = Err e ->
  let rejected h :=
    response (serve h r w)
      = Some (BooleanResponse false "error-invalid-key" "" (var r "id")) /\
    RespStatus (writer (serve h r w)) = Some StatusNotFound /\
    db (serve h r w) = db w in
  rejected KeypairDisableHandler /\ rejected KeypairEnableHandler.
Proof.
  intros Hauth Hid. cbv zeta. unfold_all. rewrite Hauth, Hid. cbn. repeat split.
Qed.

(** With a parseable id, the disable handler leaves the datastore as
    [UpdateAllowedKeypairActive] with flag [false] returns it and the
    enable handler as the same call with flag [true] returns it, both for
    the authenticated user; the answer is success when the call returns
    no error and 400 [error-keypair-update] with its message otherwise. *)
Theorem keypair_active_update (r : Request B) (w : World S)
    (authUser : User) (keypairID : Z) :
  checkIsAdminAndGetUserFromJWT (db w) r = Ok authUser ->
  Atoi (var r "id") = Ok keypairID ->
  let updated h active :=
    db (serve h r w)
      = fst (UpdateAllowedKeypairActive (db w) keypairID active authUser) /\
    response (serve h r w)
      = Some (match snd (UpdateAllowedKeypairActive (db w) keypairID active authUser) with
              | None => BooleanResponse true "" "" ""
              | Some err => BooleanResponse false "error-keypair-update" "" err
              end) /\
    RespStatus (writer (serve h r w))
      = match snd (UpdateAllowedKeypairActive (db w) keypairID active authUser) with
        | None => None
        | Some _ => Some StatusBadRequest
        end in
  updated KeypairDisableHandler false /\ updated KeypairEnableHandler true.
Proof.
  intros Hauth Hid. cbv zeta. unfold_all. rewrite Hauth, Hid. cbn.
  split.
  - destruct (UpdateAllowedKeypairActive (db w) keypairID false authUser)
      as [s' [err|]]; cbn; repeat split.
  - destruct (UpdateAllowedKeypairActive (db w) keypairID true authUser)
      as [s' [err|]]; cbn; repeat split.
Qed.

(** ** Creating and generating keypairs *)

(** Reads a membership in a computed trace as a disjunction of equations
    and drops the impossible ones. *)
Ltac in_trace H :=
  rewrite ?elem_of_cons, ?elem_of_nil in H;
  repeat (destruct H as [H|H]; [try discriminate H|]);
  try contradiction.

(** Whatever the create handler hands to [PutKeypair] was imported for an
    authenticated requester who is in the account of the keypair: its
    authority-id is the trimmed, non-empty authority-id of the request,
    its key-id and sealed key are the ones [ImportSigningKey] returned,
    and it carries no id and no assertion yet. *)
Theorem KeypairCreateHandler_put_call (r : Request B) (w : World S) (k : Keypair.t) :
  CallPutKeypair k ∈ calls (serve KeypairCreateHandler r w) ->
  exists authUser body kp privateKey,
    checkIsAdminAndGetUserFromJWT (db w) r = Ok authUser /\
    Body r = Some body /\
    decodeKeypairWithPrivateKey body = JsonOk kp /\
    Keypair.AuthorityID k = TrimSpace (KeypairWithPrivateKey.AuthorityID kp) /\
    Keypair.AuthorityID k <> "" /\
    CheckUserInAccount (db w) (Username authUser) (Keypair.AuthorityID k) = true /\
    ImportSigningKey (Keypair.AuthorityID k) (KeypairWithPrivateKey.PrivateKey kp)
      = Ok (privateKey, Keypair.SealedKey k) /\
    Keypair.KeyID k = PublicKeyID privateKey /\
    Keypair.ID k = 0 /\
    Keypair.Assertion k = "".
Proof.
  all_paths; intros Hin; in_trace Hin.
  all: injection Hin as ->; cbn.
  all: eexists _, _, _, _; repeat split; eauto.
  all: try (intros Hempty; apply length_eqb_0 in Hempty; cbn in *; congruence).
  all: match goal with H : negb _ = false |- _ => by apply negb_false_iff in H end.
Qed.

(** For a verified request whose key imports, the answer is decided by
    [PutKeypair]: 200 and success when it returns no error, 400 with the
    datastore's error code and message otherwise; the datastore is left
    as [PutKeypair] returns it. *)
Theorem KeypairCreateHandler_put_outcome (r : Request B) (w : World S)
    (authUser : User) (body : B) (kp : KeypairWithPrivateKey.t)
    (privateKey : PrivateKey) (sealed : string) :
  checkIsAdminAndGetUserFromJWT (db w) r = Ok authUser ->
  Body r = Some body ->
  decodeKeypairWithPrivateKey body = JsonOk kp ->
  TrimSpace (KeypairWithPrivateKey.AuthorityID kp) <> "" ->
  CheckUserInAccount (db w) (Username authUser)
    (TrimSpace (KeypairWithPrivateKey.AuthorityID kp)) = true ->
  ImportSigningKey (TrimSpace (KeypairWithPrivateKey.AuthorityID kp))
    (KeypairWithPrivateKey.PrivateKey kp) = Ok (privateKey, sealed) ->
  let keypair :=
    {| Keypair.ID := 0;
       Keypair.AuthorityID := TrimSpace (KeypairWithPrivateKey.AuthorityID kp);
       Keypair.KeyID := PublicKeyID privateKey;
       Keypair.Active := false;
       Keypair.SealedKey := sealed;
       Keypair.Assertion := "" |} in
  let w' := serve KeypairCreateHandler r w in
  db w' = fst (PutKeypair (db w) keypair) /\
  response w'
    = Some (match snd (PutKeypair (db w) keypair) with
            | (_, None) => BooleanResponse true "" "" ""
            | (errorCode, Some err) => BooleanResponse false errorCode "" err
            end) /\
  RespStatus (writer w')
    = Some (match snd (PutKeypair (db w) keypair) with
            | (_, None) => StatusOK
            | (_, Some _) => StatusBadRequest
            end).
Proof.
  intros Hauth Hbody Hdec Hne Hperm Himp. cbv zeta. unfold_all.
  rewrite Hauth, Hbody. cbn. rewrite Hdec. cbn.
  rewrite (length_eqb_0_false _ Hne). cbn. rewrite Hperm. cbn.
  rewrite Himp. cbn.
  destruct (PutKeypair (db w) _) as [s' [code [err|]]]; cbn; repeat split.
Qed.

(** An authority-id that is empty once trimmed is answered 400
    [error-keypair-json] "The authority-id is mandatory" by the create
    and the generate handler; the account membership is not looked up,
    no key is imported or stored and no goroutine is started. *)
Theorem blank_authority_rejected (r : Request B) (w : World S)
    (authUser : User) (body : B) (kp : KeypairWithPrivateKey.t) :
  checkIsAdminAndGetUserFromJWT (db w) r = Ok authUser ->
  Body r = Some body ->
  decodeKeypairWithPrivateKey body = JsonOk kp ->
  TrimSpace (KeypairWithPrivateKey.AuthorityID kp) = "" ->
  let rejected h :=
    response (serve h r w)
      = Some (BooleanResponse false "error-keypair-json" ""
                "The authority-id is mandatory") /\
    RespStatus (writer (serve h r w)) = Some StatusBadRequest /\
    calls (serve h r w) = [CallCheckJWT; CallJSONDecode] /\
    db (serve h r w) = db w /\
    goroutines (serve h r w) = goroutines w in
  rejected KeypairCreateHandler /\ rejected KeypairGenerateHandler.
Proof.
  intros Hauth Hbody Hdec Hblank. cbv zeta. unfold_all.
  rewrite Hauth, Hbody. cbn. rewrite Hdec. cbn. rewrite Hblank. cbn.
  repeat split.
Qed.

(** The generate handler starts a goroutine only for an authenticated
    requester who is in the account named by the request, and then
    exactly one, for the trimmed authority-id and the key name of the
    request with an empty passphrase. *)
Theorem KeypairGenerateHandler_goroutine_gate (r : Request B) (w : World S) :
  goroutines (serve KeypairGenerateHandler r w) <> goroutines w ->
  exists authUser body kp,
    checkIsAdminAndGetUserFromJWT (db w) r = Ok authUser /\
    Body r = Some body /\
    decodeKeypairWithPrivateKey body = JsonOk kp /\
    CheckUserInAccount (db w) (Username authUser)
      (TrimSpace (KeypairWithPrivateKey.AuthorityID kp)) = true /\
    goroutines (serve KeypairGenerateHandler r w)
      = (goroutines w
           ++ [GoGenerateKeypair (TrimSpace (KeypairWithPrivateKey.AuthorityID kp)) ""
                 (KeypairWithPrivateKey.KeyName kp)])%list.
Proof.
  all_paths; intros Hgo; try (by destruct Hgo).
  eexists _, _, _; repeat split; eauto.
  match goal with H : negb _ = false |- _ => by apply negb_false_iff in H end.
Qed.

(** ** Polling and listing *)

(** The status handler discloses a generation status only to an
    authenticated requester who is in the account polled: a successful
    answer carries the status the datastore holds for the polled
    (authority-id, key-name), and the datastore was asked for it after
    the membership check, which passed. *)
Theorem KeypairStatusHandler_success (r : Request B) (w : World S)
    (code subcode message : string) :
  response (serve KeypairStatusHandler r w)
    = Some (BooleanResponse true code subcode message) ->
  exists authUser ks,
    checkIsAdminAndGetUserFromJWT (db w) r = Ok authUser /\
    CheckUserInAccount (db w) (Username authUser) (var r "authorityID") = true /\
    GetKeypairStatus (db w) (var r "authorityID") (var r "keyName") = Ok ks /\
    message = KeypairStatus.Status ks /\
    calls (serve KeypairStatusHandler r w)
      = [CallCheckJWT;
         CallCheckUserInAccount (Username authUser) (var r "authorityID");
         CallGetKeypairStatus (var r "authorityID") (var r "keyName")].
Proof.
  all_paths; intros Hresp; try discriminate.
  injection Hresp as <- <- <-. eexists _, _; repeat split; eauto.
  match goal with H : negb _ = false |- _ => by apply negb_false_iff in H end.
Qed.

(** A requester who is authenticated and is not in the account named by
    the request is answered 400 [error-auth] by the status, the create
    and the generate handler: no status is read, no key is imported or
    stored and no goroutine is started. *)
Theorem not_member_rejected (r : Request B) (w : World S) (authUser : User) :
  checkIsAdminAndGetUserFromJWT (db w) r = Ok authUser ->
  let refused h :=
    response (serve h r w)
      = Some (BooleanResponse false "error-auth" ""
                "Your user does not have permissions for the Signing Authority") /\
    RespStatus (writer (serve h r w)) = Some StatusBadRequest /\
    db (serve h r w) = db w /\
    goroutines (serve h r w) = goroutines w /\
    (forall a k, CallGetKeypairStatus a k ∉ calls (serve h r w)) /\
    (forall a k, CallImportSigningKey a k ∉ calls (serve h r w)) /\
    (forall k, CallPutKeypair k ∉ calls (serve h r w)) in
  (CheckUserInAccount (db w) (Username authUser) (var r "authorityID") = false ->
   refused KeypairStatusHandler) /\
  (forall body kp,
     Body r = Some body ->
     decodeKeypairWithPrivateKey body = JsonOk kp ->
     TrimSpace (KeypairWithPrivateKey.AuthorityID kp) <> "" ->
     CheckUserInAccount (db w) (Username authUser)
       (TrimSpace (KeypairWithPrivateKey.AuthorityID kp)) = false ->
     refused KeypairCreateHandler /\ refused KeypairGenerateHandler).
Proof.
  intros Hauth. cbv zeta. split.
  - intros Hperm. unfold_all. rewrite Hauth. cbn. rewrite Hperm. cbn.
    repeat split; intros; intros Hin; in_trace Hin.
  - intros body kp Hbody Hdec Hne Hperm. unfold_all.
    rewrite Hauth, Hbody. cbn. rewrite Hdec. cbn.
    rewrite (length_eqb_0_false _ Hne). cbn. rewrite Hperm. cbn.
    repeat split; intros; intros Hin; in_trace Hin.
Qed.


Lemma filter_sublist {A} (f : A -> bool) (l : list A) :
  List.filter f l `sublist_of` l.
Proof.
  induction l as [|x l IH]; cbn; [constructor|].
  destruct (f x); by constructor.
Qed.

(** The list handler answers an authenticated request with every keypair
    of the requested account that [ListAllowedKeypairs] returns, in the
    order it returns them, and with nothing else; an account code that
    matches none is answered with success and an empty list. *)
Theorem KeypairListHandler_complete (r : Request B) (w : World S)
    (authUser : User) (userKeypairs : list Keypair.t) :
  checkIsAdminAndGetUserFromJWT (db w) r = Ok authUser ->
  ListAllowedKeypairs (db w) authUser = Ok userKeypairs ->
  exists keypairs,
    response (serve KeypairListHandler r w)
      = Some (KeypairsResponse true "" "" "" keypairs) /\
    RespStatus (writer (serve KeypairListHandler r w)) = Some StatusOK /\
    keypairs `sublist_of` userKeypairs /\
    (forall k, k ∈ keypairs <->
               k ∈ userKeypairs /\ Keypair.AuthorityID k = var r "account_code") /\
    ((forall k, k ∈ userKeypairs -> Keypair.AuthorityID k <> var r "account_code") ->
     keypairs = []).
Proof.
  intros Hauth Hlist. unfold_all. rewrite Hauth. cbn. rewrite Hlist. cbn.
  eexists. split; [reflexivity|]. split; [reflexivity|]. split; [|split].
  - rewrite keypairsForAccount_filter. apply filter_sublist.
  - intros k. apply keypairsForAccount_elem.
  - intros Hnone.
    destruct (keypairsForAccount (var r "account_code") userKeypairs)
      as [|k l] eqn:Hk; [done|exfalso].
    assert (Hin : k ∈ keypairsForAccount (var r "account_code") userKeypairs)
      by (rewrite Hk; apply list_elem_of_here).
    apply keypairsForAccount_elem in Hin as [Hin Hacc]. by apply (Hnone k).
Qed.

(** The status-progress handler answers an authenticated request with
    the statuses [ListAllowedKeypairStatus] returns for that user; when
    the datastore fails, the answer is 400 with a fixed message, as it is
    in the status handler: the datastore's error text is not passed
    on. *)
Theorem status_handlers_answer (r : Request B) (w : World S) (authUser : User) :
  checkIsAdminAndGetUserFromJWT (db w) r = Ok authUser ->
  response (serve KeypairStatusProgressHandler r w)
    = Some (match ListAllowedKeypairStatus (db w) authUser with
            | Ok ks => KeypairStatusResponse true "" "" "" ks
            | Err _ => BooleanResponse false "error-keypair-json" ""
                         "Cannot find the status of the keypairs"
            end) /\
  (forall e,
     CheckUserInAccount (db w) (Username authUser) (var r "authorityID") = true ->
     GetKeypairStatus (db w) (var r "authorityID") (var r "keyName") = Err e ->
     response (serve KeypairStatusHandler r w)
       = Some (BooleanResponse false "error-keypair-json" ""
                 "Cannot find the status of the keypair")).
Proof.
  intros Hauth. unfold_all. rewrite Hauth. cbn. split.
  - destruct (ListAllowedKeypairStatus (db w) authUser); reflexivity.
  - intros e Hperm Hst. rewrite Hperm. cbn. rewrite Hst. reflexivity.
Qed.

(** A [fromID] parameter that parses is handed to [ListSigningLog] as it
    is, zero and negative values included; the answer is 200 with the
    rows returned or 500 [error-fetch-signinglog] with the datastore's
    message. *)
Theorem SigningLogHandler_parsed_fromID (MaxFromID : Z) (r : Request B)
    (w : World S) (n : Z) :
  Atoi (FormValue r "fromID") = Ok n ->
  let w' := serve (SigningLogHandler MaxFromID) r w in
  calls w' = [CallListSigningLog n] /\
  response w'
    = Some (match ListSigningLog (db w) n with
            | Ok logs => SigningLogResponse true "" "" "" logs
            | Err e => SigningLogResponse false "error-fetch-signinglog" "" e []
            end) /\
  RespStatus (writer w')
    = Some (match ListSigningLog (db w) n with
            | Ok _ => StatusOK
            | Err _ => StatusInternalServerError
            end).
Proof.
  intros Hn. cbv zeta. unfold_all. rewrite Hn.
  destruct (String.length (FormValue r "fromID") =? 0)%nat eqn:Hlen.
  { apply length_eqb_0 in Hlen. rewrite Hlen in Hn. discriminate. }
  destruct (ListSigningLog (db w) n); repeat split.
Qed.

(** ** Attaching an assertion: the other paths *)

(** An assertion that is not base64, or whose decoded text does not parse
    as an assertion, is answered 400 [decode-assertion] with the
    decoder's message, which is also logged; [UpdateKeypairAssertion] is
    not called and the datastore is left as it was. *)
Theorem KeypairAssertionHandler_decode_failure (r : Request B) (w : World S)
    (authUser : User) (body : B) (req : AssertionRequest.t) (e : string) :
  checkIsAdminAndGetUserFromJWT (db w) r = Ok authUser ->
  Body r = Some body ->
  decodeAssertionRequest body = JsonOk req ->
  AssertionRequest.ID req <> 0 ->
  (base64_DecodeString (AssertionRequest.Assertion req) = Err e \/
   exists bytes,
     base64_DecodeString (AssertionRequest.Assertion req) = Ok bytes /\
     asserts_Decode bytes = Err e) ->
  let w' := serve KeypairAssertionHandler r w in
  response w' = Some (BooleanResponse false "decode-assertion" "" e) /\
  RespStatus (writer w') = Some StatusBadRequest /\
  CallLogMessage "KEYPAIR" "invalid-assertion" e ∈ calls w' /\
  (forall k u, CallUpdateKeypairAssertion k u ∉ calls w') /\
  db w' = db w.
Proof.
  intros Hauth Hbody Hdec Hid Hfail. cbv zeta. unfold_all.
  rewrite Hauth, Hbody. cbn. rewrite Hdec. cbn.
  apply Z.eqb_neq in Hid. rewrite Hid. cbn.
  destruct Hfail as [Hb64|[bytes [Hb64 Hassert]]]; rewrite Hb64; cbn;
    [|rewrite Hassert; cbn].
  all: repeat split; try (intros k u Hin; in_trace Hin).
  all: rewrite ?elem_of_cons; auto 10.
Qed.

(** For an account-key assertion that decodes, the answer is decided by
    [UpdateKeypairAssertion]: success when it returns no error, 400 with
    the datastore's error code and message, the message logged, when it
    does; the datastore is left as the call returns it. *)
Theorem KeypairAssertionHandler_update_outcome (r : Request B) (w : World S)
    (authUser : User) (body : B) (req : AssertionRequest.t)
    (bytes : string) (a : Assertion.t) :
  checkIsAdminAndGetUserFromJWT (db w) r = Ok authUser ->
  Body r = Some body ->
  decodeAssertionRequest body = JsonOk req ->
  AssertionRequest.ID req <> 0 ->
  base64_DecodeString (AssertionRequest.Assertion req) = Ok bytes ->
  asserts_Decode bytes = Ok a ->
  Assertion.TypeName a = AccountKeyTypeName ->
  let keypair :=
    {| Keypair.ID := AssertionRequest.ID req;
       Keypair.AuthorityID := Assertion.HeaderString a "account-id";
       Keypair.KeyID := Assertion.HeaderString a "public-key-sha3-384";
       Keypair.Active := false;
       Keypair.SealedKey := "";
       Keypair.Assertion := bytes |} in
  let w' := serve KeypairAssertionHandler r w in
  db w' = fst (UpdateKeypairAssertion (db w) keypair authUser) /\
  response w'
    = Some (match snd (UpdateKeypairAssertion (db w) keypair authUser) with
            | (_, None) => BooleanResponse true "" "" ""
            | (errorCode, Some err) => BooleanResponse false errorCode "" err
            end) /\
  (forall errorCode err,
     snd (UpdateKeypairAssertion (db w) keypair authUser) = (errorCode, Some err) ->
     RespStatus (writer w') = Some StatusBadRequest /\
     CallLogMessage "KEYPAIR" "invalid-assertion" err ∈ calls w').
Proof.
  intros Hauth Hbody Hdec Hid Hb64 Hassert Hty. cbv zeta. unfold_all.
  rewrite Hauth, Hbody. cbn. rewrite Hdec. cbn.
  apply Z.eqb_neq in Hid. rewrite Hid. cbn. rewrite Hb64. cbn.
  rewrite Hassert. cbn. apply String.eqb_eq in Hty. rewrite Hty. cbn.
  destruct (UpdateKeypairAssertion (db w) _ authUser) as [s' [code [err|]]]; cbn.
  - split; [done|]. split; [done|]. intros ? ? Heq. injection Heq as _ <-.
    split; [done|]. rewrite ?elem_of_cons; auto 10.
  - split; [done|]. split; [done|]. intros ? ? Heq. discriminate.
Qed.

End AllHandlers.

(** * Transactions *)

Section TransactionProperties.
Import Transaction.
Context {D T P : Type} {SQLI : SQL D T}.
Implicit Types (txFunc : T -> D -> D * outcome error P) (d : D).

(** Once the transaction has begun, [transaction] ends as [txFunc]
    ends, but for a panic with nil: it returns the error [txFunc]
    returned, [nil] included, it panics with the value [txFunc] panicked
    with when that is not nil, and it ends the goroutine when [txFunc]
    called [runtime.Goexit]; when [txFunc] panicked with nil it returns
    [nil]. What [Commit] and [Rollback] answer has no part in it: a
    commit that fails is not reported. *)
Theorem transaction_outcome txFunc d (d1 : D) (tx : T) :
  Begin d = (d1, Ok tx) ->
  snd (transaction txFunc d)
    = match snd (txFunc tx d1) with
      | PanicsNil => Returns None
      | out => out
      end.
Proof.
  intros Hbegin. unfold transaction. rewrite Hbegin.
  destruct (txFunc tx d1) as [d2 [[e|]|p| |]]; cbn.
  - by destruct (Rollback tx d2).
  - by destruct (Commit tx d2).
  - by destruct (Rollback tx d2).
  - by destruct (Commit tx d2).
  - by destruct (Commit tx d2).
Qed.

(** A transaction that has begun is ended exactly once, after [txFunc]:
    by [Rollback] when [txFunc] returned an error or panicked with a
    value that is not nil, by [Commit] otherwise, that is when [txFunc]
    returned [nil], and also when it panicked with nil or called
    [runtime.Goexit]; the connection is left as that call leaves it.
    When [Begin] fails, [txFunc] is not run and the error of [Begin] is
    returned. *)
Theorem transaction_ends_once txFunc d :
  let '(d', trace, out) := transaction txFunc d in
  match Begin d with
  | (d1, Err e) => trace = [CallBegin] /\ out = Returns (Some e) /\ d' = d1
  | (d1, Ok tx) =>
    (trace = [CallBegin; CallTxFunc; CallCommit] /\
     (snd (txFunc tx d1) = Returns None \/
      snd (txFunc tx d1) = PanicsNil \/
      snd (txFunc tx d1) = Goexits) /\
     d' = fst (Commit tx (fst (txFunc tx d1)))) \/
    (trace = [CallBegin; CallTxFunc; CallRollback] /\
     ((exists e, snd (txFunc tx d1) = Returns (Some e)) \/
      (exists p, snd (txFunc tx d1) = Panics p)) /\
     d' = fst (Rollback tx (fst (txFunc tx d1))))
  end.
Proof.
  unfold transaction.
  destruct (Begin d) as [d1 [tx|e]]; [|done].
  destruct (txFunc tx d1) as [d2 [[e|]|p| |]]; cbn.
  - destruct (Rollback tx d2). right. split; [done|]. split; [|done]. left. by exists e.
  - destruct (Commit tx d2). left. split; [done|]. split; [|done]. by left.
  - destruct (Rollback tx d2). right. split; [done|]. split; [|done]. right. by exists p.
  - destruct (Commit tx d2). left. split; [done|]. split; [|done]. right. by left.
  - destruct (Commit tx d2). left. split; [done|]. split; [|done]. right. by right.
Qed.

End TransactionProperties.

(** * The account manager *)

Section AccountProperties.
Import Accounts.

Lemma BuildAccounts_from (ids : list string) (acc : list Account) :
  fold_left
    (fun (accounts : list Account) authorityID =>
       (accounts ++ [BuildAccountFromAuthorityID authorityID])%list) ids acc
  = (acc ++ map BuildAccountFromAuthorityID ids)%list.
Proof.
  revert acc. induction ids as [|a ids IH]; intros acc; cbn.
  - by rewrite app_nil_r.
  - rewrite IH. by rewrite <- app_assoc.
Qed.

(** [BuildAccountsFromAuthorityIDs] gives one account for each
    authority-id, in order: reading the authority-ids back gives the
    input, and every account has no other field set. *)
Theorem BuildAccountsFromAuthorityIDs_roundtrip (authorityIDs : list string) :
  map AuthorityID (BuildAccountsFromAuthorityIDs authorityIDs) = authorityIDs /\
  length (BuildAccountsFromAuthorityIDs authorityIDs) = length authorityIDs /\
  (forall a, a ∈ BuildAccountsFromAuthorityIDs authorityIDs ->
     ID a = 0 /\ Assertion a = "" /\ ResellerAPI a = false /\ APIKey a = "").
Proof.
  unfold BuildAccountsFromAuthorityIDs. rewrite BuildAccounts_from. cbn.
  split; [|split].
  - rewrite map_map. cbn. apply map_id.
  - apply length_map.
  - intros a Ha. apply list_elem_of_In, in_map_iff in Ha as [id [<- _]]. done.
Qed.

Section ManagerProperties.
Context {D Row G : Type} {DB : SQLDB D Row} {AK : APIKeys G}.
Implicit Types (e : Env D G) (rows : list Row) (accounts : list Account).

Lemma rowsToAccounts_from_ok rows (acc accounts : list Account) :
  rowsToAccounts_from Scan rows acc = Ok accounts <->
  exists scanned,
    accounts = (acc ++ scanned)%list /\
    Forall2 (fun row a => Scan row = Ok a) rows scanned.
Proof.
  revert acc. induction rows as [|row rows IH]; intros acc; cbn.
  - split.
    + intros [= <-]. exists []. by rewrite app_nil_r.
    + intros (scanned & -> & Hall). inversion Hall. by rewrite app_nil_r.
  - destruct (Scan row) as [a|err] eqn:Hscan.
    + rewrite IH. split.
      * intros (scanned & -> & Hall). exists (a :: scanned).
        split; [by rewrite <- app_assoc|]. by constructor.
      * intros (scanned & -> & Hall). inversion Hall as [|? b ? rest Hb Hrest]; subst.
        exists rest. split; [|done].
        rewrite Hscan in Hb. injection Hb as <-. by rewrite <- app_assoc.
    + split; [discriminate|].
      intros (scanned & _ & Hall). inversion Hall as [|? b ? rest Hb Hrest]; subst.
      rewrite Hscan in Hb. discriminate.
Qed.

Lemma rowsToAccounts_from_err rows (acc : list Account) (err : string) :
  rowsToAccounts_from Scan rows acc = Err err <->
  exists before row after,
    rows = (before ++ row :: after)%list /\
    Forall (fun r => exists a, Scan r = Ok a) before /\
    Scan row = Err err.
Proof.
  revert acc. induction rows as [|row rows IH]; intros acc; cbn.
  - split; [discriminate|].
    intros (before & r & after & Hrows & _). by destruct before.
  - destruct (Scan row) as [a|err'] eqn:Hscan.
    + rewrite IH. split.
      * intros (before & r & after & -> & Hall & Hr).
        exists (row :: before), r, after. repeat split; [|done].
        constructor; [by exists a|done].
      * intros (before & r & after & Hrows & Hall & Hr).
        destruct before as [|b before]; cbn in Hrows; injection Hrows as -> ->.
        { rewrite Hscan in Hr. discriminate. }
        exists before, r, after. repeat split; [|done]. by inversion Hall.
    + split.
      * intros [= ->]. exists [], row, rows. repeat split; [constructor|done].
      * intros (before & r & after & Hrows & Hall & Hr).
        destruct before as [|b before]; cbn in Hrows; injection Hrows as -> ->.
        { rewrite Hscan in Hr. congruence. }
        inversion Hall as [|? ? [a Ha] ?]; subst. rewrite Hscan in Ha. discriminate.
Qed.

(** [rowsToAccounts] is all or nothing: it returns the accounts exactly
    when every row scans, one account a row in the order of the rows;
    it returns an error exactly when some row does not scan, and the
    error is that of the first such row. *)
Theorem rowsToAccounts_all_or_nothing rows :
  (forall accounts,
     rowsToAccounts rows = Ok accounts <->
     Forall2 (fun row a => Scan row = Ok a) rows accounts) /\
  (forall err,
     rowsToAccounts rows = Err err <->
     exists before row after,
       rows = (before ++ row :: after)%list /\
       Forall (fun r => exists a, Scan r = Ok a) before /\
       Scan row = Err err).
Proof.
  unfold rowsToAccounts. split.
  - intros accounts. rewrite rowsToAccounts_from_ok. cbn. split.
    + by intros (scanned & -> & Hall).
    + intros Hall. by exists accounts.
  - intros err. apply rowsToAccounts_from_err.
Qed.

Ltac unfold_manager :=
  unfold addAccountAPIKeyField, listAllAccounts, listAccountsFilteredByUser,
    ListUserAccounts, ListNotUserAccounts, CreateAccount, updateAccount,
    updateUserAccount, putAccount, dbExec, dbQuery, logPrintf, newAPIKey,
    validAPIKey, sbind, sret, anyUserFilter in *;
  cbn [fst snd conn keys statements logged String.length Nat.eqb] in *.

(** The loop sends nothing but key updates, each for an account of the
    list that has no key, in the order of the list and at most one for
    each; it stops early only when no key can be generated. *)
Lemma defaultAPIKeys_statements accounts e (stop : error) (e' : Env D G) :
  defaultAPIKeys accounts e = (stop, e') ->
  exists updated apiKeys,
    updated `sublist_of` List.filter keyless accounts /\
    length apiKeys = length updated /\
    statements e' = (statements e ++ zip_with keyUpdate updated apiKeys)%list /\
    (stop = None \/
     stop = Some "Error generating random string for the API key").
Proof.
  revert e. induction accounts as [|acc accounts IH]; intros e Hloop.
  - injection Hloop as <- <-. exists [], []. cbn. rewrite app_nil_r.
    repeat split; [constructor|by left].
  - cbn [defaultAPIKeys List.filter] in *. unfold keyless at 1.
    destruct (0 <? String.length (APIKey acc))%nat eqn:Hkey; cbn [negb].
    { by apply IH. }
    unfold newAPIKey, updateAccount, validAPIKey, dbExec, logPrintf, sbind, sret
      in Hloop.
    cbn [keys conn statements logged ID AuthorityID Assertion ResellerAPI APIKey
         with_APIKey accountArgs] in Hloop.
    destruct (generateAPIKey (keys e)) as [g [apiKey|err]].
    2: { injection Hloop as <- <-. exists [], []. cbn. rewrite app_nil_r.
         repeat split; [apply sublist_nil_l|by right]. }
    cbn [keys conn statements logged] in Hloop.
    destruct (buildValidOrDefaultAPIKey g apiKey) as [g' [key|err]].
    2: { apply IH in Hloop as (updated & apiKeys & Hsub & Hlen & Hst & Hstop).
         exists updated, apiKeys. repeat split; [by apply sublist_cons|done..]. }
    cbn [keys conn statements logged ID AuthorityID Assertion ResellerAPI APIKey
         with_APIKey accountArgs] in Hloop.
    match type of Hloop with
    | context [Exec ?c ?q ?a] => destruct (Exec c q a) as [d' [err|]]
    end;
      cbn [keys conn statements logged fst snd] in Hloop.
    all: apply IH in Hloop as (updated & apiKeys & Hsub & Hlen & Hst & Hstop).
    all: exists (acc :: updated), (key :: apiKeys).
    all: repeat split; [by apply sublist_skip | cbn; by rewrite Hlen | | done].
    all: rewrite Hst; cbn [statements]; rewrite <- app_assoc; reflexivity.
Qed.

(** When the [api_key] column is there already, the first statement
    fails and [addAccountAPIKeyField] stops with no error: it sends no
    other statement, lists no account and draws no key. *)
Theorem addAccountAPIKeyField_column_exists e (d1 : D) (err : string) :
  Exec (conn e) alterAccountAPIKey [] = (d1, Some err) ->
  addAccountAPIKeyField e
    = (None, {| conn := d1; keys := keys e;
                statements := (statements e ++ [Executed alterAccountAPIKey []])%list;
                logged := logged e |}).
Proof. intros Hexec. unfold_manager. by rewrite Hexec. Qed.

(** When the column is added and the accounts are listed,
    [addAccountAPIKeyField] sends, after these two statements, only key
    updates for listed accounts that have no key, in the order of the
    listing and at most one for each account; an account that has a key
    is never updated. It then either sends the NOT NULL statement last,
    or stops before it with the error that no key could be generated. *)
Theorem addAccountAPIKeyField_statements e (d1 : D) rows accounts :
  Exec (conn e) alterAccountAPIKey [] = (d1, None) ->
  Query d1 listAccountsSQL [] = Ok rows ->
  rowsToAccounts rows = Ok accounts ->
  exists updated apiKeys tail,
    updated `sublist_of` List.filter keyless accounts /\
    length apiKeys = length updated /\
    statements (snd (addAccountAPIKeyField e))
      = (statements e
           ++ [Executed alterAccountAPIKey []; Queried listAccountsSQL []]
           ++ zip_with keyUpdate updated apiKeys ++ tail)%list /\
    ((tail = [Executed alterAccountAPIKeyNotNullable []]) \/
     (tail = [] /\
      fst (addAccountAPIKeyField e)
        = Some "Error generating random string for the API key")).
Proof.
  intros Hexec Hquery Hrows. unfold_manager. rewrite Hexec.
  cbn [fst snd conn keys statements logged]. rewrite Hquery.
  cbn [fst snd conn keys statements logged]. rewrite Hrows.
  match goal with
  | |- context [defaultAPIKeys accounts ?e'] =>
    destruct (defaultAPIKeys accounts e') as [stop e''] eqn:Hloop
  end.
  apply defaultAPIKeys_statements in Hloop
    as (updated & apiKeys & Hsub & Hlen & Hst & Hstop).
  cbn [fst snd statements] in Hst.
  exists updated, apiKeys.
  destruct Hstop as [-> | ->].
  - exists [Executed alterAccountAPIKeyNotNullable []].
    repeat split; [done..| |by left].
    destruct (Exec (conn e'') alterAccountAPIKeyNotNullable []); cbn.
    rewrite Hst. by rewrite <- !app_assoc.
  - exists []. repeat split; [done..| |right; by split].
    cbn. rewrite Hst. rewrite app_nil_r. by rewrite <- !app_assoc.
Qed.

(** When the API key of an account cannot be validated, [CreateAccount],
    [updateAccount] and [updateUserAccount] return "Error in generating
    a valid API key" and send no statement. *)
Theorem invalid_APIKey_sends_nothing e (account : Account) (username : string)
    (g : G) (err : string) :
  buildValidOrDefaultAPIKey (keys e) (APIKey account) = (g, Err err) ->
  let refused (f : St D G error) :=
    fst (f e) = Some "Error in generating a valid API key" /\
    statements (snd (f e)) = statements e /\
    conn (snd (f e)) = conn e in
  refused (CreateAccount account) /\
  refused (updateAccount account) /\
  refused (updateUserAccount account username).
Proof.
  intros Hkey. cbv zeta. unfold_manager. rewrite Hkey. cbn. repeat split.
Qed.

(** The empty user name is the filter for any user:
    [listAccountsFilteredByUser] with it sends the query for all accounts,
    without arguments, as [listAllAccounts] does; with any other name it
    sends the query of [ListUserAccounts] for that name and returns what
    [ListUserAccounts] returns. *)
Theorem listAccountsFilteredByUser_dispatch e (username : string) :
  username <> "" ->
  listAccountsFilteredByUser "" e = listAllAccounts e /\
  statements (snd (listAllAccounts e))
    = (statements e ++ [Queried listAccountsSQL []])%list /\
  fst (listAccountsFilteredByUser username e) = fst (ListUserAccounts username e) /\
  statements (snd (listAccountsFilteredByUser username e))
    = (statements e ++ [Queried listUserAccountsSQL [VStr username]])%list /\
  statements (snd (ListUserAccounts username e))
    = (statements e ++ [Queried listUserAccountsSQL [VStr username]])%list.
Proof.
  intros Hne. split; [reflexivity|]. split.
  - unfold_manager. by destruct (Query (conn e) listAccountsSQL []).
  - unfold_manager.
    rewrite (length_eqb_0_false _ Hne).
    cbn [fst snd conn keys statements logged].
    by destruct (Query (conn e) listUserAccountsSQL [VStr username]).
Qed.

End ManagerProperties.

End AccountProperties.

(** * The further properties on concrete inputs *)

Section MoreConcrete.
Import Examples MoreExamples.

(** A request without credentials reaches no handler's datastore. *)
Lemma unauthenticated_requests_stop_witness :
  Fixture.checkIsAdminAndGetUserFromJWT store anonymous
    = Err "Error in retrieving the authentication token" /\
  response (serve KeypairDisableHandler anonymous (start store))
    = Some (BooleanResponse false "error-auth" "" "") /\
  calls (serve KeypairGenerateHandler anonymous (start store)) = [CallCheckJWT] /\
  goroutines (serve KeypairGenerateHandler anonymous (start store)) = [] /\
  db (serve KeypairEnableHandler anonymous (start store)) = store.
Proof.
  assert (H1 : Fixture.checkIsAdminAndGetUserFromJWT store anonymous
               = Err "Error in retrieving the authentication token")
    by (vm_compute; reflexivity).
  destruct (unauthenticated_requests_stop
              (DS := MemDB_Datastore) (KA := MemDB_KeypairAdmin) (LIB := Fixture_Library)
              anonymous (start store) _ H1)
    as (_ & _ & (Hdis & _) & (_ & _ & Hen & _) & _ & (_ & Hcalls & _ & Hgo) & _).
  split; [exact H1|]. split; [exact Hdis|]. split; [exact Hcalls|].
  split; [exact Hgo | exact Hen].
Defined.

(** An id that is not a number is answered 404 by both handlers. *)
Lemma keypair_active_invalid_id_witness :
  Fixture.checkIsAdminAndGetUserFromJWT store (setActive "x7")
    = Ok {| Username := "alice" |} /\
  Atoi (var (setActive "x7") "id") = Err "invalid syntax" /\
  response (serve KeypairDisableHandler (setActive "x7") (start store))
    = Some (BooleanResponse false "error-invalid-key" "" (var (setActive "x7") "id")) /\
  RespStatus (writer (serve KeypairEnableHandler (setActive "x7") (start store)))
    = Some StatusNotFound /\
  db (serve KeypairEnableHandler (setActive "x7") (start store)) = store.
Proof.
  assert (H1 : Fixture.checkIsAdminAndGetUserFromJWT store (setActive "x7")
               = Ok {| Username := "alice" |}) by (vm_compute; reflexivity).
  assert (H2 : Atoi (var (setActive "x7") "id") = Err "invalid syntax")
    by (vm_compute; reflexivity).
  destruct (keypair_active_invalid_id
              (KA := MemDB_KeypairAdmin) (LIB := Fixture_Library)
              (setActive "x7") (start store) _ _ H1 H2)
    as ((Hresp & _) & (_ & Hstatus & Hdb)).
  split; [exact H1|]. split; [exact H2|]. split; [exact Hresp|].
  split; [exact Hstatus | exact Hdb].
Defined.

(** Alice disables and enables keypair 7. *)
Lemma keypair_active_update_witness :
  Fixture.checkIsAdminAndGetUserFromJWT store (setActive "7")
    = Ok {| Username := "alice" |} /\
  Atoi (var (setActive "7") "id") = Ok 7 /\
  db (serve KeypairDisableHandler (setActive "7") (start store))
    = fst (MemDBAdmin.UpdateAllowedKeypairActive store 7 false {| Username := "alice" |}) /\
  db (serve KeypairEnableHandler (setActive "7") (start store))
    = fst (MemDBAdmin.UpdateAllowedKeypairActive store 7 true {| Username := "alice" |}).
Proof.
  assert (H1 : Fixture.checkIsAdminAndGetUserFromJWT store (setActive "7")
               = Ok {| Username := "alice" |}) by (vm_compute; reflexivity).
  assert (H2 : Atoi (var (setActive "7") "id") = Ok 7) by (vm_compute; reflexivity).
  destruct (keypair_active_update
              (KA := MemDB_KeypairAdmin) (LIB := Fixture_Library)
              (setActive "7") (start store) _ _ H1 H2)
    as ((Hdis & _) & (Hen & _)).
  split; [exact H1|]. split; [exact H2|]. split; [exact Hdis | exact Hen].
Defined.

(** The keypair alice's create request hands to [PutKeypair]. *)
Lemma KeypairCreateHandler_put_call_witness :
  CallPutKeypair created ∈ calls (serve KeypairCreateHandler (create "alice") (start store)) /\
  exists authUser body kp privateKey,
    Fixture.checkIsAdminAndGetUserFromJWT store (create "alice") = Ok authUser /\
    Body (create "alice") = Some body /\
    Fixture.decodeKeypairWithPrivateKey body = JsonOk kp /\
    Keypair.AuthorityID created
      = Fixture.TrimSpace (KeypairWithPrivateKey.AuthorityID kp) /\
    Keypair.AuthorityID created <> "" /\
    MemDB.CheckUserInAccount store (Username authUser) (Keypair.AuthorityID created)
      = true /\
    Fixture.ImportSigningKey (Keypair.AuthorityID created)
      (KeypairWithPrivateKey.PrivateKey kp) = Ok (privateKey, Keypair.SealedKey created) /\
    Keypair.KeyID created = PublicKeyID privateKey /\
    Keypair.ID created = 0 /\
    Keypair.Assertion created = "".
Proof.
  assert (H1 : CallPutKeypair created ∈ calls (serve KeypairCreateHandler (create "alice") (start store))).
  { vm_compute. do 4 apply list_elem_of_further. apply list_elem_of_here. }
  split; [exact H1|].
  exact (KeypairCreateHandler_put_call
           (DS := MemDB_Datastore) (LIB := Fixture_Library)
           (create "alice") (start store) created H1).
Defined.

(** Alice's create request is stored and answered 200. *)
Lemma KeypairCreateHandler_put_outcome_witness :
  Fixture.checkIsAdminAndGetUserFromJWT store (create "alice")
    = Ok {| Username := "alice" |} /\
  Fixture.TrimSpace (KeypairWithPrivateKey.AuthorityID createDoc) <> "" /\
  MemDB.CheckUserInAccount store "alice"
    (Fixture.TrimSpace (KeypairWithPrivateKey.AuthorityID createDoc)) = true /\
  Fixture.ImportSigningKey
    (Fixture.TrimSpace (KeypairWithPrivateKey.AuthorityID createDoc))
    (KeypairWithPrivateKey.PrivateKey createDoc)
    = Ok ({| PublicKeyID := "id:private-key-material" |}, "sealed:private-key-material") /\
  db (serve KeypairCreateHandler (create "alice") (start store)) = fst (MemDB.PutKeypair store created).
Proof.
  assert (H1 : Fixture.checkIsAdminAndGetUserFromJWT store (create "alice")
               = Ok {| Username := "alice" |}) by (vm_compute; reflexivity).
  assert (H2 : Body (create "alice") = Some (Fixture.DocKeypair createDoc))
    by reflexivity.
  assert (H3 : Fixture.decodeKeypairWithPrivateKey (Fixture.DocKeypair createDoc)
               = JsonOk createDoc) by reflexivity.
  assert (H4 : Fixture.TrimSpace (KeypairWithPrivateKey.AuthorityID createDoc) <> "")
    by (vm_compute; discriminate).
  assert (H5 : MemDB.CheckUserInAccount store "alice"
                 (Fixture.TrimSpace (KeypairWithPrivateKey.AuthorityID createDoc)) = true)
    by (vm_compute; reflexivity).
  assert (H6 : Fixture.ImportSigningKey
                 (Fixture.TrimSpace (KeypairWithPrivateKey.AuthorityID createDoc))
                 (KeypairWithPrivateKey.PrivateKey createDoc)
               = Ok ({| PublicKeyID := "id:private-key-material" |},
                     "sealed:private-key-material")) by (vm_compute; reflexivity).
  destruct (KeypairCreateHandler_put_outcome
              (DS := MemDB_Datastore) (LIB := Fixture_Library)
              (create "alice") (start store) {| Username := "alice" |}
              (Fixture.DocKeypair createDoc) createDoc _ _ H1 H2 H3 H4 H5 H6)
    as (Hdb & _).
  split; [exact H1|]. split; [exact H4|]. split; [exact H5|]. split; [exact H6|].
  exact Hdb.
Defined.

(** A white-space authority-id is refused by create and generate. *)
Lemma blank_authority_rejected_witness :
  Fixture.checkIsAdminAndGetUserFromJWT store blank = Ok {| Username := "alice" |} /\
  Fixture.TrimSpace (KeypairWithPrivateKey.AuthorityID blankDoc) = "" /\
  response (serve KeypairCreateHandler blank (start store))
    = Some (BooleanResponse false "error-keypair-json" "" "The authority-id is mandatory") /\
  calls (serve KeypairGenerateHandler blank (start store))
    = [CallCheckJWT; CallJSONDecode] /\
  goroutines (serve KeypairGenerateHandler blank (start store)) = [].
Proof.
  assert (H1 : Fixture.checkIsAdminAndGetUserFromJWT store blank
               = Ok {| Username := "alice" |}) by (vm_compute; reflexivity).
  assert (H2 : Body blank = Some (Fixture.DocKeypair blankDoc)) by reflexivity.
  assert (H3 : Fixture.decodeKeypairWithPrivateKey (Fixture.DocKeypair blankDoc)
               = JsonOk blankDoc) by reflexivity.
  assert (H4 : Fixture.TrimSpace (KeypairWithPrivateKey.AuthorityID blankDoc) = "")
    by (vm_compute; reflexivity).
  destruct (blank_authority_rejected (DS := MemDB_Datastore) (LIB := Fixture_Library)
              blank (start store) {| Username := "alice" |}
              (Fixture.DocKeypair blankDoc) blankDoc H1 H2 H3 H4)
    as ((Hresp & _) & (_ & _ & Hcalls & _ & Hgo)).
  split; [exact H1|]. split; [exact H4|]. split; [exact Hresp|].
  split; [exact Hcalls | exact Hgo].
Defined.

(** The goroutine of alice's generate request. *)
Lemma KeypairGenerateHandler_goroutine_gate_witness :
  goroutines (serve KeypairGenerateHandler generate (start store))
    <> goroutines (start store) /\
  exists authUser body kp,
    Fixture.checkIsAdminAndGetUserFromJWT store generate = Ok authUser /\
    Body generate = Some body /\
    Fixture.decodeKeypairWithPrivateKey body = JsonOk kp /\
    MemDB.CheckUserInAccount store (Username authUser)
      (Fixture.TrimSpace (KeypairWithPrivateKey.AuthorityID kp)) = true /\
    goroutines (serve KeypairGenerateHandler generate (start store))
      = (goroutines (start store)
           ++ [GoGenerateKeypair
                 (Fixture.TrimSpace (KeypairWithPrivateKey.AuthorityID kp)) ""
                 (KeypairWithPrivateKey.KeyName kp)])%list.
Proof.
  assert (H1 : goroutines (serve KeypairGenerateHandler generate (start store))
               <> goroutines (start store)) by (vm_compute; discriminate).
  split; [exact H1|].
  exact (KeypairGenerateHandler_goroutine_gate
           (DS := MemDB_Datastore) (LIB := Fixture_Library)
           generate (start store) H1).
Defined.

(** Alice polls the job the tracker holds as Generating. *)
Lemma KeypairStatusHandler_success_witness :
  response (serve KeypairStatusHandler (poll "alice") (start storeGenerating))
    = Some (BooleanResponse true "" "" "Generating") /\
  exists authUser ks,
    Fixture.checkIsAdminAndGetUserFromJWT storeGenerating (poll "alice") = Ok authUser /\
    MemDB.CheckUserInAccount storeGenerating (Username authUser)
      (var (poll "alice") "authorityID") = true /\
    MemDB.GetKeypairStatus storeGenerating (var (poll "alice") "authorityID")
      (var (poll "alice") "keyName") = Ok ks /\
    "Generating" = KeypairStatus.Status ks /\
    calls (serve KeypairStatusHandler (poll "alice") (start storeGenerating))
      = [CallCheckJWT;
         CallCheckUserInAccount (Username authUser) (var (poll "alice") "authorityID");
         CallGetKeypairStatus (var (poll "alice") "authorityID")
           (var (poll "alice") "keyName")].
Proof.
  assert (H1 : response (serve KeypairStatusHandler (poll "alice") (start storeGenerating))
               = Some (BooleanResponse true "" "" "Generating"))
    by (vm_compute; reflexivity).
  split; [exact H1|].
  exact (KeypairStatusHandler_success (DS := MemDB_Datastore) (LIB := Fixture_Library)
           (poll "alice") (start storeGenerating) _ _ _ H1).
Defined.

(** Bob, who is in globex only, polls and creates for acme. *)
Lemma not_member_rejected_witness :
  Fixture.checkIsAdminAndGetUserFromJWT store (poll "bob") = Ok {| Username := "bob" |} /\
  MemDB.CheckUserInAccount store "bob" (var (poll "bob") "authorityID") = false /\
  response (serve KeypairStatusHandler (poll "bob") (start store))
    = Some (BooleanResponse false "error-auth" ""
              "Your user does not have permissions for the Signing Authority") /\
  (forall a k, CallGetKeypairStatus a k
     ∉ calls (serve KeypairStatusHandler (poll "bob") (start store))).
Proof.
  assert (H1 : Fixture.checkIsAdminAndGetUserFromJWT store (poll "bob")
               = Ok {| Username := "bob" |}) by (vm_compute; reflexivity).
  assert (H2 : MemDB.CheckUserInAccount store "bob" (var (poll "bob") "authorityID")
               = false) by (vm_compute; reflexivity).
  destruct (not_member_rejected (DS := MemDB_Datastore) (LIB := Fixture_Library)
              (poll "bob") (start store) {| Username := "bob" |} H1) as (Hstatus & _).
  destruct (Hstatus H2) as (Hresp & _ & _ & _ & Hget & _).
  split; [exact H1|]. split; [exact H2|]. split; [exact Hresp | exact Hget].
Defined.

(** Alice's listing of acme is complete. *)
Lemma KeypairListHandler_complete_witness :
  Fixture.checkIsAdminAndGetUserFromJWT store listAcme = Ok {| Username := "alice" |} /\
  MemDB.ListAllowedKeypairs store {| Username := "alice" |} = Ok [kpAcme; kpGlobex] /\
  exists keypairs,
    response (serve KeypairListHandler listAcme (start store))
      = Some (KeypairsResponse true "" "" "" keypairs) /\
    keypairs `sublist_of` [kpAcme; kpGlobex] /\
    (forall k, k ∈ keypairs <->
               k ∈ [kpAcme; kpGlobex] /\
               Keypair.AuthorityID k = var listAcme "account_code").
Proof.
  assert (H1 : Fixture.checkIsAdminAndGetUserFromJWT store listAcme
               = Ok {| Username := "alice" |}) by (vm_compute; reflexivity).
  assert (H2 : MemDB.ListAllowedKeypairs store {| Username := "alice" |}
               = Ok [kpAcme; kpGlobex]) by (vm_compute; reflexivity).
  destruct (KeypairListHandler_complete (DS := MemDB_Datastore) (LIB := Fixture_Library)
              listAcme (start store) _ _ H1 H2)
    as (keypairs & Hresp & _ & Hsub & Hiff & _).
  split; [exact H1|]. split; [exact H2|].
  exists keypairs. split; [exact Hresp|]. split; [exact Hsub | exact Hiff].
Defined.

(** Alice asks for the progress of the statuses she may see. *)
Lemma status_handlers_answer_witness :
  Fixture.checkIsAdminAndGetUserFromJWT storeGenerating (poll "alice")
    = Ok {| Username := "alice" |} /\
  response (serve KeypairStatusProgressHandler (poll "alice") (start storeGenerating))
    = Some (match MemDBAdmin.ListAllowedKeypairStatus storeGenerating
                    {| Username := "alice" |} with
            | Ok ks => KeypairStatusResponse true "" "" "" ks
            | Err _ => BooleanResponse false "error-keypair-json" ""
                         "Cannot find the status of the keypairs"
            end).
Proof.
  assert (H1 : Fixture.checkIsAdminAndGetUserFromJWT storeGenerating (poll "alice")
               = Ok {| Username := "alice" |}) by (vm_compute; reflexivity).
  destruct (status_handlers_answer
              (DS := MemDB_Datastore) (KA := MemDB_KeypairAdmin) (LIB := Fixture_Library)
              (poll "alice") (start storeGenerating) _ H1) as (Hresp & _).
  split; [exact H1 | exact Hresp].
Defined.

(** A negative [fromID] is handed on as it is. *)
Lemma SigningLogHandler_parsed_fromID_witness :
  Atoi (FormValue (signingLog "alice" (Some "-5")) "fromID") = Ok (-5) /\
  calls (serve (SigningLogHandler MaxFromID) (signingLog "alice" (Some "-5")) (start store))
    = [CallListSigningLog (-5)].
Proof.
  assert (H1 : Atoi (FormValue (signingLog "alice" (Some "-5")) "fromID") = Ok (-5))
    by (vm_compute; reflexivity).
  destruct (SigningLogHandler_parsed_fromID (DS := MemDB_Datastore)
              MaxFromID (signingLog "alice" (Some "-5")) (start store) _ H1)
    as (Hcalls & _).
  split; [exact H1 | exact Hcalls].
Defined.

(** An assertion that is not base64. *)
Lemma KeypairAssertionHandler_decode_failure_witness :
  Fixture.checkIsAdminAndGetUserFromJWT store (attach "alice" 7 "%%%")
    = Ok {| Username := "alice" |} /\
  AssertionRequest.ID (attachDoc 7 "%%%") <> 0 /\
  (Fixture.base64_DecodeString (AssertionRequest.Assertion (attachDoc 7 "%%%"))
     = Err "illegal base64 data at input byte 0" \/
   exists bytes,
     Fixture.base64_DecodeString (AssertionRequest.Assertion (attachDoc 7 "%%%"))
       = Ok bytes /\
     Fixture.asserts_Decode bytes = Err "illegal base64 data at input byte 0") /\
  response (serve KeypairAssertionHandler (attach "alice" 7 "%%%") (start store))
    = Some (BooleanResponse false "decode-assertion" "" "illegal base64 data at input byte 0") /\
  db (serve KeypairAssertionHandler (attach "alice" 7 "%%%") (start store)) = store.
Proof.
  assert (H1 : Fixture.checkIsAdminAndGetUserFromJWT store (attach "alice" 7 "%%%")
               = Ok {| Username := "alice" |}) by (vm_compute; reflexivity).
  assert (H2 : Body (attach "alice" 7 "%%%")
               = Some (Fixture.DocAssertion (attachDoc 7 "%%%"))) by reflexivity.
  assert (H3 : Fixture.decodeAssertionRequest (Fixture.DocAssertion (attachDoc 7 "%%%"))
               = JsonOk (attachDoc 7 "%%%")) by reflexivity.
  assert (H4 : AssertionRequest.ID (attachDoc 7 "%%%") <> 0) by (cbn; lia).
  assert (H5 : Fixture.base64_DecodeString (AssertionRequest.Assertion (attachDoc 7 "%%%"))
                 = Err "illegal base64 data at input byte 0" \/
               exists bytes,
                 Fixture.base64_DecodeString
                   (AssertionRequest.Assertion (attachDoc 7 "%%%")) = Ok bytes /\
                 Fixture.asserts_Decode bytes = Err "illegal base64 data at input byte 0").
  { left. vm_compute; reflexivity. }
  destruct (KeypairAssertionHandler_decode_failure
              (DS := MemDB_Datastore) (LIB := Fixture_Library)
              (attach "alice" 7 "%%%") (start store) {| Username := "alice" |}
              (Fixture.DocAssertion (attachDoc 7 "%%%")) (attachDoc 7 "%%%")
              "illegal base64 data at input byte 0" H1 H2 H3 H4 H5)
    as (Hresp & _ & _ & _ & Hdb).
  split; [exact H1|]. split; [exact H4|]. split; [exact H5|].
  split; [exact Hresp | exact Hdb].
Defined.

(** Bob's attach request for acme: the datastore's refusal is the
    answer. *)
Lemma KeypairAssertionHandler_update_outcome_witness :
  Fixture.checkIsAdminAndGetUserFromJWT store (attach "bob" 7 accountKeyAssertion)
    = Ok {| Username := "bob" |} /\
  Fixture.base64_DecodeString accountKeyAssertion = Ok accountKeyAssertionText /\
  response (serve KeypairAssertionHandler (attach "bob" 7 accountKeyAssertion) (start store))
    = Some (BooleanResponse false "NotAuthorizedError" "" "not permitted") /\
  RespStatus (writer (serve KeypairAssertionHandler (attach "bob" 7 accountKeyAssertion)
                        (start store)))
    = Some StatusBadRequest.
Proof.
  assert (H1 : Fixture.checkIsAdminAndGetUserFromJWT store
                 (attach "bob" 7 accountKeyAssertion) = Ok {| Username := "bob" |})
    by (vm_compute; reflexivity).
  assert (H2 : Body (attach "bob" 7 accountKeyAssertion)
               = Some (Fixture.DocAssertion (attachDoc 7 accountKeyAssertion)))
    by reflexivity.
  assert (H3 : Fixture.decodeAssertionRequest
                 (Fixture.DocAssertion (attachDoc 7 accountKeyAssertion))
               = JsonOk (attachDoc 7 accountKeyAssertion)) by reflexivity.
  assert (H4 : AssertionRequest.ID (attachDoc 7 accountKeyAssertion) <> 0)
    by (cbn; lia).
  assert (H5 : Fixture.base64_DecodeString accountKeyAssertion
               = Ok accountKeyAssertionText) by (vm_compute; reflexivity).
  destruct (Fixture.asserts_Decode accountKeyAssertionText) as [a|err] eqn:H6.
  2: { exfalso. revert H6. vm_compute. discriminate. }
  assert (H7 : Assertion.TypeName a = AccountKeyTypeName).
  { revert H6. vm_compute. by intros [= <-]. }
  destruct (KeypairAssertionHandler_update_outcome
              (DS := MemDB_Datastore) (LIB := Fixture_Library)
              (attach "bob" 7 accountKeyAssertion) (start store) {| Username := "bob" |}
              (Fixture.DocAssertion (attachDoc 7 accountKeyAssertion))
              (attachDoc 7 accountKeyAssertion) accountKeyAssertionText a
              H1 H2 H3 H4 H5 H6 H7)
    as (_ & Hresp & Herr).
  split; [exact H1|]. split; [exact H5|].
  assert (Hrefused :
    snd (UpdateKeypairAssertion (start store).(db)
           {| Keypair.ID := AssertionRequest.ID (attachDoc 7 accountKeyAssertion);
              Keypair.AuthorityID := Assertion.HeaderString a "account-id";
              Keypair.KeyID := Assertion.HeaderString a "public-key-sha3-384";
              Keypair.Active := false; Keypair.SealedKey := "";
              Keypair.Assertion := accountKeyAssertionText |} {| Username := "bob" |})
    = ("NotAuthorizedError", Some "not permitted")).
  { revert H6. vm_compute. by intros [= <-]. }
  split.
  - rewrite Hresp, Hrefused. reflexivity.
  - exact (proj1 (Herr _ _ Hrefused)).
Defined.

(** The keypair alice's attach request hands to
    [UpdateKeypairAssertion]. *)
Lemma KeypairAssertionHandler_update_call_witness :
  CallUpdateKeypairAssertion
    {| Keypair.ID := 7; Keypair.AuthorityID := "acme"; Keypair.KeyID := accountKeyID;
       Keypair.Active := false; Keypair.SealedKey := "";
       Keypair.Assertion := accountKeyAssertionText |}
    {| Username := "alice" |}
    ∈ calls (serve KeypairAssertionHandler (attach "alice" 7 accountKeyAssertion)
               (start store)) /\
  exists body req bytes a,
    Fixture.checkIsAdminAndGetUserFromJWT store (attach "alice" 7 accountKeyAssertion)
      = Ok {| Username := "alice" |} /\
    Body (attach "alice" 7 accountKeyAssertion) = Some body /\
    Fixture.decodeAssertionRequest body = JsonOk req /\
    Fixture.base64_DecodeString (AssertionRequest.Assertion req) = Ok bytes /\
    Fixture.asserts_Decode bytes = Ok a /\
    Assertion.TypeName a = AccountKeyTypeName /\
    7 = AssertionRequest.ID req /\
    7 <> 0 /\
    "acme" = Assertion.HeaderString a "account-id" /\
    accountKeyID = Assertion.HeaderString a "public-key-sha3-384" /\
    accountKeyAssertionText = bytes.
Proof.
  assert (H1 : CallUpdateKeypairAssertion
                 {| Keypair.ID := 7; Keypair.AuthorityID := "acme";
                    Keypair.KeyID := accountKeyID; Keypair.Active := false;
                    Keypair.SealedKey := ""; Keypair.Assertion := accountKeyAssertionText |}
                 {| Username := "alice" |}
               ∈ calls (serve KeypairAssertionHandler
                          (attach "alice" 7 accountKeyAssertion) (start store))).
  { vm_compute. do 4 apply list_elem_of_further. apply list_elem_of_here. }
  split; [exact H1|].
  exact (KeypairAssertionHandler_update_call
           (DS := MemDB_Datastore) (LIB := Fixture_Library)
           (attach "alice" 7 accountKeyAssertion) (start store) _ _ H1).
Defined.

(** Alice's requests with an invalid id and with a stored key: the status
    follows the success flag. *)
Lemma status_agrees_with_success_witness :
  Fixture.checkIsAdminAndGetUserFromJWT store (setActive "x7")
    = Ok {| Username := "alice" |} /\
  exists p,
    response (serve KeypairDisableHandler (setActive "x7") (start store)) = Some p /\
    match RespStatus (writer (serve KeypairDisableHandler (setActive "x7") (start store))) with
    | Some code => payload_success p = (code <? 400)
    | None => payload_success p = true
    end.
Proof.
  assert (H1 : Fixture.checkIsAdminAndGetUserFromJWT store (setActive "x7")
               = Ok {| Username := "alice" |}) by (vm_compute; reflexivity).
  destruct (status_agrees_with_success
              (DS := MemDB_Datastore) (KA := MemDB_KeypairAdmin) (LIB := Fixture_Library)
              MaxFromID (setActive "x7") (start store) _ H1)
    as (_ & _ & Hdis & _).
  split; [exact H1 | exact Hdis].
Defined.

End MoreConcrete.

Section ManagerConcrete.
Import Transaction Accounts MoreExamples.

(** A row is inserted and the commit fails: [transaction] returns [nil]
    and the row is not committed. *)
Lemma transaction_outcome_witness :
  Transaction.Begin failingTable = (failingTable, Ok tt) /\
  snd (Transaction.transaction (Transaction.insertRow 2) failingTable)
    = snd (Transaction.insertRow 2 tt failingTable) /\
  snd (Transaction.transaction (Transaction.insertRow 2) failingTable)
    = Transaction.Returns None /\
  snd (Transaction.Commit tt (fst (Transaction.insertRow 2 tt failingTable)))
    = Some "commit failed" /\
  Transaction.committed
    (fst (fst (Transaction.transaction (Transaction.insertRow 2) failingTable))) = [1].
Proof.
  assert (H1 : Transaction.Begin failingTable = (failingTable, Ok tt)) by reflexivity.
  pose proof (transaction_outcome (SQLI := Transaction.Table_SQL)
                (Transaction.insertRow 2) failingTable failingTable tt H1) as Hout.
  split; [exact H1|]. split; [exact Hout|]. split; [rewrite Hout; reflexivity|].
  split; vm_compute; reflexivity.
Defined.

(** A row is inserted and the body panics with nil, or calls
    [runtime.Goexit]: the row is committed all the same, and after the
    panic with nil [transaction] returns [nil]. A panic with a value
    rolls the row back and goes on. *)
Example transaction_panic_nil :
  Transaction.transaction (Transaction.insertThenPanicNil 2)
    {| committed := [1]; working := [1]; commitFails := false |}
    = ({| committed := [1; 2]; working := [1; 2]; commitFails := false |},
       [CallBegin; CallTxFunc; CallCommit], Returns None) /\
  Transaction.transaction (Transaction.insertThenGoexit 2)
    {| committed := [1]; working := [1]; commitFails := false |}
    = ({| committed := [1; 2]; working := [1; 2]; commitFails := false |},
       [CallBegin; CallTxFunc; CallCommit], Goexits) /\
  Transaction.transaction (Transaction.insertThenPanic 2)
    {| committed := [1]; working := [1]; commitFails := false |}
    = ({| committed := [1]; working := [1]; commitFails := false |},
       [CallBegin; CallTxFunc; CallRollback], Panics "index out of range").
Proof. repeat split. Qed.

(** The column exists already: nothing but the first statement. *)
Lemma addAccountAPIKeyField_column_exists_witness :
  Exec (conn (manager {| accounts := accounts accountRows; hasAPIKey := true |} 0))
    alterAccountAPIKey []
    = ({| accounts := accounts accountRows; hasAPIKey := true |},
       Some "column api_key of relation account already exists") /\
  addAccountAPIKeyField (manager {| accounts := accounts accountRows; hasAPIKey := true |} 0)
    = (None,
       {| conn := {| accounts := accounts accountRows; hasAPIKey := true |};
          keys := 0;
          statements := [Executed alterAccountAPIKey []];
          logged := [] |}).
Proof.
  assert (H1 : Exec (conn (manager {| accounts := accounts accountRows;
                                      hasAPIKey := true |} 0))
                 alterAccountAPIKey []
               = ({| accounts := accounts accountRows; hasAPIKey := true |},
                  Some "column api_key of relation account already exists"))
    by (vm_compute; reflexivity).
  split; [exact H1|].
  exact (addAccountAPIKeyField_column_exists (DB := Rows_SQLDB) (AK := Counter_APIKeys)
           (manager {| accounts := accounts accountRows; hasAPIKey := true |} 0)
           _ _ H1).
Defined.

(** The migration of [accountRows]: the two accounts without a key are
    updated, the account with a key is not. *)
Lemma addAccountAPIKeyField_statements_witness :
  Exec (conn (manager accountRows 0)) alterAccountAPIKey []
    = ({| accounts := accounts accountRows; hasAPIKey := true |}, None) /\
  Query {| accounts := accounts accountRows; hasAPIKey := true |} listAccountsSQL []
    = Ok (accounts accountRows) /\
  rowsToAccounts (accounts accountRows) = Ok (accounts accountRows) /\
  exists updated apiKeys tail,
    updated `sublist_of` List.filter keyless (accounts accountRows) /\
    length apiKeys = length updated /\
    statements (snd (addAccountAPIKeyField (manager accountRows 0)))
      = (statements (manager accountRows 0)
           ++ [Executed alterAccountAPIKey []; Queried listAccountsSQL []]
           ++ zip_with keyUpdate updated apiKeys ++ tail)%list /\
    ((tail = [Executed alterAccountAPIKeyNotNullable []]) \/
     (tail = [] /\
      fst (addAccountAPIKeyField (manager accountRows 0))
        = Some "Error generating random string for the API key")).
Proof.
  assert (H1 : Exec (conn (manager accountRows 0)) alterAccountAPIKey []
               = ({| accounts := accounts accountRows; hasAPIKey := true |}, None))
    by (vm_compute; reflexivity).
  assert (H2 : Query {| accounts := accounts accountRows; hasAPIKey := true |}
                 listAccountsSQL [] = Ok (accounts accountRows)) by reflexivity.
  assert (H3 : rowsToAccounts (accounts accountRows) = Ok (accounts accountRows))
    by (vm_compute; reflexivity).
  split; [exact H1|]. split; [exact H2|]. split; [exact H3|].
  exact (addAccountAPIKeyField_statements (DB := Rows_SQLDB) (AK := Counter_APIKeys)
           (manager accountRows 0) _ _ _ H1 H2 H3).
Defined.

(** The statements of that migration, and of the one that runs out of
    keys after the first update. *)
Example addAccountAPIKeyField_run :
  statements (snd (addAccountAPIKeyField (manager accountRows 0)))
    = [Executed alterAccountAPIKey []; Queried listAccountsSQL [];
       keyUpdate (unkeyed 2 "globex") "a-generated";
       keyUpdate (unkeyed 3 "initech") "b-generated";
       Executed alterAccountAPIKeyNotNullable []] /\
  addAccountAPIKeyField (manager accountRows 12)
    = (Some "Error generating random string for the API key",
       {| conn := {| accounts := [keyed; with_APIKey "m-generated" (unkeyed 2 "globex");
                                 unkeyed 3 "initech"];
                     hasAPIKey := true |};
          keys := 13;
          statements := [Executed alterAccountAPIKey []; Queried listAccountsSQL [];
                         keyUpdate (unkeyed 2 "globex") "m-generated"];
          logged := ["Could not generate random string for the API key"] |}).
Proof. split; vm_compute; reflexivity. Qed.

(** A key of fewer than ten characters is not valid for the counter
    keys: nothing is sent. *)
Lemma invalid_APIKey_sends_nothing_witness :
  buildValidOrDefaultAPIKey (keys (manager accountRows 0)) (APIKey (unkeyed 2 "globex"))
    = (0, Err "too short") /\
  fst (CreateAccount (unkeyed 2 "globex") (manager accountRows 0))
    = Some "Error in generating a valid API key" /\
  statements (snd (updateAccount (unkeyed 2 "globex") (manager accountRows 0))) = [] /\
  statements (snd (updateUserAccount (unkeyed 2 "globex") "alice" (manager accountRows 0)))
    = [].
Proof.
  assert (H1 : buildValidOrDefaultAPIKey (keys (manager accountRows 0))
                 (APIKey (unkeyed 2 "globex")) = (0, Err "too short"))
    by (vm_compute; reflexivity).
  destruct (invalid_APIKey_sends_nothing (DB := Rows_SQLDB) (AK := Counter_APIKeys)
              (manager accountRows 0) (unkeyed 2 "globex") "alice" _ _ H1)
    as ((Hcreate & _) & (_ & Hupdate & _) & (_ & Huser & _)).
  split; [exact H1|]. split; [exact Hcreate|]. split; [exact Hupdate | exact Huser].
Defined.

(** Listing for alice and listing for the empty name. *)
Lemma listAccountsFilteredByUser_dispatch_witness :
  "alice" <> "" /\
  statements (snd (listAllAccounts (manager accountRows 0)))
    = [Queried listAccountsSQL []] /\
  statements (snd (listAccountsFilteredByUser "alice" (manager accountRows 0)))
    = [Queried listUserAccountsSQL [VStr "alice"]].
Proof.
  assert (H1 : "alice" <> "") by discriminate.
  destruct (listAccountsFilteredByUser_dispatch (DB := Rows_SQLDB)
              (manager accountRows 0) "alice" H1)
    as (_ & Hall & _ & Huser & _).
  split; [exact H1|]. split; [exact Hall | exact Huser].
Defined.

End ManagerConcrete.
